(** * Smart irrigation help bot: intent matching and resource resolution

    A shallow embedding of the help chatbot of the smart-irrigation
    application:

    - [irrigation/utils/json_loader.py]: [JSONIntentLoader], the scorer of
      the structured intents;
    - [irrigation/services/knowledge/guide_bot.py]: [SpellingCorrector] and
      [IrrigationGuide], the resource resolver, the suggestion ranker, the
      per-user conversation history and the dispatcher [get_help_response].

    Modelling conventions.
    - Python [str] values are [string]s of 8-bit characters; the case and
      whitespace operations are the ASCII ones (a character above 127 is
      neither cased nor a space).
    - Python [dict]s are association lists in insertion order, because the
      code relies on iteration order ("first match wins").
    - Python [set]s of words are duplicate-free lists; only their size and
      membership are observed by the code.
    - Python [float] scores are exact rationals ([Q]).  Every float the code
      builds is [1.0], [0.8], [n/m * 0.6] or a small multiple of [0.5] and
      [0.1]; the comparisons proved below ([0 <= s], [s <= 1], [s >= 0.6],
      [s > 1]) have the same outcome on the binary64 values.
    - Exceptions are values: a computation of [IrrigationGuide] is a state
      transformer that returns either a result or the exception raised. *)

From Stdlib Require Import Bool Arith List ZArith QArith Lia Lqa.
From Stdlib Require Import Ascii String.
Import ListNotations.
Close Scope Q_scope.
Open Scope string_scope.
Open Scope nat_scope.

(* ================================================================== *)
(** * Python string operations *)

Module PyStr.

(** [c.isspace()] on an ASCII character: TAB..CR, FS..US and the space. *)
Definition is_space (c : ascii) : bool :=
  let n := nat_of_ascii c in
  ((9 <=? n) && (n <=? 13)) || ((28 <=? n) && (n <=? 32)).

Definition is_upper (c : ascii) : bool :=
  let n := nat_of_ascii c in (65 <=? n) && (n <=? 90).

Definition is_lower (c : ascii) : bool :=
  let n := nat_of_ascii c in (97 <=? n) && (n <=? 122).

Definition lower_char (c : ascii) : ascii :=
  if is_upper c then ascii_of_nat (nat_of_ascii c + 32) else c.

Definition upper_char (c : ascii) : ascii :=
  if is_lower c then ascii_of_nat (nat_of_ascii c - 32) else c.

(** [s.lower()] *)
Fixpoint lower (s : string) : string :=
  match s with
  | EmptyString => EmptyString
  | String c s' => String (lower_char c) (lower s')
  end.

(** [s.capitalize()]: first character upper-cased, the rest lower-cased. *)
Definition capitalize (s : string) : string :=
  match s with
  | EmptyString => EmptyString
  | String c s' => String (upper_char c) (lower s')
  end.

(** [s[0].isupper()] for a non-empty [s] (an [IndexError] otherwise; the
    callers only pass words produced by [split], which are non-empty). *)
Definition first_isupper (s : string) : bool :=
  match s with
  | EmptyString => false
  | String c _ => is_upper c
  end.

Fixpoint has_upper (s : string) : bool :=
  match s with
  | EmptyString => false
  | String c s' => is_upper c || has_upper s'
  end.

Fixpoint has_lower (s : string) : bool :=
  match s with
  | EmptyString => false
  | String c s' => is_lower c || has_lower s'
  end.

(** [s.islower()]: at least one cased character and no upper-case one. *)
Definition islower (s : string) : bool :=
  has_lower s && negb (has_upper s).

(** [s.lstrip()], [s.rstrip()] and [s.strip()] *)
Fixpoint lstrip (s : string) : string :=
  match s with
  | EmptyString => EmptyString
  | String c s' => if is_space c then lstrip s' else s
  end.

Fixpoint rstrip (s : string) : string :=
  match s with
  | EmptyString => EmptyString
  | String c s' =>
      match rstrip s' with
      | EmptyString => if is_space c then EmptyString else String c EmptyString
      | r => String c r
      end
  end.

Definition strip (s : string) : string := rstrip (lstrip s).

(** [s.split()]: the maximal runs of non-space characters, in order.
    [cur] is the run being read ([None] between two runs). *)
Fixpoint split_from (cur : option string) (s : string) : list string :=
  match s with
  | EmptyString =>
      match cur with Some w => [w] | None => [] end
  | String c s' =>
      if is_space c then
        match cur with
        | Some w => w :: split_from None s'
        | None => split_from None s'
        end
      else
        split_from
          (Some (match cur with
                 | Some w => w ++ String c EmptyString
                 | None => String c EmptyString
                 end)) s'
  end.

Definition split (s : string) : list string := split_from None s.

(** [sep.join(l)] *)
Fixpoint join (sep : string) (l : list string) : string :=
  match l with
  | [] => EmptyString
  | [w] => w
  | w :: l' => w ++ sep ++ join sep l'
  end.

(** [sub in s]: [sub] occurs in [s] as a contiguous substring. *)
Fixpoint contains (sub s : string) : bool :=
  prefix sub s ||
  match s with
  | EmptyString => false
  | String _ s' => contains sub s'
  end.

(** [s[:n]] for [n >= 0] *)
Definition slice_to (n : nat) (s : string) : string := substring 0 n s.

(** [x in l] for a list of strings *)
Definition mem (x : string) (l : list string) : bool :=
  existsb (String.eqb x) l.

(** [any(p(x) for x in l)] *)
Definition any {A} (p : A -> bool) (l : list A) : bool := existsb p l.

End PyStr.

(* ================================================================== *)
(** * Python sets of words *)

Module PySet.

(** [set(l)]: the distinct elements of [l] (first occurrences kept; the
    code never observes the order). *)
Fixpoint of_list (l : list string) : list string :=
  match l with
  | [] => []
  | x :: l' => if PyStr.mem x l' then of_list l' else x :: of_list l'
  end.

(** [a & b] *)
Definition inter (a b : list string) : list string :=
  filter (fun x => PyStr.mem x b) a.

(** [len(a)] *)
Definition size (a : list string) : nat := List.length a.

End PySet.

(* ================================================================== *)
(** * Edit distance

    [Levenshtein.distance] comes from the python-Levenshtein package: the
    classical edit distance with unit-cost insertion, deletion and
    substitution, computed here row by row (Wagner-Fischer). *)

Module Levenshtein.

Definition min3 (a b c : nat) : nat := Nat.min a (Nat.min b c).

(** One row of the table: [prev] is the row of the prefix read so far
    (without its first cell), [left] the cell to the left and [diag] the
    cell above-left. *)
Fixpoint next_row (c : ascii) (b : string) (prev : list nat)
         (left diag : nat) : list nat :=
  match b, prev with
  | String bj b', up :: prev' =>
      let cell :=
        min3 (S up) (S left) (diag + (if Ascii.eqb c bj then 0 else 1)) in
      cell :: next_row c b' prev' cell up
  | _, _ => []
  end.

Definition step (b : string) (row : list nat) (c : ascii) : list nat :=
  match row with
  | d :: prev => S d :: next_row c b prev (S d) d
  | [] => []
  end.

Fixpoint rows (a b : string) (row : list nat) : list nat :=
  match a with
  | EmptyString => row
  | String c a' => rows a' b (step b row c)
  end.

Definition distance (a b : string) : nat :=
  last (rows a b (seq 0 (S (String.length b)))) 0.

End Levenshtein.

(* ================================================================== *)
(** * SpellingCorrector (guide_bot.py) *)

Module SpellingCorrector.

(** The keys of [self.irrigation_terms], in insertion order.  The literal
    lists ['stop'] twice; a dict keeps the position of the first. *)
Definition irrigation_terms : list string :=
  [ "pump"; "valve"; "water"; "irrigation"; "system";
    "schedule"; "zone"; "moisture"; "sensor"; "dashboard";
    "control"; "emergency"; "stop"; "settings"; "analytics";
    "status"; "threshold"; "manual"; "automatic"; "help";
    "pressure"; "flow"; "timer"; "sprinkler"; "pipe";
    "nozzle"; "filter"; "pipeline"; "drip"; "spray";
    "weather"; "rain"; "forecast"; "humidity"; "temperature";
    "start"; "open"; "close"; "activate";
    "deactivate"; "set"; "change"; "adjust"; "check";
    "view"; "show"; "display"; "monitor"; "test";
    "problem"; "issue"; "error"; "fix"; "repair";
    "broken"; "leak"; "clog"; "blockage"; "malfunction" ].

(** [self.common_misspellings] *)
Definition common_misspellings : list (string * string) :=
  [ ("pum", "pump"); ("valv", "valve"); ("irigation", "irrigation");
    ("moistre", "moisture"); ("scedule", "schedule");
    ("dashbord", "dashboard"); ("controll", "control");
    ("emergancy", "emergency"); ("threshhold", "threshold");
    ("analitics", "analytics"); ("manualy", "manually");
    ("automaticaly", "automatically"); ("nozle", "nozzle");
    ("sprinkeler", "sprinkler"); ("preassure", "pressure");
    ("temprature", "temperature"); ("humidty", "humidity");
    ("forcast", "forecast") ].

Fixpoint lookup (k : string) (d : list (string * string)) : option string :=
  match d with
  | [] => None
  | (k', v) :: d' => if String.eqb k k' then Some v else lookup k d'
  end.

Inductive distance_bound := Infinity | Finite (n : nat).

(** [distance < best_distance] *)
Definition below (d : nat) (best : distance_bound) : bool :=
  match best with Infinity => true | Finite b => d <? b end.

(** The loop over [self.irrigation_terms.keys()] that keeps the first
    term at the least distance, among those at distance at most 2. *)
Fixpoint closest (lower_word : string) (terms : list string)
         (best_match : option string) (best_distance : distance_bound)
  : option string :=
  match terms with
  | [] => best_match
  | term :: terms' =>
      let distance := Levenshtein.distance lower_word (PyStr.lower term) in
      if below distance best_distance && (distance <=? 2)
      then closest lower_word terms' (Some term) (Finite distance)
      else closest lower_word terms' best_match best_distance
  end.

(** The note appended to [corrections]; the separator is copied from the
    source file byte for byte. *)
Definition note (word correction : string) : string :=
  "'" ++ word ++ "' â†’ '" ++ correction ++ "'".

(** The body of the loop for one word: the word appended to
    [corrected_words] and the note appended to [corrections], if any. *)
Definition correct_word (word : string) : string * option string :=
  let lower_word := PyStr.lower word in
  match lookup lower_word common_misspellings with
  | Some correction =>
      let correction :=
        if PyStr.first_isupper word then PyStr.capitalize correction
        else correction in
      (correction, Some (note word correction))
  | None =>
      if negb (PyStr.mem lower_word (map PyStr.lower irrigation_terms)) then
        match closest lower_word irrigation_terms None Infinity with
        | Some best_match =>
            let correction :=
              if PyStr.islower word then best_match
              else PyStr.capitalize best_match in
            (correction, Some (note word correction))
        | None => (word, None)
        end
      else (word, None)
  end.

Fixpoint notes (l : list (string * option string)) : list string :=
  match l with
  | [] => []
  | (_, Some n) :: l' => n :: notes l'
  | (_, None) :: l' => notes l'
  end.

Definition correct_spelling (query : string) : string * list string :=
  let words := PyStr.split query in
  let corrected := map correct_word words in
  (PyStr.join " " (map fst corrected), notes corrected).

End SpellingCorrector.

(* ================================================================== *)
(** * Words that the spelling corrector keeps *)

Module SpellingSpec.
Import SpellingCorrector.

(** A word as [split] produces them: not empty, without a space. *)
Fixpoint no_space (w : string) : bool :=
  match w with
  | EmptyString => true
  | String c w' => negb (PyStr.is_space c) && no_space w'
  end.

Definition wordlike (w : string) : bool :=
  match w with
  | EmptyString => false
  | String _ _ => no_space w
  end.

(** The corrector leaves the word as it is and notes nothing. *)
Definition kept (w : string) : bool :=
  let '(c, n) := correct_word w in
  String.eqb c w && match n with None => true | Some _ => false end.

(** A correction, as written and capitalized, is a word that the
    corrector keeps. *)
Definition settled (c : string) : bool :=
  wordlike c && kept c
  && wordlike (PyStr.capitalize c) && kept (PyStr.capitalize c).
End SpellingSpec.

(* ================================================================== *)
(** * Python numbers used as scores *)

Module PyNum.

(** [a > b] and [a >= b] on scores *)
Definition gt (a b : Q) : bool := negb (Qle_bool a b).
Definition ge (a b : Q) : bool := Qle_bool b a.

(** [max(a, b)]: the second argument only when it is strictly greater. *)
Definition max (a b : Q) : Q := if gt b a then b else a.

(** [len(l)] as a number *)
Definition len {A} (l : list A) : Q := inject_Z (Z.of_nat (List.length l)).

End PyNum.

(* ================================================================== *)
(** * JSONIntentLoader (json_loader.py) *)

Module JSONIntentLoader.

(** One record of an intent file: [{tag, patterns, responses}]. *)
Record intent := {
  tag : string;
  patterns : list string;
  responses : list string
}.

(** [self.intents]: for each loaded category, in loading order, the list
    [data.get('intents', [])] of its file. *)
Definition intents_table := list (string * list intent).

(** The dictionary returned by [get_response].  [r_type], [category] and
    [intent_tag] are absent from the no-match dictionary. *)
Record match_result := {
  matched : bool;
  r_type : option string;
  category : option string;
  intent_tag : option string;
  response : string;
  confidence : Q;
  suggestions : list string
}.

(** The score of one pattern that is not equal to the query. *)
Definition pattern_score (query pattern_lower : string) : Q :=
  if PyStr.contains pattern_lower query || PyStr.contains query pattern_lower
  then 8 # 10
  else
    let query_words := PySet.of_list (PyStr.split query) in
    let pattern_words := PySet.of_list (PyStr.split pattern_lower) in
    let common_words := PySet.inter query_words pattern_words in
    match common_words with
    | _ :: _ =>
        (PyNum.len common_words
         / inject_Z (Z.of_nat (Nat.max (PySet.size query_words)
                                       (PySet.size pattern_words)))
         * (6 # 10))%Q
    | [] => 0%Q
    end.

(** The loop of [_calculate_match_score], with its early [return 1.0]. *)
Fixpoint score_patterns (query : string) (ps : list string) (max_score : Q)
  : Q :=
  match ps with
  | [] => max_score
  | pattern :: ps' =>
      let pattern_lower := PyStr.lower pattern in
      if String.eqb query pattern_lower then 1%Q
      else
        let score := pattern_score query pattern_lower in
        score_patterns query ps' (PyNum.max max_score score)
  end.

Definition _calculate_match_score (query : string) (i : intent) : Q :=
  score_patterns query (patterns i) 0%Q.

(** The triple [(best_match, best_category, best_score)] of
    [find_matching_intent]. *)
Definition best := (option intent * option string * Q)%type.

(** The body of the inner loop. *)
Definition visit (query_lower : string) (threshold : Q) (category : string)
           (b : best) (i : intent) : best :=
  let '(_, _, best_score) := b in
  let score := _calculate_match_score query_lower i in
  if PyNum.gt score best_score && PyNum.ge score threshold
  then (Some i, Some category, score)
  else b.

Definition find_matching_intent (intents : intents_table) (query : string)
           (threshold : Q) : best :=
  let query_lower := PyStr.strip (PyStr.lower query) in
  fold_left
    (fun b '(category, data) =>
       fold_left (visit query_lower threshold category) data b)
    intents (None, None, 0%Q).

Definition default_threshold : Q := 6 # 10.

Definition suggestions_map : list (string * list string) :=
  [ ("user_manual",
     ["Download manual"; "Setup instructions"; "Troubleshooting"]);
    ("watering_frequency",
     ["Soil moisture"; "Weather-based watering"; "Schedule setup"]);
    ("contact_support",
     ["Phone support"; "Email support"; "Visit location"]);
    ("emergency_procedure",
     ["Emergency stop"; "System reset"; "Contact support"]);
    ("privacy_policy",
     ["Data collection"; "Data usage"; "Data security"]) ].

Fixpoint get {A} (k : string) (d : list (string * A)) : option A :=
  match d with
  | [] => None
  | (k', v) :: d' => if String.eqb k k' then Some v else get k d'
  end.

Definition _generate_suggestions (intent_tag : string) : list string :=
  match get intent_tag suggestions_map with
  | Some l => l
  | None => ["How can I help?"; "System status"; "Control panel"]
  end.

Definition _get_fallback_suggestions : list string :=
  [ "How to control the pump?"; "Show me the dashboard";
    "Emergency procedures"; "Contact support" ].

Section WithRandom.

(** [random.choice] on a non-empty list. *)
Variable random_choice : list string -> string.

Definition _get_random_response (rs : list string) : string :=
  match rs with
  | [] => "I'm here to help!"
  | _ => random_choice rs
  end.

Definition get_response (intents : intents_table) (query : string)
  : match_result :=
  let '(best_match, best_category, score) :=
    find_matching_intent intents query default_threshold in
  match best_match with
  | Some i =>
      if PyNum.ge score (6 # 10) then
        {| matched := true;
           r_type := Some "json_intent";
           category := best_category;
           intent_tag := Some (tag i);
           response := _get_random_response (responses i);
           confidence := score;
           suggestions := _generate_suggestions (tag i) |}
      else
        {| matched := false; r_type := None; category := None;
           intent_tag := None;
           response := "I'm not sure how to help with that. Could you try rephrasing your question?";
           confidence := 0%Q;
           suggestions := _get_fallback_suggestions |}
  | None =>
      {| matched := false; r_type := None; category := None;
         intent_tag := None;
         response := "I'm not sure how to help with that. Could you try rephrasing your question?";
         confidence := 0%Q;
         suggestions := _get_fallback_suggestions |}
  end.

End WithRandom.

End JSONIntentLoader.

(* ================================================================== *)
(** * The intent matcher as section 4.2 of the specification words it *)

Module IntentSpec.
Import JSONIntentLoader.

(** [|common words| / max(|query words|, |pattern words|) * 0.6] *)
Definition overlap (query pattern : string) : Q :=
  let query_words := PySet.of_list (PyStr.split query) in
  let pattern_words := PySet.of_list (PyStr.split pattern) in
  (PyNum.len (PySet.inter query_words pattern_words)
   / inject_Z (Z.of_nat (Nat.max (PySet.size query_words)
                                 (PySet.size pattern_words)))
   * (6 # 10))%Q.

Definition pattern_score (query pattern : string) : Q :=
  let p := PyStr.lower pattern in
  if String.eqb query p then 1%Q
  else if PyStr.contains p query || PyStr.contains query p then 8 # 10
  else overlap query p.

Definition maximum (l : list Q) : Q :=
  fold_right (fun x m => if Qle_bool m x then x else m) 0%Q l.

Definition intent_score (query : string) (i : intent) : Q :=
  maximum (map (pattern_score query) (patterns i)).

Definition flatten (intents : intents_table) : list (string * intent) :=
  flat_map (fun '(category, data) => map (pair category) data) intents.

Definition best_score (query : string) (intents : intents_table) : Q :=
  maximum (map (fun ci => intent_score query (snd ci)) (flatten intents)).

(** [m] is the greatest of [base] and the numbers of [l]. *)
Definition is_max (base : Q) (l : list Q) (m : Q) : Prop :=
  (base <= m)%Q /\ Forall (fun x => (x <= m)%Q) l /\
  ((m == base)%Q \/ Exists (fun x => (m == x)%Q) l).

(** [first_best score threshold done b]: [b] is what the loop of
    [find_matching_intent] holds after [done]: nothing when no element of
    [done] is acceptable, otherwise the first element of [done] whose
    score is the greatest, which is at least the threshold. *)
Inductive first_best (score : string * intent -> Q) (threshold : Q)
          (done : list (string * intent)) : best -> Prop :=
| first_best_none :
    Forall (fun x => ~ (0 < score x /\ threshold <= score x)%Q) done ->
    first_best score threshold done (None, None, 0%Q)
| first_best_some l1 c i l2 :
    done = (l1 ++ (c, i) :: l2)%list ->
    (0 < score (c, i))%Q ->
    (threshold <= score (c, i))%Q ->
    Forall (fun x => (score x < score (c, i))%Q) l1 ->
    Forall (fun x => (score x <= score (c, i))%Q) l2 ->
    first_best score threshold done (Some i, Some c, score (c, i)).

(** The body of the inner loop of [find_matching_intent], on the
    flattened table. *)
Definition visit_flat (query : string) (threshold : Q) (b : best)
           (ci : string * intent) : best :=
  visit query threshold (fst ci) b (snd ci).

End IntentSpec.

(* ================================================================== *)
(** * IrrigationGuide (guide_bot.py): the knowledge base *)

Module IrrigationGuide.

(** [class ResourceType(Enum)] *)
Inductive ResourceType :=
| ROUTE | INFO | COMMAND | WIDGET | HELP | CHAT | TUTORIAL
| TROUBLESHOOTING | CONTACT | EMERGENCY | NAVIGATION.

(** [resource_type.value] *)
Definition value (rt : ResourceType) : string :=
  match rt with
  | ROUTE => "route" | INFO => "info" | COMMAND => "command"
  | WIDGET => "widget" | HELP => "help" | CHAT => "chat"
  | TUTORIAL => "tutorial" | TROUBLESHOOTING => "troubleshooting"
  | CONTACT => "contact" | EMERGENCY => "emergency"
  | NAVIGATION => "navigation"
  end.

(** [for resource_type in ResourceType]: the members in definition order *)
Definition all_types : list ResourceType :=
  [ROUTE; INFO; COMMAND; WIDGET; HELP; CHAT; TUTORIAL; TROUBLESHOOTING;
   CONTACT; EMERGENCY; NAVIGATION].

Definition ResourceType_eqb (a b : ResourceType) : bool :=
  match a, b with
  | ROUTE, ROUTE | INFO, INFO | COMMAND, COMMAND | WIDGET, WIDGET
  | HELP, HELP | CHAT, CHAT | TUTORIAL, TUTORIAL
  | TROUBLESHOOTING, TROUBLESHOOTING | CONTACT, CONTACT
  | EMERGENCY, EMERGENCY | NAVIGATION, NAVIGATION => true
  | _, _ => false
  end.

(** A dictionary whose values are all strings. *)
Definition dict := list (string * string).

(** The data of one resource: the keys that the resolver, the ranker and
    the response assembler read, each absent ([None]) or present.  The
    keys that no modelled function reads ([url], [parameters], [steps],
    [content], [symptoms], [procedures], [route_info], ...) are left out;
    a [url] is a lazily reversed route of the web framework. *)
Record resource := {
  description : option string;
  keywords : option (list string);
  icon : option string;
  category : option string;
  importance : option Z;
  navigation_instructions : option string;
  examples : option (list string);
  safety_warning : option string;
  safety_note : option string;
  title : option string;
  response : option string;
  suggestions : option (list string);
  actions : option (list dict);
  quick_actions : option (list dict);
  methods : option (list (string * dict));
  social_media : option (list (string * dict))
}.

(** [name -> data], in insertion order *)
Definition table := list (string * resource).

Definition dquote : string := String (ascii_of_nat 34) EmptyString.
Definition nl : string := String (ascii_of_nat 10) EmptyString.

(** The shapes of the literals of the [_load_*] methods. *)
Definition page (description : string) (keywords : list string)
           (icon category : string) (importance : Z)
           (navigation_instructions : string) : resource :=
  {| description := Some description; keywords := Some keywords;
     icon := Some icon; category := Some category;
     importance := Some importance;
     navigation_instructions := Some navigation_instructions;
     examples := None; safety_warning := None; safety_note := None;
     title := None; response := None; suggestions := None;
     actions := None; quick_actions := None; methods := None;
     social_media := None |}.

Definition guide (title description icon category : string) : resource :=
  {| description := Some description; keywords := None;
     icon := Some icon; category := Some category; importance := None;
     navigation_instructions := None;
     examples := None; safety_warning := None; safety_note := None;
     title := Some title; response := None; suggestions := None;
     actions := None; quick_actions := None; methods := None;
     social_media := None |}.

Definition command (description : string) (keywords : list string)
           (icon : string) (examples : list string)
           (safety_warning safety_note : option string)
           (navigation_instructions : string) : resource :=
  {| description := Some description; keywords := Some keywords;
     icon := Some icon; category := None; importance := None;
     navigation_instructions := Some navigation_instructions;
     examples := Some examples; safety_warning := safety_warning;
     safety_note := safety_note;
     title := None; response := None; suggestions := None;
     actions := None; quick_actions := None; methods := None;
     social_media := None |}.

Definition chat (response : string) (suggestions : option (list string))
           (actions quick_actions : option (list dict)) : resource :=
  {| description := None; keywords := None; icon := None;
     category := None; importance := None;
     navigation_instructions := None;
     examples := None; safety_warning := None; safety_note := None;
     title := None; response := Some response;
     suggestions := suggestions; actions := actions;
     quick_actions := quick_actions; methods := None;
     social_media := None |}.

Definition lesson (title description icon navigation_instructions : string)
  : resource :=
  {| description := Some description; keywords := None;
     icon := Some icon; category := None; importance := None;
     navigation_instructions := Some navigation_instructions;
     examples := None; safety_warning := None; safety_note := None;
     title := Some title; response := None; suggestions := None;
     actions := None; quick_actions := None; methods := None;
     social_media := None |}.

Definition contact_card (title description : string)
           (methods social_media : list (string * dict))
           (navigation_instructions : string) : resource :=
  {| description := Some description; keywords := None; icon := None;
     category := None; importance := None;
     navigation_instructions := Some navigation_instructions;
     examples := None; safety_warning := None; safety_note := None;
     title := Some title; response := None; suggestions := None;
     actions := None; quick_actions := None; methods := Some methods;
     social_media := Some social_media |}.

Definition procedure_card (title description navigation_instructions : string)
  : resource :=
  {| description := Some description; keywords := None; icon := None;
     category := None; importance := None;
     navigation_instructions := Some navigation_instructions;
     examples := None; safety_warning := None; safety_note := None;
     title := Some title; response := None; suggestions := None;
     actions := None; quick_actions := None; methods := None;
     social_media := None |}.

(** [_load_knowledge] *)
Definition _load_knowledge : table :=
  [ ("dashboard",
     page "Main system dashboard showing current status, sensor readings, and system overview with real-time updates"
       ["dashboard"; "home"; "main page"; "status"; "overview"; "homepage"; "main"]
       "fa-tachometer-alt" "Monitoring" 10
       "Click on the 'Dashboard' tab in the main navigation menu at the top of the page to view your system overview.");
    ("control panel",
     page "Manual control center for pumps, valves, and irrigation zones with real-time adjustments and scheduling"
       ["control"; "manual"; "pump"; "valve"; "switch"; "manual control"; "controls"]
       "fa-sliders-h" "Control" 9
       "Go to the header menu and click on 'Control Panel' to access manual controls for your irrigation system.");
    ("analytics",
     page "Advanced analytics with charts, graphs, and historical irrigation data visualization"
       ["analytics"; "charts"; "graphs"; "history"; "data"; "statistics"; "reports"]
       "fa-chart-line" "Analysis" 8
       "In the header, click on 'Analytics' to view detailed charts and reports about your irrigation system.");
    ("download data",
     page "Export sensor data as CSV or Excel files for further analysis and reporting"
       ["download"; "export"; "get data"; "csv"; "excel"; "export data"; "download data"]
       "fa-file-export" "Data" 7
       "Navigate to Analytics â†’ Export Data to download your irrigation data.");
    ("help",
     page "Comprehensive documentation, user guides, and support resources"
       ["help"; "support"; "documentation"; "faq"; "guide"; "manual"]
       "fa-question-circle" "Support" 6
       "Click the help icon (?) in the top right corner or visit the Help section from the main menu.");
    ("privacy",
     page "Our privacy policy and data handling practices for your security"
       ["privacy"; "policy"; "data"; "protection"; "security"]
       "fa-shield-alt" "Legal" 3
       "Scroll to the footer and click 'Privacy Policy' or visit Settings â†’ Legal.");
    ("terms",
     page "Terms of service and usage agreement for the irrigation system"
       ["terms"; "service"; "agreement"; "legal"; "conditions"]
       "fa-file-contract" "Legal" 2
       "Scroll to the footer and click 'Terms of Service' or visit Settings â†’ Legal.");
    ("about",
     page "Learn about our irrigation system, development team, and achievements"
       ["about"; "information"; "team"; "developer"; "company"]
       "fa-info-circle" "Information" 4
       "Click on 'About' in the footer or navigate via the Help section.");
    ("contact",
     page "Get in touch with our support team for assistance and inquiries"
       ["contact"; "support"; "help"; "email"; "phone"; "contact us"]
       "fa-envelope" "Support" 5
       "Click 'Contact Us' in the footer or go to Help â†’ Contact Support.");
    ("profile",
     page "Manage your user account settings, preferences, and notification options"
       ["profile"; "account"; "settings"; "user"; "preferences"]
       "fa-user" "Account" 7
       "Click on your profile picture in the top right corner and select 'Profile Settings'.");
    ("chatbot",
     page "Interactive AI assistant for help with irrigation system management"
       ["chat"; "bot"; "assistant"; "help"; "ask"; "ai"; "assistant"]
       "fa-robot" "Support" 8
       "Click the chat icon in the bottom right corner or go to Help â†’ Chat Assistant.");
    ("scheduling",
     page "Create and manage irrigation schedules based on time, weather, or soil conditions"
       ["schedule"; "timer"; "plan"; "automatic"; "watering schedule"]
       "fa-calendar-alt" "Control" 8
       "Go to Control Panel â†’ Scheduling tab to set up your irrigation schedules.");
    ("zones",
     page "Configure and manage different irrigation zones for targeted watering"
       ["zones"; "areas"; "sections"; "zone management"]
       "fa-map-marker-alt" "Control" 7
       "Navigate to Control Panel â†’ Zones management to configure your irrigation zones.") ].

(** [_load_navigation_guides] *)
Definition _load_navigation_guides : table :=
  [ ("header navigation",
     guide "Using the Header Navigation"
       "Learn how to navigate through the irrigation system using the header menu"
       "fa-bars" "Navigation");
    ("emergency access",
     guide "Quick Emergency Access"
       "How to quickly access emergency features from anywhere in the system"
       "fa-exclamation-triangle" "Emergency");
    ("dashboard overview",
     guide "Understanding Your Dashboard"
       "Learn how to interpret and use your irrigation system dashboard"
       "fa-tachometer-alt" "Navigation") ].

(** [_load_control_commands] *)
Definition _load_control_commands : table :=
  [ ("pump",
     command "Control the main water pump (turn on/off) for the entire irrigation system"
       ["pump"; "water pump"; "activate pump"; "main pump"; "water supply"]
       "fa-tint"
       ["Turn on the pump"; "Activate water pump"; "Stop the pump"; "Set pump to ON"; "Start main water pump"]
       None
       (Some "Ensure water supply is available before activating pump")
       "Go to Control Panel â†’ Pumps section â†’ Use the toggle switch to control the pump");
    ("valve",
     command "Control individual irrigation valves (open/close) for specific zones"
       ["valve"; "water valve"; "open valve"; "close valve"; "irrigation valve"]
       "fa-faucet"
       ["Open valve for zone 1"; "Close irrigation valve 3"; "Turn on zone 2 valve"; "Activate valve in area 4"]
       None
       None
       "Navigate to Control Panel â†’ Valves section â†’ Select your zone â†’ Use the control buttons");
    ("emergency",
     command "Activate or deactivate emergency stop (immediately shuts down all systems)"
       ["emergery"; "stop"; "shutdown"; "safety"; "emergency stop"; "kill switch"]
       "fa-exclamation-triangle"
       ["Activate emergency stop"; "Trigger emergency shutdown"; "Reset emergency stop"; "Disable emergency mode"; "Engage safety shutdown"]
       (Some "EMERGENCY STOP will immediately shut down ALL irrigation systems. Only use in case of actual emergency like floods, leaks, or equipment failure!")
       None
       "ðŸš¨ Click the red emergency button in the header or go to Control Panel â†’ Emergency section");
    ("mode",
     command "Switch between automatic and manual operation modes"
       ["mode"; "switch mode"; "automatic"; "manual"; "operation mode"]
       "fa-cogs"
       ["Switch to manual mode"; "Set to automatic mode"; "Change to manual control"; "Enable automatic watering"]
       None
       None
       "Go to Control Panel â†’ Settings â†’ Operation Mode to switch between manual and automatic");
    ("threshold",
     command "Set moisture threshold levels for automatic irrigation triggers"
       ["threshold"; "moisture level"; "set threshold"; "sensitivity"; "moisture setting"]
       "fa-percentage"
       ["Set threshold to 40%"; "Change moisture threshold to 35"; "Adjust watering threshold for zone 2"; "Set sensitivity to 30%"]
       None
       None
       "Navigate to Control Panel â†’ Settings â†’ Thresholds to adjust moisture sensitivity levels");
    ("schedule",
     command "Create or modify irrigation schedules for automated watering"
       ["schedule"; "timer"; "plan irrigation"; "watering schedule"; "irrigation plan"]
       "fa-clock"
       ["Schedule irrigation for tomorrow at 6 AM"; "Create watering schedule for 30 minutes"; "Plan irrigation for zones 1 and 3"; "Set daily watering at 7 PM for 45 minutes"]
       None
       None
       "Go to Control Panel â†’ Scheduling â†’ Create New Schedule to set up automated watering");
    ("stop all",
     command "Stop all currently active irrigation processes immediately"
       ["stop"; "halt"; "cancel"; "stop all"; "end irrigation"]
       "fa-stop-circle"
       ["Stop all irrigation"; "Halt watering immediately"; "Cancel current irrigation"; "Stop all zones"]
       None
       None
       "Click the 'Stop All' button in the Control Panel or use the emergency stop for immediate shutdown");
    ("status",
     command "Check current system status, sensor readings, and active operations"
       ["status"; "check"; "system status"; "current state"; "what's running"]
       "fa-info-circle"
       ["Check system status"; "What is currently running?"; "Show current operations"; "Display sensor readings"]
       None
       None
       "View the Dashboard for an overview or go to Control Panel â†’ Status for detailed information") ].

(** [_load_informational_pages] *)
Definition _load_informational_pages : table :=
  [ ("water conservation",
     page "Learn about water-saving techniques and efficient irrigation practices"
       ["water"; "save"; "conservation"; "efficient"; "saving"]
       "fa-tint-slash" "Education" 7
       "Visit the Knowledge Base â†’ Water Conservation section for detailed guides");
    ("system maintenance",
     page "Guidelines for maintaining your irrigation system for optimal performance"
       ["maintenance"; "repair"; "service"; "checkup"; "winterize"]
       "fa-tools" "Maintenance" 6
       "Go to Help â†’ Maintenance Guides for detailed maintenance schedules and procedures");
    ("plant watering needs",
     page "Understand different watering requirements for various plant types"
       ["plants"; "watering"; "needs"; "vegetables"; "lawn"; "garden"]
       "fa-leaf" "Education" 5
       "Check the Plant Database in the Knowledge Base for specific watering requirements") ].

(** [_load_dashboard_widgets] *)
Definition _load_dashboard_widgets : table :=
  [ ("moisture levels",
     page "View current soil moisture levels across all irrigation zones"
       ["moisture"; "soil"; "sensor"; "levels"; "wetness"]
       "fa-percentage" "Monitoring" 8
       "View the Moisture Levels widget on your Dashboard or go to Analytics â†’ Soil Moisture");
    ("water usage",
     page "Track water consumption over time with detailed analytics"
       ["water"; "usage"; "consumption"; "gallons"; "liters"; "meter"]
       "fa-chart-bar" "Analytics" 7
       "Check the Water Usage widget on your Dashboard or go to Analytics â†’ Water Consumption");
    ("weather forecast",
     page "Integrated weather data to help plan irrigation based on conditions"
       ["weather"; "forecast"; "rain"; "temperature"; "humidity"]
       "fa-cloud-sun" "Planning" 6
       "View the Weather Forecast widget on your Dashboard or go to Analytics â†’ Weather");
    ("system health",
     page "Monitor the overall health and status of your irrigation system"
       ["health"; "status"; "system"; "diagnostics"; "performance"]
       "fa-heartbeat" "Monitoring" 9
       "Check the System Health widget on your Dashboard or go to Control Panel â†’ System Status") ].

(** [_load_help_resources] *)
Definition _load_help_resources : table :=
  [ ("user manual",
     page "Complete user manual with detailed instructions for all features"
       ["manual"; "guide"; "instructions"; "documentation"; "how to"]
       "fa-book" "Documentation" 8
       "Go to Help â†’ User Manual or click the documentation link in the footer");
    ("video tutorials",
     page "Step-by-step video guides for common tasks and setup procedures"
       ["video"; "tutorial"; "how to"; "watch"; "demonstration"]
       "fa-video" "Learning" 7
       "Visit Help â†’ Video Tutorials to watch guided demonstrations");
    ("faq",
     page "Frequently asked questions and answers about the irrigation system"
       ["faq"; "questions"; "answers"; "common"; "problems"]
       "fa-question-circle" "Support" 6
       "Go to Help â†’ FAQ for answers to common questions");
    ("community forum",
     page "Connect with other users, share tips, and get community support"
       ["community"; "forum"; "discussion"; "users"; "share"]
       "fa-users" "Community" 5
       "Visit Community â†’ Forum from the main menu to join discussions") ].

(** [_load_chat_responses] *)
Definition _load_chat_responses : table :=
  [ ("greeting",
     chat "Hello! I'm your irrigation assistant. I can help you manage your system, answer questions, and troubleshoot issues. What would you like to know today?"
       (Some ["How do I control the pump?"; "What's my soil moisture?"; "Emergency stop info"; "Set up a watering schedule"; "Troubleshoot a problem"])
       None
       (Some [[("text", "View System Status"); ("action", "status")];
       [("text", "Quick Tutorial"); ("action", "tutorial getting started")]]));
    ("emergency_info",
     chat ("ðŸš¨ **EMERGENCY STOP INFORMATION**" ++ nl ++ nl ++ "The emergency stop immediately shuts down ALL irrigation systems. This should only be used in actual emergencies such as:" ++ nl ++ nl ++ "â€¢ Major water leaks or floods" ++ nl ++ "â€¢ Equipment malfunction" ++ nl ++ "â€¢ Safety hazards" ++ nl ++ "â€¢ Pipe bursts" ++ nl ++ nl ++ "âš ï¸ **Warning**: This will stop all active irrigation immediately!")
       None
       (Some [[("text", "ðŸš¨ Activate Emergency Stop Now"); ("command", "emergency true"); ("style", "danger"); ("navigation", "Click the red emergency button in the header or go to Control Panel â†’ Emergency section")];
       [("text", "Learn More About Emergency Procedures"); ("action", "info emergency procedures"); ("style", "warning")];
       [("text", "Contact Emergency Support"); ("action", "contact emergency"); ("style", "info")]])
       None);
    ("clear_chat_confirmation",
     chat "Are you sure you want to clear the chat history? This action cannot be undone."
       None
       (Some [[("text", "âœ… Yes, Clear Chat"); ("action", "confirm_clear_chat"); ("style", "danger")];
       [("text", "âŒ No, Keep History"); ("action", "cancel_clear_chat"); ("style", "secondary")]])
       None);
    ("settings_info",
     chat "You can customize your chat experience with these settings:"
       None
       (Some [[("text", "Save Settings"); ("action", "save_settings"); ("style", "success")];
       [("text", "Reset to Defaults"); ("action", "reset_settings"); ("style", "secondary")]])
       None);
    ("thanks",
     chat "You're welcome! ðŸ˜Š I'm always here to help with your irrigation system. Is there anything else you'd like to know?"
       (Some ["How's my water usage?"; "Show me the control panel"; "Set up a schedule"; "Check system health"])
       None
       None);
    ("goodbye",
     chat "Goodbye! ðŸ‘‹ Remember, you can always come back if you need help with your irrigation system. Have a great day!"
       None
       None
       (Some [[("text", "Quick Help"); ("action", "help")];
       [("text", "System Status"); ("action", "status")]]));
    ("spelling_correction",
     chat ("I noticed some possible spelling issues in your query. I've corrected it to: " ++ dquote ++ "{corrected_query}" ++ dquote)
       None
       None
       None) ].

(** [_load_tutorials] *)
Definition _load_tutorials : table :=
  [ ("getting started",
     lesson "Getting Started with Your Irrigation System"
       "Complete beginner's guide to setting up and using your irrigation system"
       "fa-play-circle"
       "Go to Tutorials â†’ Getting Started for a step-by-step guide");
    ("schedule setup",
     lesson "Creating Irrigation Schedules"
       "Learn how to create and manage automated watering schedules"
       "fa-calendar-check"
       "Visit Tutorials â†’ Scheduling to learn how to set up automated irrigation");
    ("water conservation",
     lesson "Water Conservation Techniques"
       "Optimize your irrigation for maximum water efficiency"
       "fa-tint-slash"
       "Check Tutorials â†’ Water Conservation for water-saving techniques") ].

(** [_load_troubleshooting_guides] *)
Definition _load_troubleshooting_guides : table :=
  [ ("pump not working",
     lesson "Pump Not Starting"
       "Troubleshoot issues with water pump not starting"
       "fa-tint"
       "Go to Troubleshooting â†’ Pump Issues for detailed guidance");
    ("low water pressure",
     lesson "Low Water Pressure"
       "Address issues with low water pressure in irrigation system"
       "fa-compress-arrows-alt"
       "Visit Troubleshooting â†’ Water Pressure for solutions");
    ("sensor issues",
     lesson "Sensor Malfunctions"
       "Troubleshoot problems with soil moisture sensors"
       "fa-temperature-low"
       "Go to Troubleshooting â†’ Sensor Problems for help with sensor issues");
    ("leak detection",
     lesson "Suspected Water Leak"
       "Identify and address potential water leaks in the system"
       "fa-faucet-drip"
       "ðŸš¨ For suspected leaks, go to Emergency Procedures â†’ Leak Detection immediately") ].

(** [_load_contact_information] *)
Definition _load_contact_information : table :=
  [ ("contact",
     contact_card "Contact Information"
       "Get in touch with our support team for assistance and inquiries"
       [("phone", [("label", "Call Us"); ("value", "+256 780 443345"); ("icon", "fa-phone-alt"); ("action", "tel:+256780443345"); ("availability", "Mon-Fri: 8:00 AM - 5:00 PM")]);
       ("email", [("label", "Email Us"); ("value", "nduwayomorris@gmail.com"); ("icon", "fa-envelope"); ("action", "mailto:nduwayomorris@gmail.com"); ("response_time", "Within 24 hours")]);
       ("location", [("label", "Visit Us"); ("value", "Kyebando roundabout, Kampala City, Uganda"); ("icon", "fa-map-marker-alt"); ("action", "https://maps.google.com?q=Kyebando+roundabout,Kampala+City,Uganda"); ("coordinates", "0.3499511,32.5886327")])]
       [("facebook", [("url", "https://www.facebook.com/magnus.morris.79"); ("icon", "fab fa-facebook-f"); ("label", "Facebook")]);
       ("twitter", [("url", "https://x.com/NduwayoMorris"); ("icon", "fab fa-x-twitter"); ("label", "X (Twitter)")]);
       ("linkedin", [("url", "https://www.linkedin.com/in/nduwayo-morris"); ("icon", "fab fa-linkedin-in"); ("label", "LinkedIn")]);
       ("whatsapp", [("url", "https://wa.me/+256780443345"); ("icon", "fab fa-whatsapp"); ("label", "WhatsApp")])]
       "Scroll to the footer and click 'Contact Us' or go to Help â†’ Contact Support") ].

(** [_load_emergency_resources] *)
Definition _load_emergency_resources : table :=
  [ ("emergency_procedures",
     procedure_card "Emergency Procedures"
       "Step-by-step instructions for handling irrigation system emergencies"
       "ðŸš¨ For emergencies, use the red emergency button in the header or go to Emergency Procedures") ].

(** [get_contact_response]: the literal [quick_actions] *)
Definition contact_quick_actions : list dict :=
  [[("text", "ðŸ“ž Call Now"); ("action", "tel:+256780443345"); ("type", "phone")];
       [("text", "âœ‰ï¸ Send Email"); ("action", "mailto:nduwayomorris@gmail.com"); ("type", "email")];
       [("text", "ðŸ—ºï¸ Get Directions"); ("action", "https://maps.google.com?q=Kyebando+roundabout,Kampala+City,Uganda"); ("type", "map")]].

(** [get_emergency_contact_info]: the literal it returns *)
Definition emergency_title : string := "ðŸš¨ Emergency Support".
Definition emergency_description : string := "Immediate assistance for critical irrigation system issues".
Definition emergency_contacts : list dict :=
  [[("type", "urgent_phone"); ("label", "Emergency Hotline"); ("value", "+256 780 443345"); ("icon", "fa-phone-alt"); ("action", "tel:+256780443345"); ("description", "24/7 emergency support for critical system failures")];
       [("type", "whatsapp"); ("label", "WhatsApp Support"); ("value", "+256 780 443345"); ("icon", "fab fa-whatsapp"); ("action", "https://wa.me/+256780443345"); ("description", "Quick messaging for urgent issues")];
       [("type", "email"); ("label", "Emergency Email"); ("value", "nduwayomorris@gmail.com"); ("icon", "fa-envelope"); ("action", "mailto:nduwayomorris@gmail.com?subject=EMERGENCY%20-%20Irrigation%20System%20Issue"); ("description", "For detailed emergency reports")]].
Definition emergency_quick_actions : list dict :=
  [[("text", "ðŸš¨ Call Emergency Line"); ("action", "tel:+256780443345"); ("style", "danger")];
       [("text", "ðŸ’¬ WhatsApp Emergency"); ("action", "https://wa.me/+256780443345"); ("style", "success")]].
Definition emergency_navigation_instructions : string := "ðŸš¨ Use the red emergency button in the header for immediate assistance".

(** [self.resources] as built by [__init__] *)
Definition knowledge_base (rt : ResourceType) : table :=
  match rt with
  | ROUTE => _load_knowledge
  | INFO => _load_informational_pages
  | COMMAND => _load_control_commands
  | WIDGET => _load_dashboard_widgets
  | HELP => _load_help_resources
  | CHAT => _load_chat_responses
  | TUTORIAL => _load_tutorials
  | TROUBLESHOOTING => _load_troubleshooting_guides
  | CONTACT => _load_contact_information
  | EMERGENCY => _load_emergency_resources
  | NAVIGATION => _load_navigation_guides
  end.

(** ** The resolver [find_best_match] *)

(** [data.get("keywords", [])] and [data.get("description", "")] *)
Definition get_keywords (data : resource) : list string :=
  match keywords data with Some l => l | None => [] end.

Definition get_description (data : resource) : string :=
  match description data with Some d => d | None => "" end.

(** A double loop [for resource_type in ResourceType: for name, data in
    self.resources[resource_type].items(): if hit: return name,
    resource_type]. *)
Fixpoint first_in_table (hit : string -> resource -> bool) (t : table)
  : option string :=
  match t with
  | [] => None
  | (name, data) :: t' =>
      if hit name data then Some name else first_in_table hit t'
  end.

Fixpoint first_in_types (resources : ResourceType -> table)
         (hit : string -> resource -> bool) (types : list ResourceType)
  : option (string * ResourceType) :=
  match types with
  | [] => None
  | resource_type :: types' =>
      match first_in_table hit (resources resource_type) with
      | Some name => Some (name, resource_type)
      | None => first_in_types resources hit types'
      end
  end.

(** The body of the first loop: the name, then the keywords, of one
    resource. *)
Definition exact_name (query name : string) : bool :=
  String.eqb query (PyStr.lower name).

Definition exact_keyword (query : string) (data : resource) : bool :=
  PyStr.any (fun kw => String.eqb query (PyStr.lower kw)) (get_keywords data).

Definition exact_hit (query name : string) (data : resource) : bool :=
  if exact_name query name then true
  else if exact_keyword query data then true
  else false.

(** The body of the second loop: a keyword inside the query, then two
    words shared with the description, of one resource. *)
Definition keyword_in_query (query : string) (data : resource) : bool :=
  PyStr.any (fun kw => PyStr.contains kw query) (get_keywords data).

Definition shares_description_words (query : string) (data : resource)
  : bool :=
  let description_words :=
    PySet.of_list (PyStr.split (PyStr.lower (get_description data))) in
  let query_words := PySet.of_list (PyStr.split query) in
  2 <=? PySet.size (PySet.inter description_words query_words).

Definition partial_hit (query : string) (_ : string) (data : resource)
  : bool :=
  if keyword_in_query query data then true
  else if shares_description_words query data then true
  else false.

(** [k in d] for a table *)
Definition has_key (k : string) (t : table) : bool :=
  existsb (fun e => String.eqb k (fst e)) t.

(** The loop over [matches]: the first match that is a key of some
    table, with the first type whose table has it. *)
Fixpoint first_known (resources : ResourceType -> table)
         (matches : list string) : option (string * ResourceType) :=
  match matches with
  | [] => None
  | m :: matches' =>
      match find (fun rt => has_key m (resources rt)) all_types with
      | Some rt => Some (m, rt)
      | None => first_known resources matches'
      end
  end.

Section Resolver.

(** [difflib.get_close_matches(word, possibilities, n, cutoff)], a
    function of Python's standard library. *)
Variable get_close_matches :
  string -> list string -> nat -> Q -> list string.

Variable resources : ResourceType -> table.

(** [find_best_match]: [(None, None)] is [None].  The conversation
    context that the function computes first is never read. *)
Definition find_best_match (query : string)
  : option (string * ResourceType) :=
  let query := PyStr.strip (PyStr.lower query) in
  match first_in_types resources (exact_hit query) all_types with
  | Some r => Some r
  | None =>
      match first_in_types resources (partial_hit query) all_types with
      | Some r => Some r
      | None =>
          let all_names :=
            flat_map (fun rt => map fst (resources rt)) all_types in
          let matches := get_close_matches query all_names 3 (5 # 10) in
          first_known resources matches
      end
  end.

End Resolver.

(** ** The ranker [get_suggestions] *)

Record suggestion := {
  s_name : string;
  s_score : Q;
  s_icon : string;
  s_type : string;
  s_category : string;
  s_description : string
}.

(** The two nested loops that add 1 for every pair of a query word and a
    keyword one of which contains the other. *)
Definition partial_matches (query_words keyword_words : list string) : nat :=
  List.length
    (flat_map
       (fun q_word =>
          filter (fun k_word =>
                    PyStr.contains q_word k_word
                    || PyStr.contains k_word q_word)
                 keyword_words)
       query_words).

Definition relevance (query_words : list string) (name : string)
           (data : resource) : Q :=
  let name_words := PySet.of_list (PyStr.split (PyStr.lower name)) in
  let keyword_words := PySet.of_list (map PyStr.lower (get_keywords data)) in
  let description_words :=
    PySet.of_list (PyStr.split (PyStr.lower (get_description data))) in
  (3 * PyNum.len (PySet.inter query_words name_words)
   + 2 * PyNum.len (PySet.inter query_words keyword_words)
   + inject_Z (Z.of_nat (partial_matches query_words keyword_words))
   + PyNum.len (PySet.inter query_words description_words) * (5 # 10)
   + inject_Z (match importance data with Some i => i | None => 5%Z end)
     * (1 # 10))%Q.

Definition short_description (data : resource) : string :=
  let d := get_description data in
  if 100 <? String.length d then PyStr.slice_to 100 d ++ "..." else d.

(** The candidates of one table, in order. *)
Fixpoint candidates (query_words : list string) (resource_type : ResourceType)
         (t : table) : list suggestion :=
  match t with
  | [] => []
  | (name, data) :: t' =>
      let score := relevance query_words name data in
      if PyNum.gt score 0 then
        {| s_name := name; s_score := score;
           s_icon := match icon data with Some i => i | None => "fa-link" end;
           s_type := value resource_type;
           s_category := match category data with Some c => c | None => "" end;
           s_description := short_description data |}
        :: candidates query_words resource_type t'
      else candidates query_words resource_type t'
  end.

(** [suggestions.sort(key=lambda x: x["score"], reverse=True)]: a stable
    sort, the greatest score first. *)
Fixpoint insert_by_score (x : suggestion) (l : list suggestion)
  : list suggestion :=
  match l with
  | [] => [x]
  | y :: l' =>
      if PyNum.gt (s_score y) (s_score x) then y :: insert_by_score x l'
      else x :: l
  end.

Definition sort_by_score (l : list suggestion) : list suggestion :=
  fold_right insert_by_score [] l.

(** The selection loop, with its [break]. *)
Fixpoint diversify (limit : Z) (l : list suggestion)
         (final_suggestions : list suggestion) (categories_used : list string)
  : list suggestion :=
  match l with
  | [] => final_suggestions
  | s :: l' =>
      if (limit <=? Z.of_nat (List.length final_suggestions))%Z
      then final_suggestions
      else if negb (PyStr.mem (s_category s) categories_used)
              || (3 <=? PySet.size categories_used)
      then diversify limit l' (final_suggestions ++ [s])%list
             (if PyStr.mem (s_category s) categories_used
              then categories_used
              else (categories_used ++ [s_category s])%list)
      else diversify limit l' final_suggestions categories_used
  end.

(** [l[:limit]] for any integer [limit] *)
Definition slice_list {A} (limit : Z) (l : list A) : list A :=
  if (0 <=? limit)%Z then firstn (Z.to_nat limit) l
  else firstn (List.length l - Z.to_nat (- limit)) l.

Definition get_suggestions (resources : ResourceType -> table)
           (query : string) (limit : Z) : list suggestion :=
  let query_words := PySet.of_list (PyStr.split (PyStr.lower query)) in
  let suggestions :=
    flat_map
      (fun resource_type =>
         if ResourceType_eqb resource_type CHAT then []
         else candidates query_words resource_type (resources resource_type))
      all_types in
  let suggestions := sort_by_score suggestions in
  slice_list limit (diversify limit suggestions [] []).

(** ** Exceptions *)

Inductive exn := TypeError | IndexError | KeyError.

(** A computation that returns or raises. *)
Definition result (A : Type) : Type := (exn + A)%type.

Definition rbind {A B} (m : result A) (k : A -> result B) : result B :=
  match m with inl e => inl e | inr a => k a end.

Fixpoint rmap {A B} (f : A -> result B) (l : list A) : result (list B) :=
  match l with
  | [] => inr []
  | x :: l' =>
      rbind (f x) (fun y => rbind (rmap f l') (fun ys => inr (y :: ys)))
  end.

(** [d[k]] on a dictionary and on an optional key of a resource *)
Definition item {A} (k : string) (d : list (string * A)) : result A :=
  match JSONIntentLoader.get k d with
  | Some v => inr v
  | None => inl KeyError
  end.

Definition required {A} (field : option A) : result A :=
  match field with Some v => inr v | None => inl KeyError end.

(** ** The conversation history *)

(** A user identifier as a caller passes it: a string or an integer. *)
Inductive user_key := UStr (s : string) | UInt (n : Z).

(** [if user_id:] *)
Definition truthy (u : user_key) : bool :=
  match u with
  | UStr s => negb (String.eqb s "")
  | UInt n => negb (n =? 0)%Z
  end.

Definition user_key_eqb (a b : user_key) : bool :=
  match a, b with
  | UStr s, UStr t => String.eqb s t
  | UInt n, UInt m => (n =? m)%Z
  | _, _ => false
  end.

Record interaction := {
  i_timestamp : string;
  i_query : string;
  i_response : string
}.

Definition history := list interaction.

(** The object held by [self.conversation_history].  [add_to_conversation_history]
    only uses [in], indexing and item assignment, which a list and a
    dictionary both have, with different meanings. *)
Inductive store :=
| PyList (l : list history)
| PyDict (d : list (user_key * history)).

(** [user_id in store].  The items of the list are histories, never equal
    to a string or an integer. *)
Definition contains (k : user_key) (st : store) : bool :=
  match st with
  | PyList _ => false
  | PyDict d => existsb (fun e => user_key_eqb k (fst e)) d
  end.

(** The position that an integer index denotes in a list of length [n]. *)
Definition index (n : nat) (i : Z) : result nat :=
  if ((0 <=? i) && (i <? Z.of_nat n))%Z then inr (Z.to_nat i)
  else if ((- Z.of_nat n <=? i) && (i <? 0))%Z
       then inr (Z.to_nat (Z.of_nat n + i))
       else inl IndexError.

Fixpoint replace {A} (n : nat) (v : A) (l : list A) : list A :=
  match l, n with
  | [], _ => []
  | _ :: l', O => v :: l'
  | x :: l', S n' => x :: replace n' v l'
  end.

Fixpoint dict_get (k : user_key) (d : list (user_key * history))
  : option history :=
  match d with
  | [] => None
  | (k', v) :: d' => if user_key_eqb k k' then Some v else dict_get k d'
  end.

Fixpoint dict_set (k : user_key) (v : history)
         (d : list (user_key * history)) : list (user_key * history) :=
  match d with
  | [] => [(k, v)]
  | (k', v') :: d' =>
      if user_key_eqb k k' then (k', v) :: d' else (k', v') :: dict_set k v d'
  end.

(** [store[user_id]] *)
Definition getitem (k : user_key) (st : store) : result history :=
  match st with
  | PyList l =>
      match k with
      | UStr _ => inl TypeError
      | UInt i => rbind (index (List.length l) i) (fun n => inr (nth n l []))
      end
  | PyDict d =>
      match dict_get k d with Some h => inr h | None => inl KeyError end
  end.

(** [store[user_id] = h] *)
Definition setitem (k : user_key) (h : history) (st : store) : result store :=
  match st with
  | PyList l =>
      match k with
      | UStr _ => inl TypeError
      | UInt i =>
          rbind (index (List.length l) i)
                (fun n => inr (PyList (replace n h l)))
      end
  | PyDict d => inr (PyDict (dict_set k h d))
  end.

(** [h[-20:]] *)
Definition last20 (h : history) : history :=
  skipn (List.length h - 20) h.

(** [add_to_conversation_history] on the store, at the clock reading
    [timestamp].  The only statement that can raise is the first one that
    indexes the store, so a raised exception leaves the store as it was. *)
Definition add_interaction (timestamp : string) (user_id : user_key)
           (query response : string) (st : store) : result store :=
  let interaction :=
    {| i_timestamp := timestamp; i_query := query;
       i_response := PyStr.slice_to 500 response |} in
  rbind (if negb (contains user_id st) then setitem user_id [] st
         else inr st) (fun st =>
  rbind (getitem user_id st) (fun h =>
  rbind (setitem user_id (h ++ [interaction])%list st) (fun st =>
  rbind (getitem user_id st) (fun h =>
  if 20 <? List.length h then
    rbind (getitem user_id st) (fun h => setitem user_id (last20 h) st)
  else inr st)))).

(** ** The state of an [IrrigationGuide] *)

Record guide_state := {
  json_loader : JSONIntentLoader.intents_table;
  resources : ResourceType -> table;
  conversation_history : store
}.

(** [__init__], given the intents that [JSONIntentLoader()] found on
    disk.  [user_context] and [user_preferences] play no part in the
    functions modelled here.  The handler of [__init__] is not modelled:
    nothing in its [try] block raises on the literals above, and an object
    built by the handler has no [conversation_history] at all. *)
Definition __init__ (loaded : JSONIntentLoader.intents_table) : guide_state :=
  {| json_loader := loaded;
     resources := knowledge_base;
     conversation_history := PyList [] |}.

Definition set_history (self : guide_state) (st : store) : guide_state :=
  {| json_loader := json_loader self;
     resources := resources self;
     conversation_history := st |}.

(** A method that may update [self] and either returns or raises. *)
Definition M (A : Type) : Type := guide_state -> result A * guide_state.

Definition ret {A} (a : A) : M A := fun self => (inr a, self).

Definition bind {A B} (m : M A) (k : A -> M B) : M B :=
  fun self =>
    match m self with
    | (inl e, self') => (inl e, self')
    | (inr a, self') => k a self'
    end.

Definition lift {A} (r : result A) : M A := fun self => (r, self).

Definition get_self : M guide_state := fun self => (inr self, self).

(** ** The responses *)

Record spelling_note := {
  original_query : string;
  corrected_query : string;
  corrections : list string
}.

(** The dictionary built by [_format_chat_response]; every item of
    [c_suggestions] stands for [{"name": s, "type": "suggestion"}].  No
    entry of the chat table has the key ["categories"]. *)
Record chat_response := {
  c_response : string;
  c_suggestions : option (list string);
  c_actions : option (list dict);
  c_quick_actions : option (list dict)
}.

Record contact_response := {
  ct_title : string;
  ct_description : string;
  ct_methods : list dict;
  ct_social_media : list dict;
  ct_quick_actions : list dict;
  ct_navigation_instructions : string
}.

Record emergency_contact := {
  e_title : string;
  e_description : string;
  e_contacts : list dict;
  e_quick_actions : list dict;
  e_navigation_instructions : string
}.

Record json_intent_response := {
  j_query : string;
  j_response : string;
  j_intent : option string;
  j_category : option string;
  j_confidence : Q;
  j_suggestions : list string
}.

(** The response assembled for a resolved resource.  [rr_route] holds the
    [category] and [importance] added for a route, [rr_examples] the
    examples added for a command. *)
Record resource_response := {
  rr_type : ResourceType;
  rr_query : string;
  rr_corrected_query : option string;
  rr_name : string;
  rr_description : string;
  rr_icon : string;
  rr_navigation_instructions : string;
  rr_suggestions : list suggestion;
  rr_spelling_correction : option spelling_note;
  rr_route : option (string * Z);
  rr_examples : option (list string);
  rr_safety_warning : option string;
  rr_safety_note : option string;
  rr_contact_info : option contact_response;
  rr_emergency_info : option emergency_contact
}.

(** The dictionaries that [get_help_response] can return.  [sc] is the
    optional key ["spelling_correction"].  [NotFound m l sc] stands for
    [{"matched": False, "message": m, "suggestions": l, "response_type":
    "error"}] and [Error m] for [{"matched": False, "message": m,
    "suggestions": [], "response_type": "error"}]. *)
Inductive help_response :=
| JsonIntent (r : json_intent_response)
| Chat (r : chat_response)
| Contact (r : contact_response) (sc : option spelling_note)
| EmergencyContact (r : emergency_contact) (sc : option spelling_note)
| NotFound (message : string) (suggestions : list suggestion)
           (sc : option spelling_note)
| Resource (r : resource_response)
| Error (message : string).

(** [response["matched"]] *)
Definition matched (r : help_response) : bool :=
  match r with
  | NotFound _ _ _ | Error _ => false
  | _ => true
  end.

(** [_format_chat_response]; its handler is dead code here, as nothing in
    the body can raise. *)
Definition _format_chat_response (resources : ResourceType -> table)
           (response_key : string) : chat_response :=
  match JSONIntentLoader.get response_key (resources CHAT) with
  | Some chat_data =>
      {| c_response :=
           match response chat_data with Some r => r | None => "" end;
         c_suggestions := suggestions chat_data;
         c_actions := actions chat_data;
         c_quick_actions := quick_actions chat_data |}
  | None =>
      {| c_response := ""; c_suggestions := None; c_actions := None;
         c_quick_actions := None |}
  end.

Definition mentions (words : list string) (text : string) : bool :=
  PyStr.any (fun w => PyStr.contains w text) words.

Definition _check_special_commands (resources : ResourceType -> table)
           (query : string) : option chat_response :=
  let query_lower := PyStr.lower query in
  if mentions ["clear chat"; "delete history"; "reset conversation"] query_lower
  then Some (_format_chat_response resources "clear_chat_confirmation")
  else if mentions ["settings"; "preferences"; "options"] query_lower
  then Some (_format_chat_response resources "settings_info")
  else if mentions ["emergency"; "urgent"; "help now"] query_lower
  then Some (_format_chat_response resources "emergency_info")
  else None.

Definition _check_conversational_phrases (resources : ResourceType -> table)
           (query : string) : option chat_response :=
  let query_lower := PyStr.lower query in
  if mentions ["hello"; "hi"; "hey"; "greetings"; "good morning";
               "good afternoon"] query_lower
  then Some (_format_chat_response resources "greeting")
  else if mentions ["thank"; "thanks"; "appreciate"; "grateful"] query_lower
  then Some (_format_chat_response resources "thanks")
  else if mentions ["bye"; "goodbye"; "see you"; "farewell"] query_lower
  then Some (_format_chat_response resources "goodbye")
  else None.

(** [m.get(k)] on a dictionary of strings, [None] for a missing key *)
Definition dget (k : string) (d : dict) : option string :=
  JSONIntentLoader.get k d.

Definition get_contact_response (resources : ResourceType -> table)
  : result contact_response :=
  rbind (item "contact" (resources CONTACT)) (fun contact_info =>
  rbind (required (title contact_info)) (fun title =>
  rbind (required (description contact_info)) (fun description =>
  rbind (required (methods contact_info)) (fun ms =>
  rbind (rmap (fun '(method_key, method) =>
           rbind (item "label" method) (fun label =>
           rbind (item "value" method) (fun value =>
           rbind (item "icon" method) (fun icon =>
           rbind (item "action" method) (fun action =>
           inr [ ("type", method_key); ("label", label);
                 ("value", value); ("icon", icon); ("action", action);
                 ("details",
                  match dget "availability" method with
                  | Some a =>
                      if String.eqb a "" then
                        match dget "response_time" method with
                        | Some r => r | None => ""
                        end
                      else a
                  | None =>
                      match dget "response_time" method with
                      | Some r => r | None => ""
                      end
                  end) ]))))) ms) (fun methods =>
  rbind (required (social_media contact_info)) (fun sm =>
  rbind (rmap (fun '(platform, info) =>
           rbind (item "url" info) (fun url =>
           rbind (item "icon" info) (fun icon =>
           rbind (item "label" info) (fun label =>
           inr [ ("platform", platform); ("url", url); ("icon", icon);
                 ("label", label) ])))) sm) (fun social =>
  inr {| ct_title := title;
         ct_description := description;
         ct_methods := methods;
         ct_social_media := social;
         ct_quick_actions := contact_quick_actions;
         ct_navigation_instructions :=
           match navigation_instructions contact_info with
           | Some n => n | None => ""
           end |}))))))).

Definition get_emergency_contact_info : emergency_contact :=
  {| e_title := emergency_title;
     e_description := emergency_description;
     e_contacts := emergency_contacts;
     e_quick_actions := emergency_quick_actions;
     e_navigation_instructions := emergency_navigation_instructions |}.

Definition _enhance_with_contact_intelligence
           (resources : ResourceType -> table) (query : string)
           (r : resource_response) : result resource_response :=
  let query_lower := PyStr.lower query in
  if mentions ["contact"; "support"; "help"; "call"; "email"; "phone";
               "number"; "address"; "location"; "talk to"; "speak with";
               "emergency"; "urgent"; "problem"; "issue"; "broken"]
              query_lower
  then
    rbind (match rr_contact_info r with
           | Some c => inr (Some c)
           | None => rbind (get_contact_response resources)
                           (fun c => inr (Some c))
           end) (fun contact_info =>
    inr {| rr_type := rr_type r; rr_query := rr_query r;
           rr_corrected_query := rr_corrected_query r;
           rr_name := rr_name r; rr_description := rr_description r;
           rr_icon := rr_icon r;
           rr_navigation_instructions := rr_navigation_instructions r;
           rr_suggestions := rr_suggestions r;
           rr_spelling_correction := rr_spelling_correction r;
           rr_route := rr_route r; rr_examples := rr_examples r;
           rr_safety_warning := rr_safety_warning r;
           rr_safety_note := rr_safety_note r;
           rr_contact_info := contact_info;
           rr_emergency_info :=
             if mentions ["emergency"; "urgent"; "critical"; "broken";
                          "not working"] query_lower
             then Some get_emergency_contact_info
             else rr_emergency_info r |})
  else inr r.

(** ** The dispatcher [get_help_response] *)

Definition generic_error : help_response :=
  Error "I encountered an error processing your request. Please try again or contact support if the issue persists.".

Definition not_found_message : string :=
  "I couldn't find an exact match for your query. Try being more specific or ask about:".

Section Dispatcher.

(** What the methods take from outside the object: [random.choice],
    the reading [datetime.now().isoformat()] of the clock, and
    [difflib.get_close_matches]. *)
Variable random_choice : list string -> string.
Variable now : string.
Variable get_close_matches :
  string -> list string -> nat -> Q -> list string.

Definition add_to_conversation_history (user_id : user_key)
           (query response : string) : M unit :=
  fun self =>
    match add_interaction now user_id query response
                          (conversation_history self) with
    | inl e => (inl e, self)
    | inr st => (inr tt, set_history self st)
    end.

(** [if user_id: self.add_to_conversation_history(user_id, query, r)] *)
Definition record_if_user (user_id : option user_key)
           (query response : string) : M unit :=
  match user_id with
  | Some u =>
      if truthy u then add_to_conversation_history u query response
      else ret tt
  | None => ret tt
  end.

Definition spelling_if (has_spelling_issues : bool)
           (query corrected_query : string) (corrections : list string)
  : option spelling_note :=
  if has_spelling_issues
  then Some {| original_query := query;
               corrected_query := corrected_query;
               corrections := corrections |}
  else None.

(** The response assembled once a resource is resolved, before the
    contact enhancement. *)
Definition assemble (self : guide_state) (query corrected_query : string)
           (corrections : list string) (has_spelling_issues : bool)
           (resource_name : string) (resource_type : ResourceType)
  : result resource_response :=
  rbind (item resource_name (resources self resource_type))
        (fun resource_data =>
  rbind (required (description resource_data)) (fun description =>
  inr {| rr_type := resource_type;
         rr_query := query;
         rr_corrected_query :=
           if has_spelling_issues then Some corrected_query else None;
         rr_name := resource_name;
         rr_description := description;
         rr_icon := match icon resource_data with
                    | Some i => i | None => "fa-question-circle"
                    end;
         rr_navigation_instructions :=
           match navigation_instructions resource_data with
           | Some n => n | None => ""
           end;
         rr_suggestions :=
           get_suggestions (resources self) corrected_query 5;
         rr_spelling_correction :=
           spelling_if has_spelling_issues query corrected_query
                       corrections;
         rr_route :=
           if ResourceType_eqb resource_type ROUTE
           then Some (match category resource_data with
                      | Some c => c | None => ""
                      end,
                      match importance resource_data with
                      | Some i => i | None => 5%Z
                      end)
           else None;
         rr_examples :=
           if ResourceType_eqb resource_type COMMAND
           then Some (match examples resource_data with
                      | Some l => l | None => []
                      end)
           else None;
         rr_safety_warning :=
           if ResourceType_eqb resource_type COMMAND
           then safety_warning resource_data else None;
         rr_safety_note :=
           if ResourceType_eqb resource_type COMMAND
           then safety_note resource_data else None;
         rr_contact_info := None;
         rr_emergency_info := None |})).

(** The [try] block of [get_help_response]. *)
Definition help_body (query : string) (user_id : option user_key)
  : M help_response :=
  bind (record_if_user user_id query "Processing...") (fun _ =>
  bind get_self (fun self =>
  let json_response :=
    JSONIntentLoader.get_response random_choice (json_loader self) query in
  if JSONIntentLoader.matched json_response
     && PyNum.ge (JSONIntentLoader.confidence json_response) (6 # 10)
  then
    bind (record_if_user user_id query
            (JSONIntentLoader.response json_response)) (fun _ =>
    ret (JsonIntent
           {| j_query := query;
              j_response := JSONIntentLoader.response json_response;
              j_intent := JSONIntentLoader.intent_tag json_response;
              j_category := JSONIntentLoader.category json_response;
              j_confidence := JSONIntentLoader.confidence json_response;
              j_suggestions :=
                JSONIntentLoader.suggestions json_response |}))
  else
  match _check_special_commands (resources self) query with
  | Some special_response =>
      bind (record_if_user user_id query (c_response special_response))
           (fun _ => ret (Chat special_response))
  | None =>
  let '(corrected_query, corrections) :=
    SpellingCorrector.correct_spelling query in
  let has_spelling_issues :=
    negb (String.eqb (PyStr.lower corrected_query) (PyStr.lower query)) in
  match _check_conversational_phrases (resources self) corrected_query with
  | Some conversational_response =>
      bind (record_if_user user_id query
              (c_response conversational_response))
           (fun _ => ret (Chat conversational_response))
  | None =>
  if mentions ["contact"; "support"; "help"; "call"; "email"; "phone";
               "emergency"] (PyStr.lower corrected_query)
  then
    let sc := spelling_if has_spelling_issues query corrected_query
                          corrections in
    bind (if PyStr.contains "emergency" (PyStr.lower corrected_query)
          then ret (EmergencyContact get_emergency_contact_info sc)
          else bind (lift (get_contact_response (resources self)))
                    (fun c => ret (Contact c sc))) (fun response =>
    bind (record_if_user user_id query "Provided contact information")
         (fun _ => ret response))
  else
  let not_found :=
    ret (NotFound not_found_message
           (get_suggestions (resources self) corrected_query 5)
           (spelling_if has_spelling_issues query corrected_query
                        corrections)) in
  match find_best_match get_close_matches (resources self)
                        corrected_query with
  | None => not_found
  | Some (resource_name, resource_type) =>
      if String.eqb resource_name "" then not_found
      else
        bind (lift (assemble self query corrected_query corrections
                             has_spelling_issues resource_name
                             resource_type)) (fun response =>
        bind (lift (_enhance_with_contact_intelligence
                      (resources self) corrected_query response))
             (fun response =>
        bind (record_if_user user_id query
                ("Found resource: " ++ resource_name)) (fun _ =>
        ret (Resource response))))
  end end end)).

(** [get_help_response]: the body under its blanket handler. *)
Definition get_help_response (self : guide_state) (query : string)
           (user_id : option user_key) : help_response * guide_state :=
  match help_body query user_id self with
  | (inr response, self') => (response, self')
  | (inl _, self') => (generic_error, self')
  end.

(** [execute_special_command]; the dictionary returned is reduced to
    its text, [None] for an unknown command. *)
Definition execute_special_command (self : guide_state) (command : string)
           (user_id : option user_key)
  : result (option string) * guide_state :=
  if String.eqb command "confirm_clear_chat" then
    match user_id with
    | Some u =>
        if truthy u && contains u (conversation_history self) then
          match setitem u [] (conversation_history self) with
          | inl e => (inl e, self)
          | inr st =>
              (inr (Some "Chat history has been cleared successfully."),
               set_history self st)
          end
        else (inr (Some "Chat history has been cleared successfully."),
              self)
    | None => (inr (Some "Chat history has been cleared successfully."),
               self)
    end
  else if String.eqb command "save_settings" then
    (inr (Some "Your settings have been saved successfully."), self)
  else (inr None, self).

(** The calls that reach the conversation history. *)
Inductive call :=
| AskHelp (query : string) (user_id : option user_key)
| Execute (command : string) (user_id : option user_key)
| AddHistory (user_id : user_key) (query response : string).

(** What a call returns: a response, or the exception it lets
    through. *)
Inductive outcome :=
| Answered (r : help_response)
| Executed (r : option string)
| Returned
| Raised (e : exn).

Definition perform (self : guide_state) (c : call)
  : outcome * guide_state :=
  match c with
  | AskHelp query user_id =>
      let '(r, self') := get_help_response self query user_id in
      (Answered r, self')
  | Execute command user_id =>
      match execute_special_command self command user_id with
      | (inr r, self') => (Executed r, self')
      | (inl e, self') => (Raised e, self')
      end
  | AddHistory user_id query response =>
      match add_to_conversation_history user_id query response self with
      | (inr _, self') => (Returned, self')
      | (inl e, self') => (Raised e, self')
      end
  end.

(** A sequence of calls on one object. *)
Fixpoint run (self : guide_state) (cs : list call)
  : list outcome * guide_state :=
  match cs with
  | [] => ([], self)
  | c :: cs' =>
      let '(o, self') := perform self c in
      let '(os, self'') := run self' cs' in
      (o :: os, self'')
  end.

End Dispatcher.

End IrrigationGuide.

(* ================================================================== *)
(** * The resolver as three passes over the resources *)

Module ResolverSpec.
Import IrrigationGuide.


(** The test of the first pass: the name or a keyword equals the query. *)
Definition pass1 (q : string) (name : string) (data : resource) : bool :=
  exact_name q name || exact_keyword q data.

End ResolverSpec.

Module SpellingMoreSpec.
Import SpellingCorrector.

(** The state of the loop of [closest] after the terms [done]: nothing
    while every term met is farther than 2 from the word, otherwise the
    first of the terms met that is nearest to it. *)
Inductive nearest (lower_word : string) (done : list string)
  : option string -> distance_bound -> Prop :=
| nearest_none :
    Forall (fun t => 2 < Levenshtein.distance lower_word (PyStr.lower t))
           done ->
    nearest lower_word done None Infinity
| nearest_some l1 t l2 :
    done = (l1 ++ t :: l2)%list ->
    Levenshtein.distance lower_word (PyStr.lower t) <= 2 ->
    Forall (fun t' => Levenshtein.distance lower_word (PyStr.lower t)
                      < Levenshtein.distance lower_word (PyStr.lower t')) l1 ->
    Forall (fun t' => Levenshtein.distance lower_word (PyStr.lower t)
                      <= Levenshtein.distance lower_word (PyStr.lower t')) l2 ->
    nearest lower_word done (Some t)
            (Finite (Levenshtein.distance lower_word (PyStr.lower t))).
End SpellingMoreSpec.

Module DispatchSpec.
Import IrrigationGuide.

(** The ranked suggestions that a response carries: those of
    [get_suggestions], in a "not found" response and in the response for
    a resource. *)
Definition ranked_suggestions (r : help_response) : list suggestion :=
  match r with
  | NotFound _ l _ => l
  | Resource rr => rr_suggestions rr
  | _ => []
  end.
End DispatchSpec.

(* ================================================================== *)
(** * Reading the conversation history *)

From Stdlib Require Import DecimalString.

Module Conversation.
Import IrrigationGuide.

(** [h[-m:]] for an integer [m]: the start [-m] counts from the end when
    it is negative and is clipped to the list; [h[-0:]] is [h[0:]]. *)
Definition slice_last {A} (m : Z) (h : list A) : list A :=
  let start := (- m)%Z in
  if (start <? 0)%Z
  then skipn (Z.to_nat (Z.max 0 (Z.of_nat (List.length h) + start))) h
  else skipn (Z.to_nat start) h.

(** [str(n)] for a natural number *)
Definition str (n : nat) : string := NilZero.string_of_uint (Nat.to_uint n).

(** The loop of [get_conversation_context] from the index [i] on. *)
Fixpoint context_lines (i : nat) (recent : history) : string :=
  match recent with
  | [] => ""
  | interaction :: recent' =>
      str (i + 1) ++ ". User: " ++ i_query interaction ++ nl
      ++ "   Bot: " ++ i_response interaction ++ nl
      ++ context_lines (S i) recent'
  end.

Definition get_conversation_context (self : guide_state)
           (user_id : user_key) (max_interactions : Z) : result string :=
  if negb (contains user_id (conversation_history self)) then inr ""
  else
    rbind (getitem user_id (conversation_history self)) (fun h =>
    let recent := slice_last max_interactions h in
    inr ("Recent conversation history:" ++ nl ++ context_lines 0 recent)).

(** The class of one query in [analyze_conversation_patterns]. *)
Definition topic_of (query : string) : option string :=
  if mentions ["pump"; "valve"; "control"] query then Some "control"
  else if mentions ["schedule"; "timer"; "automatic"] query
  then Some "scheduling"
  else if mentions ["problem"; "issue"; "error"; "not working"] query
  then Some "troubleshooting"
  else if mentions ["water"; "save"; "conservation"] query
  then Some "conservation"
  else if mentions ["dashboard"; "status"; "monitor"] query
  then Some "monitoring"
  else None.

Definition topics_of (conversations : history) : list string :=
  flat_map (fun conv =>
              match topic_of (PyStr.lower (i_query conv)) with
              | Some t => [t]
              | None => []
              end)
           (slice_last 5 conversations).

(** [Counter(topics)]: the elements in the order of their first
    occurrence, each with its count. *)
Fixpoint count_one (t : string) (c : list (string * nat))
  : list (string * nat) :=
  match c with
  | [] => [(t, 1)]
  | (k, n) :: c' =>
      if String.eqb t k then (k, S n) :: c' else (k, n) :: count_one t c'
  end.

Definition Counter (l : list string) : list (string * nat) :=
  fold_left (fun c t => count_one t c) l [].

(** [max(items, key=count)], the first of the items of greatest count;
    this is what [most_common(1)] returns. *)
Fixpoint first_max (best : string * nat) (items : list (string * nat))
  : string * nat :=
  match items with
  | [] => best
  | x :: items' =>
      first_max (if snd best <? snd x then x else best) items'
  end.

Definition most_common_1 (c : list (string * nat)) : list (string * nat) :=
  match c with
  | [] => []
  | x :: c' => [first_max x c']
  end.

Definition recommendations : list (string * list string) :=
  [ ("control", ["Learn advanced valve control"; "Pump maintenance guide"]);
    ("scheduling", ["Weather-based scheduling"; "Zone-specific schedules"]);
    ("troubleshooting",
     ["Common issue solutions"; "Preventative maintenance"]);
    ("conservation", ["Water saving techniques"; "Rainwater harvesting"]);
    ("monitoring", ["Advanced analytics"; "Custom dashboard widgets"]) ].

Fixpoint lookup_list (k : string) (d : list (string * list string))
  : list string :=
  match d with
  | [] => []
  | (k', v) :: d' => if String.eqb k k' then v else lookup_list k d'
  end.

Record pattern_analysis := {
  interest_area : string;
  pa_recommendations : list string
}.

Definition analyze_conversation_patterns (self : guide_state)
           (user_id : user_key) : result (option pattern_analysis) :=
  if negb (contains user_id (conversation_history self)) then inr None
  else
    rbind (getitem user_id (conversation_history self))
          (fun conversations =>
    if List.length conversations <? 3 then inr None
    else
      let topics := topics_of conversations in
      match topics with
      | [] => inr None
      | _ =>
          match most_common_1 (Counter topics) with
          | [] => inl IndexError
          | (most_common, _) :: _ =>
              inr (Some {| interest_area := most_common;
                           pa_recommendations :=
                             lookup_list most_common recommendations |})
          end
      end).

(** A series of calls of [add_to_conversation_history], each with its
    clock reading, user, query and response; the first exception ends
    it. *)
Fixpoint record_all (calls : list (string * user_key * string * string))
         (st : store) : result store :=
  match calls with
  | [] => inr st
  | (timestamp, user_id, query, response) :: calls' =>
      rbind (add_interaction timestamp user_id query response st)
            (record_all calls')
  end.

(** The interactions that such a series holds for one user. *)
Definition interactions_of (u : user_key)
           (calls : list (string * user_key * string * string))
  : history :=
  flat_map (fun '(timestamp, user_id, query, response) =>
              if user_key_eqb u user_id
              then [ {| i_timestamp := timestamp; i_query := query;
                        i_response := PyStr.slice_to 500 response |} ]
              else [])
           calls.

End Conversation.

(* ================================================================== *)
(** * The listing of the resources *)

Module Listing.
Import IrrigationGuide.

(** One entry of the listing.  The [url] that an entry of a route has
    besides is a lazily reversed route of the web framework, or ["/"]
    when its conversion raises; it is left out, as it is in
    [resource]. *)
Record listed := {
  l_name : string;
  l_description : string;
  l_icon : string;
  l_type : string;
  l_category : string;
  l_importance : Z
}.

(** [category_filter and data.get("category") != category_filter] *)
Definition filtered_out (category_filter : option string) (data : resource)
  : bool :=
  match category_filter with
  | None => false
  | Some f =>
      negb (String.eqb f "")
      && negb (match category data with
               | Some c => String.eqb c f
               | None => false
               end)
  end.

(** The inner loop, over the items of one table. *)
Fixpoint list_table (category_filter : option string)
         (resource_type : ResourceType) (t : table)
         (resources : list listed) : result (list listed) :=
  match t with
  | [] => inr resources
  | (name, data) :: t' =>
      if filtered_out category_filter data
      then list_table category_filter resource_type t' resources
      else
        rbind (required (description data)) (fun d =>
        list_table category_filter resource_type t'
          (resources
           ++ [ {| l_name := name;
                   l_description := d;
                   l_icon := match icon data with
                             | Some i => i
                             | None => "fa-question-circle"
                             end;
                   l_type := value resource_type;
                   l_category := match category data with
                                 | Some c => c
                                 | None => ""
                                 end;
                   l_importance := match importance data with
                                   | Some i => i
                                   | None => 5%Z
                                   end |} ])%list)
  end.

(** The outer loop, over the resource types. *)
Fixpoint list_types (rs : ResourceType -> table)
         (category_filter : option string) (types : list ResourceType)
         (resources : list listed) : result (list listed) :=
  match types with
  | [] => inr resources
  | resource_type :: types' =>
      if ResourceType_eqb resource_type CHAT
      then list_types rs category_filter types' resources
      else
        rbind (list_table category_filter resource_type
                          (rs resource_type) resources)
              (list_types rs category_filter types')
  end.

(** [key(x) < key(y)] for the key [(-x["importance"], x["name"])]:
    tuples compare by their first components that differ. *)
Definition key_lt (x y : listed) : bool :=
  if (- l_importance x =? - l_importance y)%Z
  then String.ltb (l_name x) (l_name y)
  else (- l_importance x <? - l_importance y)%Z.

(** [resources.sort(key=...)], a stable sort. *)
Fixpoint insert_by_key (x : listed) (l : list listed) : list listed :=
  match l with
  | [] => [x]
  | y :: l' => if key_lt y x then y :: insert_by_key x l' else x :: l
  end.

Definition sort_by_key (l : list listed) : list listed :=
  fold_right insert_by_key [] l.

Definition get_all_resources (rs : ResourceType -> table)
           (category_filter : option string) : result (list listed) :=
  rbind (list_types rs category_filter all_types [])
        (fun resources => inr (sort_by_key resources)).

End Listing.

Module ListingSpec.
Import IrrigationGuide Listing.

(** The entry that the loop makes of a resource with a description. *)
Definition row (rt : ResourceType) (name : string) (data : resource)
           (d : string) : listed :=
  {| l_name := name;
     l_description := d;
     l_icon := match icon data with
               | Some i => i
               | None => "fa-question-circle"
               end;
     l_type := value rt;
     l_category := match category data with Some c => c | None => "" end;
     l_importance := match importance data with
                     | Some i => i
                     | None => 5%Z
                     end |}.

(** The resources that the listing is to show: those of every type but
    the chat responses, of the category asked for when one is. *)
Definition selected (rs : ResourceType -> table)
           (category_filter : option string)
           (rt : ResourceType) (name : string) (data : resource) : Prop :=
  rt <> CHAT /\ In (name, data) (rs rt) /\
  filtered_out category_filter data = false.

(** The order of the listing: the greater importance first, the names
    in the order of their characters among equals. *)
Definition key_le (x y : listed) : Prop :=
  (l_importance y < l_importance x)%Z \/
  (l_importance x = l_importance y /\
   String.leb (l_name x) (l_name y) = true).

(** An example: the listing of the category ["Legal"]. *)
Definition legal_pages : list listed :=
  [ {| l_name := "privacy";
       l_description :=
         "Our privacy policy and data handling practices for your security";
       l_icon := "fa-shield-alt";
       l_type := "route";
       l_category := "Legal";
       l_importance := 3 |};
    {| l_name := "terms";
       l_description :=
         "Terms of service and usage agreement for the irrigation system";
       l_icon := "fa-file-contract";
       l_type := "route";
       l_category := "Legal";
       l_importance := 2 |} ].

End ListingSpec.

(* ================================================================== *)
(** * The context and the preferences of the users *)

Module UserData.
Import IrrigationGuide.

Section Values.
(** The values that callers store: any Python object. *)
Variable V : Type.

(** The dictionary kept for one user, and [self.user_context] or
    [self.user_preferences], both [{}] after [__init__].  The inner
    dictionary is updated in place in the code and [get_user_context]
    hands it out; what a caller does to it afterwards is not modelled. *)
Definition settings := list (string * V).
Definition user_dict := list (user_key * settings).

Fixpoint lookup (user_id : user_key) (d : user_dict) : option settings :=
  match d with
  | [] => None
  | (k, s) :: d' => if user_key_eqb user_id k then Some s else lookup user_id d'
  end.

(** [d[user_id] = s] *)
Fixpoint assign (user_id : user_key) (s : settings) (d : user_dict)
  : user_dict :=
  match d with
  | [] => [(user_id, s)]
  | (k, s') :: d' =>
      if user_key_eqb user_id k then (k, s) :: d'
      else (k, s') :: assign user_id s d'
  end.

(** [user_id in d] *)
Definition member (user_id : user_key) (d : user_dict) : bool :=
  existsb (fun e => user_key_eqb user_id (fst e)) d.

(** [d[user_id]] *)
Definition at_user (user_id : user_key) (d : user_dict) : result settings :=
  match lookup user_id d with
  | Some s => inr s
  | None => inl KeyError
  end.

(** [s[key] = value] *)
Fixpoint set_key (key : string) (value : V) (s : settings) : settings :=
  match s with
  | [] => [(key, value)]
  | (k, v) :: s' =>
      if String.eqb key k then (k, value) :: s'
      else (k, v) :: set_key key value s'
  end.

(** [s.update(other)], the pairs of [other] in their order *)
Definition update (s : settings) (other : list (string * V)) : settings :=
  fold_left (fun s kv => set_key (fst kv) (snd kv) s) other s.

Definition update_user_context (user_context : user_dict)
           (user_id : user_key) (key : string) (value : V)
  : result user_dict :=
  let user_context :=
    if negb (member user_id user_context)
    then assign user_id [] user_context
    else user_context in
  rbind (at_user user_id user_context) (fun s =>
  inr (assign user_id (set_key key value s) user_context)).

(** [self.user_context.get(user_id, {})] *)
Definition get_user_context (user_context : user_dict)
           (user_id : user_key) : settings :=
  match lookup user_id user_context with
  | Some s => s
  | None => []
  end.

Definition update_user_preferences (user_preferences : user_dict)
           (user_id : user_key) (preferences : list (string * V))
  : result user_dict :=
  let user_preferences :=
    if negb (member user_id user_preferences)
    then assign user_id [] user_preferences
    else user_preferences in
  rbind (at_user user_id user_preferences) (fun s =>
  inr (assign user_id (update s preferences) user_preferences)).

Definition get_user_preferences (user_preferences : user_dict)
           (user_id : user_key) : settings :=
  match lookup user_id user_preferences with
  | Some s => s
  | None => []
  end.

End Values.

Arguments lookup {V}.
Arguments assign {V}.
Arguments member {V}.
Arguments at_user {V}.
Arguments set_key {V}.
Arguments update {V}.
Arguments update_user_context {V}.
Arguments get_user_context {V}.
Arguments update_user_preferences {V}.
Arguments get_user_preferences {V}.

End UserData.

(* ================================================================== *)
(** * Facts about scores *)

Module PyNumFacts.
Lemma gt_iff a b : PyNum.gt a b = true <-> (b < a)%Q.
Proof.
  unfold PyNum.gt. rewrite negb_true_iff.
  destruct (Qle_bool a b) eqn:E.
  - apply Qle_bool_iff in E. split; [discriminate | intro; lra].
  - split; [intros _ | reflexivity].
    destruct (Qlt_le_dec b a) as [H | H]; [exact H |].
    apply Qle_bool_iff in H. congruence.
Qed.

Lemma gt_false_iff a b : PyNum.gt a b = false <-> (a <= b)%Q.
Proof.
  unfold PyNum.gt. rewrite negb_false_iff. apply Qle_bool_iff.
Qed.

Lemma ge_iff a b : PyNum.ge a b = true <-> (b <= a)%Q.
Proof. unfold PyNum.ge. apply Qle_bool_iff. Qed.

Lemma ge_false_iff a b : PyNum.ge a b = false <-> (a < b)%Q.
Proof.
  unfold PyNum.ge. destruct (Qle_bool b a) eqn:E.
  - apply Qle_bool_iff in E. split; [discriminate | intro; lra].
  - split; [intros _ | reflexivity].
    destruct (Qlt_le_dec a b) as [H | H]; [exact H |].
    apply Qle_bool_iff in H. congruence.
Qed.

Lemma max_cases a b :
  (PyNum.max a b = b /\ (a < b)%Q) \/ (PyNum.max a b = a /\ (b <= a)%Q).
Proof.
  unfold PyNum.max. destruct (PyNum.gt b a) eqn:E.
  - left. split; [reflexivity | now apply gt_iff].
  - right. split; [reflexivity | now apply gt_false_iff].
Qed.
End PyNumFacts.

Module MaxFacts.
Import IntentSpec.
Lemma is_max_unique base l m m' :
  is_max base l m -> is_max base l m' -> (m == m')%Q.
Proof.
  intros (Hb & Hall & Hin) (Hb' & Hall' & Hin').
  assert (m <= m')%Q.
  { destruct Hin as [E | E]; [lra |].
    apply Exists_exists in E. destruct E as (x & Hx & E).
    rewrite Forall_forall in Hall'. specialize (Hall' x Hx). lra. }
  assert (m' <= m)%Q.
  { destruct Hin' as [E | E]; [lra |].
    apply Exists_exists in E. destruct E as (x & Hx & E).
    rewrite Forall_forall in Hall. specialize (Hall x Hx). lra. }
  lra.
Qed.

Lemma maximum_is_max l : is_max 0 l (IntentSpec.maximum l).
Proof.
  induction l as [| x l IH]; simpl.
  - repeat split; [lra | constructor | left; reflexivity].
  - destruct IH as (Hb & Hall & Hin).
    destruct (Qle_bool (IntentSpec.maximum l) x) eqn:E.
    + apply Qle_bool_iff in E. repeat split.
      * lra.
      * constructor; [lra |].
        eapply Forall_impl; [| exact Hall]. simpl. intros; lra.
      * right. left. reflexivity.
    + assert (x < IntentSpec.maximum l)%Q.
      { destruct (Qlt_le_dec x (IntentSpec.maximum l)) as [H | H]; [exact H |].
        apply Qle_bool_iff in H. congruence. }
      repeat split.
      * exact Hb.
      * constructor; [lra | exact Hall].
      * destruct Hin as [Hin | Hin]; [left; exact Hin | right; right; exact Hin].
Qed.

Lemma is_max_ge_base base l m : is_max base l m -> (base <= m)%Q.
Proof. intros (H & _); exact H. Qed.
End MaxFacts.

Module ScoreFacts.
Import JSONIntentLoader MaxFacts.

Lemma inter_size a b : PySet.size (PySet.inter a b) <= PySet.size a.
Proof. unfold PySet.size, PySet.inter. apply filter_length_le. Qed.

(** The overlap ratio is at most 1, so the overlap score is at most 0.6. *)
Lemma ratio_bounds (c m : nat) :
  c <= m -> 0 < c ->
  (0 <= inject_Z (Z.of_nat c) / inject_Z (Z.of_nat m) * (6 # 10) <= 6 # 10)%Q.
Proof.
  intros Hcm Hc.
  assert (Hm : (0 < inject_Z (Z.of_nat m))%Q).
  { change 0%Q with (inject_Z 0). rewrite <- Zlt_Qlt. lia. }
  assert (H0 : (0 <= inject_Z (Z.of_nat c))%Q).
  { change 0%Q with (inject_Z 0). rewrite <- Zle_Qle. lia. }
  assert (H1 : (inject_Z (Z.of_nat c) <= inject_Z (Z.of_nat m))%Q).
  { rewrite <- Zle_Qle. lia. }
  assert (Hr0 : (0 <= inject_Z (Z.of_nat c) / inject_Z (Z.of_nat m))%Q).
  { apply Qle_shift_div_l; [exact Hm | lra]. }
  assert (Hr1 : (inject_Z (Z.of_nat c) / inject_Z (Z.of_nat m) <= 1)%Q).
  { apply Qle_shift_div_r; [exact Hm | lra]. }
  split; nra.
Qed.

Lemma pattern_score_bounds query p :
  (0 <= pattern_score query p <= 8 # 10)%Q.
Proof.
  unfold pattern_score.
  destruct (PyStr.contains p query || PyStr.contains query p); [lra |].
  set (qw := PySet.of_list (PyStr.split query)).
  set (pw := PySet.of_list (PyStr.split p)).
  destruct (PySet.inter qw pw) as [| w ws] eqn:E; [lra |].
  unfold PyNum.len.
  assert (H := inter_size qw pw). rewrite E in H. unfold PySet.size in *.
  pose proof (ratio_bounds (List.length (w :: ws))
                (Nat.max (List.length qw) (List.length pw))) as R.
  destruct R as [R0 R1]; [lia | simpl; lia |].
  revert R0 R1.
  generalize (inject_Z (Z.of_nat (List.length (w :: ws)))
              / inject_Z (Z.of_nat (Nat.max (List.length qw)
                                            (List.length pw))))%Q.
  intros r R0 R1. clear - R0 R1. split; lra.
Qed.

(** The code's score of a pattern that differs from the query is the
    specification's. *)
Lemma pattern_score_refines query pattern :
  String.eqb query (PyStr.lower pattern) = false ->
  (pattern_score query (PyStr.lower pattern)
   == IntentSpec.pattern_score query pattern)%Q.
Proof.
  intros Hne. unfold IntentSpec.pattern_score, pattern_score. rewrite Hne.
  destruct (PyStr.contains (PyStr.lower pattern) query
            || PyStr.contains query (PyStr.lower pattern)); [reflexivity |].
  unfold IntentSpec.overlap.
  destruct (PySet.inter _ _) as [| w ws]; [| reflexivity].
  unfold PyNum.len. simpl. unfold Qdiv. ring.
Qed.

Lemma spec_pattern_score_bounds query pattern :
  (0 <= IntentSpec.pattern_score query pattern <= 1)%Q.
Proof.
  destruct (String.eqb query (PyStr.lower pattern)) eqn:E.
  - unfold IntentSpec.pattern_score. rewrite E. lra.
  - rewrite <- (pattern_score_refines _ _ E).
    pose proof (pattern_score_bounds query (PyStr.lower pattern)). lra.
Qed.

(** The loop of [_calculate_match_score] returns the greatest of its
    starting value and the scores of the patterns. *)
Lemma score_patterns_is_max query ps :
  forall m0, (0 <= m0 <= 1)%Q ->
  IntentSpec.is_max m0 (map (IntentSpec.pattern_score query) ps)
         (score_patterns query ps m0).
Proof.
  induction ps as [| p ps IH]; intros m0 Hm0; simpl.
  - repeat split; [lra | constructor | left; reflexivity].
  - destruct (String.eqb query (PyStr.lower p)) eqn:E.
    + assert (Hp : IntentSpec.pattern_score query p = 1%Q).
      { unfold IntentSpec.pattern_score. rewrite E. reflexivity. }
      repeat split.
      * lra.
      * constructor; [rewrite Hp; lra |].
        apply Forall_forall. intros x Hx. apply in_map_iff in Hx.
        destruct Hx as (p' & <- & _).
        apply spec_pattern_score_bounds.
      * right. left. rewrite Hp. reflexivity.
    + pose proof (pattern_score_refines _ _ E) as Hr.
      pose proof (pattern_score_bounds query (PyStr.lower p)) as Hb.
      destruct (PyNumFacts.max_cases m0 (pattern_score query (PyStr.lower p)))
        as [[-> Hlt] | [-> Hle]].
      * destruct (IH (pattern_score query (PyStr.lower p))) as (H1 & H2 & H3);
          [lra |].
        repeat split.
        -- lra.
        -- constructor; [lra | exact H2].
        -- right. destruct H3 as [H3 | H3]; [left; lra | right; exact H3].
      * destruct (IH m0 Hm0) as (H1 & H2 & H3).
        repeat split.
        -- exact H1.
        -- constructor; [lra | exact H2].
        -- destruct H3 as [H3 | H3]; [left; exact H3 | right; right; exact H3].
Qed.

Lemma score_refines query i :
  (_calculate_match_score query i == IntentSpec.intent_score query i)%Q.
Proof.
  unfold _calculate_match_score, IntentSpec.intent_score.
  eapply is_max_unique.
  - apply score_patterns_is_max. lra.
  - apply maximum_is_max.
Qed.

Lemma score_bounds query i : (0 <= _calculate_match_score query i <= 1)%Q.
Proof.
  unfold _calculate_match_score.
  destruct (score_patterns_is_max query (patterns i) 0%Q) as (H1 & H2 & H3);
    [lra |].
  split; [exact H1 |].
  destruct H3 as [H3 | H3]; [lra |].
  apply Exists_exists in H3. destruct H3 as (x & Hx & Hxe).
  apply in_map_iff in Hx. destruct Hx as (p & <- & _).
  pose proof (spec_pattern_score_bounds query p). lra.
Qed.

Lemma exact_scores_one query i p :
  In p (patterns i) -> PyStr.lower p = query ->
  (_calculate_match_score query i == 1)%Q.
Proof.
  intros Hin Heq.
  pose proof (score_bounds query i) as Hb.
  unfold _calculate_match_score in *.
  destruct (score_patterns_is_max query (patterns i) 0%Q) as (H1 & H2 & H3);
    [lra |].
  rewrite Forall_forall in H2.
  specialize (H2 (IntentSpec.pattern_score query p)
                 (in_map _ _ _ Hin)).
  unfold IntentSpec.pattern_score in H2. rewrite Heq, String.eqb_refl in H2.
  lra.
Qed.
End ScoreFacts.

Module MatchFacts.
Import JSONIntentLoader IntentSpec.

Section Fold.
Variable query : string.
Variable threshold : Q.

Let sc (ci : string * intent) : Q := _calculate_match_score query (snd ci).

Local Abbreviation visit_flat := (IntentSpec.visit_flat query threshold).

Lemma fold_inner c data b :
  fold_left (visit query threshold c) data b
  = fold_left visit_flat (map (pair c) data) b.
Proof.
  revert b. induction data as [| i data IH]; intro b; simpl; [reflexivity |].
  apply IH.
Qed.

Lemma fold_flatten intents b :
  fold_left
    (fun b '(category, data) =>
       fold_left (visit query threshold category) data b) intents b
  = fold_left visit_flat (flatten intents) b.
Proof.
  revert b. induction intents as [| [c data] intents IH]; intro b; simpl;
    [reflexivity |].
  rewrite fold_left_app, <- fold_inner. apply IH.
Qed.

Lemma visit_first_best done b x :
  first_best sc threshold done b ->
  first_best sc threshold (done ++ [x]) (visit_flat b x).
Proof.
  intros Hb. destruct x as [c i]. unfold IntentSpec.visit_flat, visit. simpl.
  change (_calculate_match_score query i) with (sc (c, i)).
  destruct Hb as [Hnone | l1 c0 i0 l2 Hdone Hpos Hthr Hl1 Hl2].
  - destruct (PyNum.gt (sc (c, i)) 0) eqn:G;
      destruct (PyNum.ge (sc (c, i)) threshold) eqn:T; simpl.
    + apply PyNumFacts.gt_iff in G. apply PyNumFacts.ge_iff in T.
      apply first_best_some with (l1 := done) (l2 := []);
        [reflexivity | exact G | exact T | | constructor].
      eapply Forall_impl; [| exact Hnone]. simpl. intros y Hy.
      destruct (Qlt_le_dec (sc y) (sc (c, i))) as [L | L]; [exact L |].
      exfalso. apply Hy. split; lra.
    + apply PyNumFacts.ge_false_iff in T.
      apply first_best_none. apply Forall_app. split; [exact Hnone |].
      constructor; [| constructor]. intros [_ H]. lra.
    + apply PyNumFacts.gt_false_iff in G.
      apply first_best_none. apply Forall_app. split; [exact Hnone |].
      constructor; [| constructor]. intros [H _]. lra.
    + apply PyNumFacts.gt_false_iff in G.
      apply first_best_none. apply Forall_app. split; [exact Hnone |].
      constructor; [| constructor]. intros [H _]. lra.
  - destruct (PyNum.gt (sc (c, i)) (sc (c0, i0))) eqn:G.
    + apply PyNumFacts.gt_iff in G.
      assert (T : PyNum.ge (sc (c, i)) threshold = true)
        by (apply PyNumFacts.ge_iff; lra).
      rewrite T. simpl.
      apply first_best_some with (l1 := done) (l2 := []);
        [reflexivity | lra | lra | | constructor].
      subst done. apply Forall_app. split.
      * eapply Forall_impl; [| exact Hl1]. simpl. intros; lra.
      * constructor; [exact G |].
        eapply Forall_impl; [| exact Hl2]. simpl. intros; lra.
    + apply PyNumFacts.gt_false_iff in G. simpl.
      apply first_best_some with (l1 := l1) (l2 := (l2 ++ [(c, i)])%list);
        [| exact Hpos | exact Hthr | exact Hl1 |].
      * subst done. rewrite <- app_assoc. reflexivity.
      * apply Forall_app. split; [exact Hl2 |].
        constructor; [exact G | constructor].
Qed.

Lemma fold_first_best l :
  forall done b,
    first_best sc threshold done b ->
    first_best sc threshold (done ++ l) (fold_left visit_flat l b).
Proof.
  induction l as [| x l IH]; intros done b Hb; simpl.
  - rewrite app_nil_r. exact Hb.
  - replace (done ++ x :: l)%list with ((done ++ [x]) ++ l)%list
      by (rewrite <- app_assoc; reflexivity).
    apply IH. apply visit_first_best. exact Hb.
Qed.

End Fold.

(** What [find_matching_intent] returns. *)
Lemma find_matching_intent_first_best intents query threshold :
  first_best
    (fun ci => _calculate_match_score (PyStr.strip (PyStr.lower query)) (snd ci))
    threshold (flatten intents)
    (find_matching_intent intents query threshold).
Proof.
  unfold find_matching_intent. rewrite fold_flatten.
  apply (fold_first_best (PyStr.strip (PyStr.lower query)) threshold
                         (flatten intents) []).
  apply first_best_none. constructor.
Qed.
End MatchFacts.

Module ResponseFacts.
Import JSONIntentLoader IntentSpec MaxFacts ScoreFacts MatchFacts.

Lemma get_response_some random_choice intents query i c s :
  find_matching_intent intents query default_threshold = (Some i, Some c, s) ->
  (6 # 10 <= s)%Q ->
  get_response random_choice intents query
  = {| matched := true;
       r_type := Some "json_intent";
       category := Some c;
       intent_tag := Some (tag i);
       response := _get_random_response random_choice (responses i);
       confidence := s;
       suggestions := _generate_suggestions (tag i) |}.
Proof.
  intros E Hs. unfold get_response. rewrite E.
  apply PyNumFacts.ge_iff in Hs. rewrite Hs. reflexivity.
Qed.

Lemma get_response_none random_choice intents query :
  find_matching_intent intents query default_threshold = (None, None, 0%Q) ->
  matched (get_response random_choice intents query) = false /\
  confidence (get_response random_choice intents query) = 0%Q /\
  intent_tag (get_response random_choice intents query) = None.
Proof.
  intros E. unfold get_response. rewrite E. repeat split.
Qed.

(** When nothing is acceptable, the best score is below the threshold. *)
Lemma best_score_below query intents :
  Forall (fun x => ~ (0 < _calculate_match_score query (snd x)
                      /\ 6 # 10 <= _calculate_match_score query (snd x))%Q)
         (flatten intents) ->
  (best_score query intents < 6 # 10)%Q.
Proof.
  intros Hall. unfold best_score.
  destruct (maximum_is_max
              (map (fun ci => intent_score query (snd ci)) (flatten intents)))
    as (_ & _ & [H | H]); [lra |].
  apply Exists_exists in H. destruct H as (x & Hx & Hxe).
  apply in_map_iff in Hx. destruct Hx as (ci & <- & Hci).
  rewrite Forall_forall in Hall. specialize (Hall ci Hci).
  pose proof (score_refines query (snd ci)) as R.
  destruct (Qlt_le_dec (_calculate_match_score query (snd ci)) (6 # 10))
    as [L | L]; [lra |].
  exfalso. apply Hall. split; lra.
Qed.

(** When an element bounds all the others, its score is the best score. *)
Lemma best_score_at query intents l1 c i l2 :
  flatten intents = (l1 ++ (c, i) :: l2)%list ->
  (0 < _calculate_match_score query i)%Q ->
  Forall (fun x => (_calculate_match_score query (snd x)
                    < _calculate_match_score query i)%Q) l1 ->
  Forall (fun x => (_calculate_match_score query (snd x)
                    <= _calculate_match_score query i)%Q) l2 ->
  (_calculate_match_score query i == best_score query intents)%Q.
Proof.
  intros Hflat Hpos Hl1 Hl2. unfold best_score.
  eapply is_max_unique; [| apply maximum_is_max].
  rewrite Forall_forall in Hl1, Hl2.
  repeat split.
  - lra.
  - apply Forall_forall. intros x Hx. apply in_map_iff in Hx.
    destruct Hx as (ci & <- & Hci). rewrite Hflat in Hci.
    pose proof (score_refines query (snd ci)) as R.
    apply in_app_or in Hci. destruct Hci as [Hci | [<- | Hci]].
    + specialize (Hl1 ci Hci). simpl in Hl1. lra.
    + simpl in *. lra.
    + specialize (Hl2 ci Hci). simpl in Hl2. lra.
  - right. apply Exists_exists.
    exists (intent_score query i). split.
    + apply in_map_iff. exists (c, i). split; [reflexivity |].
      rewrite Hflat. apply in_or_app. right. left. reflexivity.
    + apply score_refines.
Qed.
End ResponseFacts.

Import JSONIntentLoader IntentSpec MaxFacts ScoreFacts MatchFacts ResponseFacts.

(** C5.  On the normalized query (lower-cased and stripped), the score
    that the matcher gives to an intent is the maximum, over the patterns
    of the intent, of: 1 if the query equals the lower-cased pattern, else
    0.8 if one contains the other, else [|common words| / max(|query
    words|, |pattern words|) * 0.6].  [get_response] reports the intent
    with the best score of the whole table exactly when that score is at
    least 0.6, with that score as confidence; otherwise it reports no
    match, with confidence 0. *)
Theorem C5_intent_matcher_scoring :
  forall (random_choice : list string -> string) (intents : intents_table)
         (query : string),
    let q := PyStr.strip (PyStr.lower query) in
    let r := get_response random_choice intents query in
    (forall i, (_calculate_match_score q i == intent_score q i)%Q) /\
    ((6 # 10 <= best_score q intents)%Q ->
     matched r = true /\
     (confidence r == best_score q intents)%Q /\
     exists c i,
       In (c, i) (flatten intents) /\
       (intent_score q i == best_score q intents)%Q /\
       intent_tag r = Some (tag i) /\ category r = Some c) /\
    ((best_score q intents < 6 # 10)%Q ->
     matched r = false /\ confidence r = 0%Q /\ intent_tag r = None).
Proof.
  intros random_choice intents query q r.
  split; [intro i; apply score_refines |].
  pose proof (find_matching_intent_first_best intents query default_threshold)
    as Hfb.
  fold q in Hfb.
  remember (find_matching_intent intents query default_threshold) as b eqn:Eb.
  symmetry in Eb.
  destruct Hfb as [Hnone | l1 c i l2 Hflat Hpos Hthr Hl1 Hl2].
  - pose proof (best_score_below q intents Hnone) as Hlow.
    split; [intro; lra | intros _].
    apply get_response_none. exact Eb.
  - simpl in Hpos, Hthr.
    pose proof (best_score_at q intents l1 c i l2 Hflat Hpos Hl1 Hl2) as Hbest.
    unfold default_threshold in Hthr.
    split; [intros _ | intro; lra].
    subst r. rewrite (get_response_some _ _ _ _ _ _ Eb Hthr). simpl.
    split; [reflexivity |]. split; [exact Hbest |].
    exists c, i. repeat split.
    + rewrite Hflat. apply in_or_app. right. left. reflexivity.
    + rewrite <- (score_refines q i). exact Hbest.
Qed.

(** C6.  An intent with a pattern equal to the normalized query, case
    apart, has score 1; when the table holds such an intent, the intent
    returned has score 1, so no candidate of a lower score overrides it;
    and the intent returned is the first, in category order then list
    order, whose score is the greatest: every intent before it scores
    strictly less and every intent after it scores no more. *)
Theorem C6_exact_match_and_first_wins :
  forall (intents : intents_table) (query : string),
    let q := PyStr.strip (PyStr.lower query) in
    let score := fun ci : string * intent => _calculate_match_score q (snd ci) in
    let found := find_matching_intent intents query default_threshold in
    (forall i p,
        In p (patterns i) -> PyStr.lower p = q ->
        (_calculate_match_score q i == 1)%Q) /\
    (forall c i p,
        In (c, i) (flatten intents) ->
        In p (patterns i) -> PyStr.lower p = q ->
        exists c' i',
          found = (Some i', Some c', score (c', i')) /\
          (score (c', i') == 1)%Q) /\
    (forall c i s,
        found = (Some i, Some c, s) ->
        exists l1 l2,
          flatten intents = (l1 ++ (c, i) :: l2)%list /\
          s = score (c, i) /\
          Forall (fun x => (score x < s)%Q) l1 /\
          Forall (fun x => (score x <= s)%Q) l2).
Proof.
  intros intents query q score found.
  pose proof (find_matching_intent_first_best intents query default_threshold)
    as Hfb.
  fold q in Hfb. fold score in Hfb. fold found in Hfb.
  split; [intros i p; apply exact_scores_one |].
  split.
  - intros c i p Hin Hp Heq.
    pose proof (exact_scores_one q i p Hp Heq) as Hone.
    destruct Hfb as [Hnone | l1 c0 i0 l2 Hflat Hpos Hthr Hl1 Hl2].
    + exfalso. rewrite Forall_forall in Hnone.
      apply (Hnone (c, i) Hin). unfold score, default_threshold. simpl.
      split; lra.
    + exists c0, i0. split; [reflexivity |].
      pose proof (score_bounds q i0) as Hb.
      assert (Hle : (score (c, i) <= score (c0, i0))%Q).
      { rewrite Hflat in Hin. rewrite Forall_forall in Hl1, Hl2.
        apply in_app_or in Hin. destruct Hin as [Hin | [Hin | Hin]].
        - specialize (Hl1 _ Hin). lra.
        - rewrite Hin. lra.
        - exact (Hl2 _ Hin). }
      unfold score in *. simpl in *. lra.
  - intros c i s E.
    destruct Hfb as [Hnone | l1 c0 i0 l2 Hflat Hpos Hthr Hl1 Hl2];
      [discriminate |].
    injection E as -> -> <-.
    exists l1, l2. repeat split; assumption.
Qed.

Module SuggestionFacts.
Import IrrigationGuide.

Local Abbreviation positive := (fun s : suggestion => (0 < s_score s)%Q).

Lemma candidates_positive query_words rt t :
  Forall positive (candidates query_words rt t).
Proof.
  induction t as [| [name data] t IH]; simpl; [constructor |].
  destruct (PyNum.gt (relevance query_words name data) 0) eqn:G;
    [| exact IH].
  constructor; [| exact IH].
  simpl. now apply PyNumFacts.gt_iff.
Qed.

Lemma insert_by_score_Forall (P : suggestion -> Prop) x l :
  P x -> Forall P l -> Forall P (insert_by_score x l).
Proof.
  intros Hx Hl. induction Hl as [| y l Hy Hl IH]; simpl.
  - constructor; [exact Hx | constructor].
  - destruct (PyNum.gt (s_score y) (s_score x)).
    + constructor; assumption.
    + constructor; [exact Hx |]. constructor; assumption.
Qed.

Lemma sort_by_score_Forall (P : suggestion -> Prop) l :
  Forall P l -> Forall P (sort_by_score l).
Proof.
  intros Hl. induction Hl as [| x l Hx Hl IH]; simpl; [constructor |].
  apply insert_by_score_Forall; assumption.
Qed.

Lemma diversify_Forall (P : suggestion -> Prop) limit l :
  forall final used,
    Forall P l -> Forall P final -> Forall P (diversify limit l final used).
Proof.
  induction l as [| s l IH]; intros final used Hl Hf; simpl; [exact Hf |].
  inversion Hl as [| ? ? Hs Hl']; subst.
  destruct (limit <=? Z.of_nat (List.length final))%Z; [exact Hf |].
  destruct (negb (PyStr.mem (s_category s) used) || _).
  - apply IH; [exact Hl' |]. apply Forall_app. split; [exact Hf |].
    constructor; [exact Hs | constructor].
  - apply IH; assumption.
Qed.

Lemma firstn_Forall {A} (P : A -> Prop) n :
  forall l, Forall P l -> Forall P (firstn n l).
Proof.
  induction n as [| n IH]; intros l Hl; simpl; [constructor |].
  destruct Hl as [| x l Hx Hl]; constructor; [exact Hx | apply IH, Hl].
Qed.

Lemma slice_list_Forall {A} (P : A -> Prop) limit l :
  Forall P l -> Forall P (slice_list limit l).
Proof.
  intros Hl. unfold slice_list.
  destruct (0 <=? limit)%Z; apply firstn_Forall; exact Hl.
Qed.

Lemma get_suggestions_positive resources query limit :
  Forall positive (get_suggestions resources query limit).
Proof.
  unfold get_suggestions.
  apply slice_list_Forall, diversify_Forall; [| constructor].
  apply sort_by_score_Forall, Forall_flat_map, Forall_forall.
  intros rt _. destruct (ResourceType_eqb rt CHAT); [constructor |].
  apply candidates_positive.
Qed.
End SuggestionFacts.

(** C1, as amended.  For every query the confidence reported by
    [get_response] lies in [0, 1], and every entry of the list returned
    by [get_suggestions] has a strictly positive score (which 1 does not
    bound). *)
Theorem C1_confidence_in_unit_interval_scores_positive :
  forall (random_choice : list string -> string) (intents : intents_table)
         (resources : IrrigationGuide.ResourceType -> IrrigationGuide.table)
         (query : string) (limit : Z),
    (0 <= confidence (get_response random_choice intents query) <= 1)%Q /\
    Forall (fun s => (0 < IrrigationGuide.s_score s)%Q)
           (IrrigationGuide.get_suggestions resources query limit).
Proof.
  intros random_choice intents resources query limit. split.
  - pose proof (find_matching_intent_first_best intents query default_threshold)
      as Hfb.
    remember (find_matching_intent intents query default_threshold) as b eqn:Eb.
    symmetry in Eb.
    destruct Hfb as [Hnone | l1 c i l2 Hflat Hpos Hthr Hl1 Hl2].
    + destruct (get_response_none random_choice _ _ Eb) as (_ & -> & _). lra.
    + simpl in *. unfold default_threshold in Hthr.
      rewrite (get_response_some _ _ _ _ _ _ Eb Hthr). simpl.
      apply score_bounds.
  - apply SuggestionFacts.get_suggestions_positive.
Qed.

(** C1, counterexample.  For the query ["dashboard"] the ranker returns,
    in this order, the dashboard route with score 7.5 and the dashboard
    overview guide with score 4, both above 1. *)
Lemma C1_suggestion_score_above_one :
  map (fun s => (IrrigationGuide.s_name s,
                 Qred (IrrigationGuide.s_score s),
                 Qle_bool (IrrigationGuide.s_score s) 1))
      (IrrigationGuide.get_suggestions IrrigationGuide.knowledge_base
         "dashboard" 5)
  = [ ("dashboard", (15 # 2)%Q, false);
      ("dashboard overview", (4 # 1)%Q, false);
      ("control panel", (9 # 10)%Q, true);
      ("system health", (9 # 10)%Q, true);
      ("analytics", (4 # 5)%Q, true) ].
Proof. vm_compute. reflexivity. Qed.

(* ================================================================== *)
(** * The conversation history *)

Module HistoryFacts.
Import IrrigationGuide.

Lemma index_empty i : index 0 i = inl IndexError.
Proof.
unfold index. cbn [Z.of_nat Z.opp].
destruct (Z.leb_spec 0 i); destruct (Z.ltb_spec i 0); cbn [andb];
  try reflexivity; lia.
Qed.

(** Indexing the empty list raises, whatever the key. *)
Lemma setitem_empty_list k h : exists e, setitem k h (PyList []) = inl e.
Proof.
destruct k as [s | n]; simpl.
- exists TypeError. reflexivity.
- exists IndexError. rewrite index_empty. reflexivity.
Qed.

Lemma add_interaction_empty_list timestamp k query response :
  exists e, add_interaction timestamp k query response (PyList []) = inl e.
Proof.
unfold add_interaction. simpl contains. cbv beta iota. simpl negb. cbv iota.
destruct (setitem_empty_list k []) as (e & ->). exists e. reflexivity.
Qed.

Section Calls.
Variable random_choice : list string -> string.
Variable now : string.
Variable get_close_matches : string -> list string -> nat -> Q -> list string.

Local Abbreviation add := (add_to_conversation_history now).
Local Abbreviation record := (record_if_user now).
Local Abbreviation body := (help_body random_choice now get_close_matches).
Local Abbreviation ask := (get_help_response random_choice now get_close_matches).

Lemma add_raises self k query response :
  conversation_history self = PyList [] ->
  exists e, add k query response self = (inl e, self).
Proof.
intros H. unfold add_to_conversation_history. rewrite H.
destruct (add_interaction_empty_list now k query response) as (e & ->).
exists e. reflexivity.
Qed.

(** With a user identifier, the first statement of the body raises. *)
Lemma body_raises self query u :
  conversation_history self = PyList [] -> truthy u = true ->
  exists e, body query (Some u) self = (inl e, self).
Proof.
intros H Hu. unfold help_body, bind at 1. unfold record_if_user at 1.
rewrite Hu.
destruct (add_raises self u query "Processing..." H) as (e & ->).
exists e. reflexivity.
Qed.

Lemma ask_with_user self query u :
  conversation_history self = PyList [] -> truthy u = true ->
  ask self query (Some u) = (generic_error, self).
Proof.
intros H Hu. unfold get_help_response.
destruct (body_raises self query u H Hu) as (e & ->). reflexivity.
Qed.

Lemma stable_ret {A} (a : A) self : snd (ret a self) = self.
Proof. reflexivity. Qed.

Lemma stable_lift {A} (r : result A) self : snd (lift r self) = self.
Proof. reflexivity. Qed.

Lemma stable_bind {A B} (m : M A) (k : A -> M B) self :
  snd (m self) = self -> (forall a, snd (k a self) = self) ->
  snd (bind m k self) = self.
Proof.
intros Hm Hk. unfold bind. destruct (m self) as [[e | a] self'] eqn:E;
  simpl in *; subst self'; [reflexivity | apply Hk].
Qed.

Lemma stable_record self user_id query response :
  conversation_history self = PyList [] ->
  snd (record user_id query response self) = self.
Proof.
intros H. unfold record_if_user.
destruct user_id as [u |]; [| reflexivity].
destruct (truthy u); [| reflexivity].
destruct (add_raises self u query response H) as (e & ->). reflexivity.
Qed.

Ltac stable H :=
  repeat first
    [ apply stable_ret
    | apply stable_lift
    | apply stable_record; exact H
    | apply stable_bind; [| intros ?]
    | match goal with
      | |- context [if ?b then _ else _] => destruct b
      | |- context [match ?x with _ => _ end] => destruct x
      end ].

(** On an object whose history is the empty list, the body leaves the
    object as it was, with or without a user identifier. *)
Lemma body_stable self query user_id :
  conversation_history self = PyList [] ->
  snd (body query user_id self) = self.
Proof.
intros H. unfold help_body.
apply stable_bind; [apply stable_record; exact H | intros _].
unfold bind at 1, get_self. cbv beta iota.
stable H.
Qed.

Lemma ask_stable self query user_id :
  conversation_history self = PyList [] ->
  snd (ask self query user_id) = self.
Proof.
intros H. unfold get_help_response.
pose proof (body_stable self query user_id H) as S.
destruct (body query user_id self) as [[e | r] self']; exact S.
Qed.

Lemma perform_stable self c :
  conversation_history self = PyList [] ->
  snd (perform random_choice now get_close_matches self c) = self.
Proof.
intros H. destruct c as [query user_id | command user_id | u query response];
  simpl.
- pose proof (ask_stable self query user_id H) as S.
  destruct (ask self query user_id). exact S.
- unfold execute_special_command. rewrite H. simpl contains.
  destruct (String.eqb command "confirm_clear_chat").
  + destruct user_id as [u |]; [| reflexivity].
    rewrite andb_false_r. reflexivity.
  + destruct (String.eqb command "save_settings"); reflexivity.
- destruct (add_raises self u query response H) as (e & ->). reflexivity.
Qed.

Lemma run_stable self calls :
  conversation_history self = PyList [] ->
  snd (run random_choice now get_close_matches self calls) = self /\
  Forall2
    (fun c o =>
       forall query u,
         c = AskHelp query (Some u) -> truthy u = true ->
         o = Answered generic_error)
    calls (fst (run random_choice now get_close_matches self calls)).
Proof.
intros H. induction calls as [| c calls [IHs IHo]]; simpl.
- split; [reflexivity | constructor].
- pose proof (perform_stable self c H) as S.
  destruct (perform random_choice now get_close_matches self c)
    as [o self'] eqn:E.
  simpl in S. subst self'.
  destruct (run random_choice now get_close_matches self calls)
    as [os self''] eqn:R.
  simpl in *. split; [exact IHs |].
  constructor; [| exact IHo].
  intros query u -> Hu. simpl in E.
  rewrite (ask_with_user self query u H Hu) in E.
  injection E as <-. reflexivity.
Qed.
End Calls.

(** ** The history on a dictionary

    What [add_to_conversation_history] does when the store is a
    dictionary, the object its body is written for. *)

Lemma user_key_eqb_refl k : user_key_eqb k k = true.
Proof.
destruct k; simpl; [apply String.eqb_refl | apply Z.eqb_refl].
Qed.

Lemma dict_get_set k v d : dict_get k (dict_set k v d) = Some v.
Proof.
induction d as [| [k' v'] d IH]; simpl.
- rewrite user_key_eqb_refl. reflexivity.
- destruct (user_key_eqb k k') eqn:E; simpl; rewrite E; [reflexivity | exact IH].
Qed.

Lemma contains_dict_get k d :
  contains k (PyDict d) = match dict_get k d with Some _ => true | None => false end.
Proof.
induction d as [| [k' v'] d IH]; simpl; [reflexivity |].
destruct (user_key_eqb k k'); simpl; [reflexivity | exact IH].
Qed.

Lemma last20_length h : List.length (last20 h) <= 20.
Proof. unfold last20. rewrite length_skipn. lia. Qed.

Lemma last20_short h : List.length h <= 20 -> last20 h = h.
Proof.
intros H. unfold last20. replace (List.length h - 20) with 0 by lia.
reflexivity.
Qed.

Lemma add_interaction_dict timestamp k query response d :
  let h := match dict_get k d with Some h => h | None => [] end in
  let i := {| i_timestamp := timestamp; i_query := query;
              i_response := PyStr.slice_to 500 response |} in
  exists d',
    add_interaction timestamp k query response (PyDict d) = inr (PyDict d') /\
    dict_get k d' = Some (last20 (h ++ [i])%list) /\
    List.length (last20 (h ++ [i])%list) <= 20.
Proof.
intros h i. unfold add_interaction. fold i.
rewrite contains_dict_get.
assert (G : forall d0, dict_get k d0 = Some h ->
            exists d',
              rbind (getitem k (PyDict d0)) (fun h0 =>
              rbind (setitem k (h0 ++ [i])%list (PyDict d0)) (fun st =>
              rbind (getitem k st) (fun h1 =>
              if 20 <? List.length h1 then
                rbind (getitem k st) (fun h2 => setitem k (last20 h2) st)
              else inr st))) = inr (PyDict d') /\
              dict_get k d' = Some (last20 (h ++ [i])%list)).
{ intros d0 E. cbn [getitem]. rewrite E. cbn [rbind setitem getitem].
  rewrite (dict_get_set k (h ++ [i])%list d0). cbn [rbind].
  destruct (20 <? List.length (h ++ [i])%list) eqn:L.
  - cbn [rbind]. eexists. split; [reflexivity |]. apply dict_get_set.
  - apply Nat.ltb_ge in L. eexists. split; [reflexivity |].
    rewrite (dict_get_set k (h ++ [i])%list d0), last20_short;
      [reflexivity | exact L]. }
destruct (dict_get k d) as [h0 |] eqn:E; simpl negb; cbv iota.
- destruct (G d E) as (d' & E1 & E2). exists d'.
  split; [exact E1 |]. split; [exact E2 | apply last20_length].
- cbn [setitem]. unfold rbind at 1.
  destruct (G (dict_set k [] d) (dict_get_set k [] d)) as (d' & E1 & E2).
  exists d'. split; [exact E1 |]. split; [exact E2 | apply last20_length].
Qed.
End HistoryFacts.

Import IrrigationGuide.

(** C3.  In any sequence of calls on a freshly built object, every call
    of [get_help_response] that passes a user identifier (one that the
    test [if user_id:] accepts) returns the generic error payload, and the
    object, its conversation history included, ends as [__init__] built
    it: no entry is ever created for a user. *)
Theorem C3_user_id_yields_generic_error :
  forall (random_choice : list string -> string) (now : string)
         (get_close_matches : string -> list string -> nat -> Q -> list string)
         (loaded : JSONIntentLoader.intents_table) (calls : list call),
    let r := run random_choice now get_close_matches (__init__ loaded) calls in
    snd r = __init__ loaded /\
    Forall2
      (fun c o =>
         forall query u,
           c = AskHelp query (Some u) -> truthy u = true ->
           o = Answered generic_error)
      calls (fst r).
Proof.
intros random_choice now get_close_matches loaded calls r.
apply HistoryFacts.run_stable. reflexivity.
Qed.

(** C2, at the failing input.  On a fresh object, the call
    [get_help_response("status", user_id="alice")] returns the generic
    error payload and appends nothing: the history is still the empty list
    and holds no entry for the user. *)
Theorem C2_no_entry_is_appended :
  forall (random_choice : list string -> string) (now : string)
         (get_close_matches : string -> list string -> nat -> Q -> list string)
         (loaded : JSONIntentLoader.intents_table),
    let r := get_help_response random_choice now get_close_matches
               (__init__ loaded) "status" (Some (UStr "alice")) in
    fst r = generic_error /\
    conversation_history (snd r) = PyList [] /\
    contains (UStr "alice") (conversation_history (snd r)) = false.
Proof.
intros random_choice now get_close_matches loaded r. subst r.
rewrite HistoryFacts.ask_with_user by reflexivity.
repeat split.
Qed.

(** C4, at the failing input.  On a fresh object, each of 21 successive
    calls of [add_to_conversation_history] for one user raises
    [TypeError], and the object is unchanged: the stored history is never
    the 20 most recent interactions. *)
Theorem C4_every_append_raises :
  forall (random_choice : list string -> string) (now : string)
         (get_close_matches : string -> list string -> nat -> Q -> list string)
         (loaded : JSONIntentLoader.intents_table),
    run random_choice now get_close_matches (__init__ loaded)
        (repeat (AddHistory (UStr "alice") "status" "Found resource: status") 21)
    = (repeat (Raised TypeError) 21, __init__ loaded).
Proof.
intros random_choice now get_close_matches loaded.
vm_compute. reflexivity.
Qed.

(* ================================================================== *)
(** * The resolver and the dispatcher *)

Module ResolverFacts.
Import ResolverSpec.




Lemma exact_hit_pass1 q name data : exact_hit q name data = pass1 q name data.
Proof.
unfold exact_hit, pass1.
destruct (exact_name q name), (exact_keyword q data); reflexivity.
Qed.

End ResolverFacts.

Import ResolverSpec.



Module DispatchFacts.

(** Without a user identifier and without a matching intent, the
    dispatcher goes on to the stages that follow the intent stage; the
    stages are then evaluated on the knowledge base. *)
Ltac skip_intents H :=
  unfold get_help_response, help_body;
  cbn [record_if_user];
  unfold bind at 1, ret at 1;
  unfold bind at 1, get_self;
  cbv beta iota zeta;
  cbn [json_loader __init__];
  rewrite H; cbn [andb].

End DispatchFacts.

(** C9, at the failing input.  When no structured intent matches
    ["hello"], the spelling corrector turns the query into ["help"], the
    conversational-phrase check finds no greeting in it, and
    [get_help_response] returns the contact payload with the note of the
    correction, not the greeting payload. *)
Theorem C9_hello_is_answered_with_contact_information :
  forall (random_choice : list string -> string) (now : string)
         (get_close_matches : string -> list string -> nat -> Q -> list string)
         (loaded : JSONIntentLoader.intents_table),
    JSONIntentLoader.matched
      (JSONIntentLoader.get_response random_choice loaded "hello") = false ->
    SpellingCorrector.correct_spelling "hello"
    = ("help", ["'hello' â†’ 'help'"]) /\
    _check_conversational_phrases knowledge_base "help" = None /\
    exists c,
      get_contact_response knowledge_base = inr c /\
      get_help_response random_choice now get_close_matches
                        (__init__ loaded) "hello" None
      = (Contact c (Some {| original_query := "hello";
                            corrected_query := "help";
                            corrections := ["'hello' â†’ 'help'"] |}),
         __init__ loaded).
Proof.
intros random_choice now get_close_matches loaded H.
split; [vm_compute; reflexivity |].
split; [vm_compute; reflexivity |].
DispatchFacts.skip_intents H.
vm_compute. eexists. split; reflexivity.
Qed.

(** C9, witness: no intent file loaded. *)
Lemma C9_witness :
  JSONIntentLoader.matched
    (JSONIntentLoader.get_response (fun _ => "") [] "hello") = false /\
  _check_conversational_phrases knowledge_base "help" = None.
Proof.
split; [vm_compute; reflexivity |].
apply (C9_hello_is_answered_with_contact_information
         (fun _ => "") "2026-01-01T00:00:00" (fun _ _ _ _ => []) []).
vm_compute. reflexivity.
Defined.

(** C10, as amended.  When no structured intent matches ["how do i turn
    on the pump"], [get_help_response] returns the route ["control
    panel"], of category ["Control"] and importance 9, and no usage
    examples.  The route is resolved by its keyword ["pump"], which
    occurs in the query: the routes are scanned before the commands, so
    [find_best_match] returns the route on the query as typed, before it
    meets the command ["pump"]. *)
Theorem C10_turn_on_the_pump_resolves_to_the_control_panel :
  forall (random_choice : list string -> string) (now : string)
         (get_close_matches : string -> list string -> nat -> Q -> list string)
         (loaded : JSONIntentLoader.intents_table),
    JSONIntentLoader.matched
      (JSONIntentLoader.get_response random_choice loaded
         "how do i turn on the pump") = false ->
    exists r data,
      get_help_response random_choice now get_close_matches
                        (__init__ loaded) "how do i turn on the pump" None
      = (Resource r, __init__ loaded) /\
      rr_name r = "control panel" /\
      rr_type r = ROUTE /\
      rr_route r = Some ("Control", 9%Z) /\
      rr_examples r = None /\
      JSONIntentLoader.get "control panel" (knowledge_base ROUTE) = Some data /\
      In "pump" (get_keywords data) /\
      PyStr.contains "pump" "how do i turn on the pump" = true /\
      find_best_match get_close_matches knowledge_base
                      "how do i turn on the pump"
      = Some ("control panel", ROUTE).
Proof.
intros random_choice now get_close_matches loaded H.
DispatchFacts.skip_intents H.
vm_compute. eexists. eexists.
split; [reflexivity |].
repeat (split; [reflexivity |]).
split; [right; right; left; reflexivity |].
split; reflexivity.
Qed.

(** C10, witness: no intent file loaded. *)
Lemma C10_witness :
  JSONIntentLoader.matched
    (JSONIntentLoader.get_response (fun _ => "") []
       "how do i turn on the pump") = false /\
  exists r,
    fst (get_help_response (fun _ => "") "2026-01-01T00:00:00"
           (fun _ _ _ _ => []) (__init__ []) "how do i turn on the pump" None)
    = Resource r /\
    rr_name r = "control panel".
Proof.
split; [vm_compute; reflexivity |].
destruct (C10_turn_on_the_pump_resolves_to_the_control_panel
            (fun _ => "") "2026-01-01T00:00:00" (fun _ _ _ _ => []) [])
  as (r & data & E & Hname & _).
- vm_compute. reflexivity.
- exists r. rewrite E. split; [reflexivity | exact Hname].
Defined.

(** C10, counterexample.  With no intent loaded, the response to ["how
    do i turn on the pump"] is the route ["control panel"], of type
    [ROUTE], without examples: not the command ["pump"].  The resolver
    returns the route on the query as typed and on the query that the
    dispatcher hands to it. *)
Lemma C10_pump_command_is_not_the_match :
  (forall get_close_matches,
      find_best_match get_close_matches knowledge_base
                      "how do i turn on the pump"
      = Some ("control panel", ROUTE)) /\
  (forall get_close_matches,
      find_best_match get_close_matches knowledge_base
        (fst (SpellingCorrector.correct_spelling "how do i turn on the pump"))
      = Some ("control panel", ROUTE)) /\
  (forall random_choice now get_close_matches,
      exists r,
        fst (get_help_response random_choice now get_close_matches
               (__init__ []) "how do i turn on the pump" None)
        = Resource r /\
        rr_name r = "control panel" /\
        rr_type r = ROUTE /\
        rr_examples r = None).
Proof.
split; [intros get_close_matches; vm_compute; reflexivity |].
split; [intros get_close_matches; vm_compute; reflexivity |].
intros random_choice now get_close_matches.
vm_compute. eexists. repeat split.
Qed.

(* ================================================================== *)
(** * The spelling corrector *)

Module SpellingFacts.
Import SpellingCorrector SpellingSpec.

Lemma append_nil_r s : s ++ "" = s.
Proof. induction s as [| c s IH]; simpl; [reflexivity | now rewrite IH]. Qed.

Lemma append_assoc a b c : (a ++ b) ++ c = a ++ (b ++ c).
Proof. induction a as [| x a IH]; simpl; [reflexivity | now rewrite IH]. Qed.

Lemma split_from_run w :
  forall acc s,
    no_space w = true ->
    PyStr.split_from (Some acc) (w ++ s) = PyStr.split_from (Some (acc ++ w)) s.
Proof.
induction w as [| c w IH]; intros acc s H; simpl.
- rewrite append_nil_r. reflexivity.
- simpl in H. apply andb_true_iff in H. destruct H as [Hc Hw].
  apply negb_true_iff in Hc. rewrite Hc.
  rewrite (IH _ _ Hw), append_assoc. reflexivity.
Qed.

Lemma split_from_word w s :
  wordlike w = true ->
  PyStr.split_from None (w ++ s) = PyStr.split_from (Some w) s.
Proof.
destruct w as [| c w]; [discriminate |]. simpl. intros H.
apply andb_true_iff in H. destruct H as [Hc Hw].
apply negb_true_iff in Hc. rewrite Hc.
apply (split_from_run w (String c "") s Hw).
Qed.

(** Splitting what [join] built from words gives the words back. *)
Lemma split_join ws :
  forallb wordlike ws = true -> PyStr.split (PyStr.join " " ws) = ws.
Proof.
unfold PyStr.split. induction ws as [| w ws IH]; [reflexivity |].
intros H. simpl in H. apply andb_true_iff in H. destruct H as [Hw Hws].
destruct ws as [| w' ws].
- simpl. rewrite <- (append_nil_r w) at 1.
  rewrite (split_from_word w "" Hw). reflexivity.
- change (PyStr.join " " (w :: w' :: ws))
    with (w ++ " " ++ PyStr.join " " (w' :: ws)).
  rewrite (split_from_word _ _ Hw).
  change (" " ++ PyStr.join " " (w' :: ws))
    with (String " "%char (PyStr.join " " (w' :: ws))).
  cbn [PyStr.split_from]. change (PyStr.is_space " "%char) with true.
  cbv iota. rewrite (IH Hws). reflexivity.
Qed.

(** What [split] produces is made of words. *)
Lemma split_from_wordlike s :
  forall cur,
    match cur with Some w => wordlike w = true | None => True end ->
    forallb wordlike (PyStr.split_from cur s) = true.
Proof.
induction s as [| c s IH]; intros cur H; simpl.
- destruct cur as [w |]; simpl; [rewrite H |]; reflexivity.
- destruct (PyStr.is_space c) eqn:Hc.
  + destruct cur as [w |]; simpl; [rewrite H |]; apply IH; exact I.
  + apply IH. destruct cur as [w |].
    * destruct w as [| x w]; [discriminate |]. simpl in *.
      apply andb_true_iff in H. destruct H as [Hx Hw]. rewrite Hx. simpl.
      clear - Hw Hc. induction w as [| y w IHw]; simpl.
      -- rewrite Hc. reflexivity.
      -- simpl in Hw. apply andb_true_iff in Hw. destruct Hw as [Hy Hw].
         rewrite Hy. simpl. apply IHw, Hw.
    * simpl. rewrite Hc. reflexivity.
Qed.

Lemma split_wordlike s : forallb wordlike (PyStr.split s) = true.
Proof. apply split_from_wordlike. exact I. Qed.

Lemma lookup_In k d v : lookup k d = Some v -> In (k, v) d.
Proof.
induction d as [| [k' v'] d IH]; simpl; [discriminate |].
destruct (String.eqb k k') eqn:E.
- apply String.eqb_eq in E. subst k'. intros [= ->]. left. reflexivity.
- intros H. right. apply IH, H.
Qed.

Lemma closest_In lower_word terms :
  forall best_match best_distance t,
    closest lower_word terms best_match best_distance = Some t ->
    In t terms \/ best_match = Some t.
Proof.
induction terms as [| term terms IH]; intros b bd t H; simpl in H.
- right. exact H.
- destruct (below _ bd && _).
  + apply IH in H. destruct H as [H | [= ->]]; left; [right; exact H | left; reflexivity].
  + apply IH in H. destruct H as [H | H]; [left; right; exact H | right; exact H].
Qed.

Lemma kept_spec w : kept w = true -> correct_word w = (w, None).
Proof.
unfold kept. destruct (correct_word w) as [c [n |]]; intros H.
- rewrite andb_false_r in H. discriminate.
- rewrite andb_true_r in H. apply String.eqb_eq in H. subst c. reflexivity.
Qed.

(** The targets of the misspelling table, ["manually"] apart, and the
    vocabulary are words that the corrector keeps, capitalized or not. *)
Lemma misspellings_settled :
  forallb (fun kv => String.eqb (fst kv) "manualy" || settled (snd kv))
          common_misspellings = true.
Proof. vm_compute. reflexivity. Qed.

Lemma terms_settled : forallb settled irrigation_terms = true.
Proof. vm_compute. reflexivity. Qed.

Lemma settled_either c (b : bool) :
  settled c = true ->
  let c' := if b then PyStr.capitalize c else c in
  wordlike c' = true /\ kept c' = true.
Proof.
unfold settled. intros H.
repeat (apply andb_true_iff in H; destruct H as [H ?]).
destruct b; simpl; split; assumption.
Qed.

(** One pass settles a word, unless the word is ["manualy"]. *)
Lemma correct_word_settles w :
  wordlike w = true -> PyStr.lower w <> "manualy" ->
  wordlike (fst (correct_word w)) = true /\
  kept (fst (correct_word w)) = true.
Proof.
intros Hw Hne.
assert (Hsame : correct_word w = (w, None) ->
                wordlike (fst (correct_word w)) = true /\
                kept (fst (correct_word w)) = true).
{ intros E. rewrite E. simpl. split; [exact Hw |].
  unfold kept. rewrite E, String.eqb_refl. reflexivity. }
unfold correct_word in *.
destruct (lookup (PyStr.lower w) common_misspellings) as [corr |] eqn:L.
- apply lookup_In in L.
  pose proof misspellings_settled as S. rewrite forallb_forall in S.
  specialize (S _ L). simpl in S. apply orb_true_iff in S.
  destruct S as [S | S]; [apply String.eqb_eq in S; contradiction |].
  cbn [fst]. apply (settled_either corr (PyStr.first_isupper w) S).
- destruct (negb (PyStr.mem (PyStr.lower w) (map PyStr.lower irrigation_terms)));
    [| apply Hsame; reflexivity].
  destruct (closest (PyStr.lower w) irrigation_terms None Infinity)
    as [t |] eqn:C; [| apply Hsame; reflexivity].
  apply closest_In in C. destruct C as [C | C]; [| discriminate].
  pose proof terms_settled as S. rewrite forallb_forall in S.
  specialize (S _ C). cbn [fst].
  destruct (settled_either t (negb (PyStr.islower w)) S) as [A B].
  destruct (PyStr.islower w); simpl in A, B; split; assumption.
Qed.

(** [correct_spelling] is idempotent on every query none of whose words
    is ["manualy"] in any case. *)
Lemma correct_spelling_idempotent_away_from_manualy query :
  (forall w, In w (PyStr.split query) -> PyStr.lower w <> "manualy") ->
  correct_spelling (fst (correct_spelling query))
  = (fst (correct_spelling query), []).
Proof.
intros Hq. unfold correct_spelling at 2. cbn [fst].
set (cs := map fst (map correct_word (PyStr.split query))).
assert (Hcs : forall c, In c cs -> wordlike c = true /\ kept c = true).
{ intros c Hc. unfold cs in Hc. rewrite map_map in Hc.
  apply in_map_iff in Hc. destruct Hc as (w & <- & Hin).
  apply correct_word_settles; [| apply Hq, Hin].
  pose proof (split_wordlike query) as W. rewrite forallb_forall in W.
  apply W, Hin. }
unfold correct_spelling. rewrite split_join.
2:{ apply forallb_forall. intros c Hc. apply (Hcs c Hc). }
assert (E : map correct_word cs = map (fun c => (c, None)) cs).
{ apply map_ext_in. intros c Hc. apply kept_spec, (Hcs c Hc). }
rewrite E. f_equal.
- rewrite map_map. simpl. rewrite map_id. reflexivity.
- clear. induction cs as [| c cs IH]; simpl; [reflexivity | exact IH].
Qed.
End SpellingFacts.

(** C7, at the failing input.  The corrector turns ["manualy"] into
    ["manually"], and its own output ["manually"] into ["manual"], with a
    correction noted each time. *)
Theorem C7_manualy_is_corrected_twice :
  SpellingCorrector.correct_spelling "manualy"
  = ("manually", ["'manualy' â†’ 'manually'"]) /\
  SpellingCorrector.correct_spelling
    (fst (SpellingCorrector.correct_spelling "manualy"))
  = ("manual", ["'manually' â†’ 'manual'"]).
Proof. split; vm_compute; reflexivity. Qed.

Module SpellingMore.
Import SpellingCorrector SpellingSpec SpellingFacts.

Section Closest.
Variable lower_word : string.

Local Abbreviation dist :=
  (fun t : string => Levenshtein.distance lower_word (PyStr.lower t)).

Local Abbreviation nearest := (SpellingMoreSpec.nearest lower_word).
Local Abbreviation nearest_none := (SpellingMoreSpec.nearest_none lower_word).
Local Abbreviation nearest_some := (SpellingMoreSpec.nearest_some lower_word).

Lemma closest_nearest terms :
  forall done b bd,
    nearest done b bd ->
    exists bd', nearest (done ++ terms) (closest lower_word terms b bd) bd'.
Proof.
induction terms as [| term terms IH]; intros done b bd H; simpl.
- rewrite app_nil_r. exists bd. exact H.
- replace (done ++ term :: terms)%list with ((done ++ [term]) ++ terms)%list
    by (rewrite <- app_assoc; reflexivity).
  destruct (below (dist term) bd && (dist term <=? 2)) eqn:E.
  + apply andb_true_iff in E. destruct E as [Eb E2]. apply Nat.leb_le in E2.
    apply IH.
    apply nearest_some with (l1 := done) (l2 := []);
      [reflexivity | exact E2 | | constructor].
    destruct H as [Hall | l1 t l2 -> Ht Hl1 Hl2].
    * eapply Forall_impl; [| exact Hall]. simpl. intros; lia.
    * simpl in Eb. apply Nat.ltb_lt in Eb.
      apply Forall_app. split.
      -- eapply Forall_impl; [| exact Hl1]. simpl. intros; lia.
      -- constructor; [exact Eb |].
         eapply Forall_impl; [| exact Hl2]. simpl. intros; lia.
  + apply IH.
    destruct H as [Hall | l1 t l2 -> Ht Hl1 Hl2].
    * simpl in E. apply Nat.leb_gt in E.
      apply nearest_none. apply Forall_app. split; [exact Hall |].
      constructor; [exact E | constructor].
    * apply nearest_some with (l1 := l1) (l2 := (l2 ++ [term])%list);
        [rewrite <- app_assoc; reflexivity | exact Ht | exact Hl1 |].
      apply Forall_app. split; [exact Hl2 |].
      constructor; [| constructor].
      apply andb_false_iff in E. destruct E as [E | E].
      -- simpl in E. apply Nat.ltb_ge in E. exact E.
      -- apply Nat.leb_gt in E. lia.
Qed.
End Closest.
End SpellingMore.

Import SpellingCorrector SpellingSpec.

(** X1.  The search for the closest vocabulary term returns a term at
    edit distance at most 2 from the word, nearest among all terms, and
    the first of the nearest in dictionary order; it returns nothing
    exactly when every term is farther than 2. *)
Theorem closest_is_the_first_nearest_term :
  forall (lower_word : string) (terms : list string),
    let dist := fun t => Levenshtein.distance lower_word (PyStr.lower t) in
    match closest lower_word terms None Infinity with
    | Some t =>
        exists l1 l2,
          terms = (l1 ++ t :: l2)%list /\
          dist t <= 2 /\
          Forall (fun t' => dist t < dist t') l1 /\
          Forall (fun t' => dist t <= dist t') l2
    | None => Forall (fun t => 2 < dist t) terms
    end.
Proof.
intros lower_word terms dist.
destruct (SpellingMore.closest_nearest lower_word terms [] None Infinity)
  as (bd' & H); [apply SpellingMoreSpec.nearest_none; constructor |].
simpl in H.
destruct H as [Hall | l1 t l2 E Ht Hl1 Hl2]; [exact Hall |].
exists l1, l2. repeat split; assumption.
Qed.

Module SpellingMore2.
Import SpellingCorrector SpellingSpec SpellingFacts.

(** No term of the vocabulary is a key of the misspelling table. *)
Lemma terms_not_misspelt :
  forallb (fun t => match lookup (PyStr.lower t) common_misspellings with
                    | None => true | Some _ => false end)
          irrigation_terms = true.
Proof. vm_compute. reflexivity. Qed.

Lemma known_word_kept w :
  PyStr.mem (PyStr.lower w) (map PyStr.lower irrigation_terms) = true ->
  correct_word w = (w, None).
Proof.
intros H. unfold correct_word. rewrite H. simpl negb.
unfold PyStr.mem in H. apply existsb_exists in H.
destruct H as (x & Hx & E). apply String.eqb_eq in E.
apply in_map_iff in Hx. destruct Hx as (t & <- & Ht).
pose proof terms_not_misspelt as T. rewrite forallb_forall in T.
specialize (T t Ht). rewrite E.
destruct (lookup (PyStr.lower t) common_misspellings); [discriminate |].
reflexivity.
Qed.

(** Every target of the misspelling table is a word, capitalized or not. *)
Lemma targets_wordlike :
  forallb (fun kv => wordlike (snd kv) && wordlike (PyStr.capitalize (snd kv)))
          common_misspellings = true.
Proof. vm_compute. reflexivity. Qed.

Lemma correct_word_wordlike w :
  wordlike w = true -> wordlike (fst (correct_word w)) = true.
Proof.
intros Hw. unfold correct_word.
destruct (lookup (PyStr.lower w) common_misspellings) as [corr |] eqn:L.
- apply lookup_In in L.
  pose proof targets_wordlike as T. rewrite forallb_forall in T.
  specialize (T _ L). simpl in T. apply andb_true_iff in T.
  destruct T as [T1 T2]. cbn [fst].
  destruct (PyStr.first_isupper w); assumption.
- destruct (negb _); [| exact Hw].
  destruct (closest (PyStr.lower w) irrigation_terms None Infinity)
    as [t |] eqn:C; [| exact Hw].
  apply closest_In in C. destruct C as [C | C]; [| discriminate].
  pose proof terms_settled as S. rewrite forallb_forall in S.
  specialize (S _ C). cbn [fst].
  destruct (settled_either t (negb (PyStr.islower w)) S) as [A _].
  destruct (PyStr.islower w); simpl in A; exact A.
Qed.

Lemma notes_length l : List.length (notes l) <= List.length l.
Proof.
induction l as [| [c [n |]] l IH]; simpl; lia.
Qed.
End SpellingMore2.

(** X2.  A query all of whose words are vocabulary terms, in any case, is
    returned with its words joined by single spaces and no correction;
    this covers the empty and the blank query. *)
Theorem vocabulary_words_are_kept :
  forall query : string,
    (forall w, In w (PyStr.split query) ->
               PyStr.mem (PyStr.lower w) (map PyStr.lower irrigation_terms)
               = true) ->
    correct_spelling query = (PyStr.join " " (PyStr.split query), []).
Proof.
intros query H. unfold correct_spelling.
assert (E : map correct_word (PyStr.split query)
            = map (fun w => (w, None)) (PyStr.split query)).
{ apply map_ext_in. intros w Hw. apply SpellingMore2.known_word_kept, H, Hw. }
rewrite E. f_equal.
- rewrite map_map. simpl. rewrite map_id. reflexivity.
- clear. induction (PyStr.split query) as [| w ws IH]; simpl;
    [reflexivity | exact IH].
Qed.

Lemma vocabulary_words_are_kept_witness :
  (forall w, In w (PyStr.split "  Water   PUMP status ") ->
             PyStr.mem (PyStr.lower w) (map PyStr.lower irrigation_terms)
             = true) /\
  correct_spelling "  Water   PUMP status "
  = (PyStr.join " " (PyStr.split "  Water   PUMP status "), []).
Proof.
assert (H : forall w, In w (PyStr.split "  Water   PUMP status ") ->
            PyStr.mem (PyStr.lower w) (map PyStr.lower irrigation_terms)
            = true).
{ intros w Hw.
  assert (Hw' : In w ["Water"; "PUMP"; "status"]) by exact Hw.
  clear Hw. simpl in Hw'.
  destruct Hw' as [<- | [<- | [<- | []]]]; vm_compute; reflexivity. }
split; [exact H |].
exact (vocabulary_words_are_kept "  Water   PUMP status " H).
Defined.

(** X3.  Correction works word by word: splitting the corrected query
    gives the corrected words of the query, in order, so the number of
    words is kept, and there are no more notes than words. *)
Theorem correction_keeps_the_words_apart :
  forall query : string,
    PyStr.split (fst (correct_spelling query))
    = map (fun w => fst (correct_word w)) (PyStr.split query) /\
    List.length (PyStr.split (fst (correct_spelling query)))
    = List.length (PyStr.split query) /\
    List.length (snd (correct_spelling query))
    <= List.length (PyStr.split query).
Proof.
intros query.
assert (E : PyStr.split (fst (correct_spelling query))
            = map (fun w => fst (correct_word w)) (PyStr.split query)).
{ unfold correct_spelling. cbn [fst]. rewrite map_map.
  apply SpellingFacts.split_join. apply forallb_forall. intros c Hc.
  apply in_map_iff in Hc. destruct Hc as (w & <- & Hw).
  apply SpellingMore2.correct_word_wordlike.
  pose proof (SpellingFacts.split_wordlike query) as W.
  rewrite forallb_forall in W. apply W, Hw. }
split; [exact E |]. split.
- rewrite E. apply length_map.
- unfold correct_spelling. cbn [snd].
  rewrite <- (length_map correct_word (PyStr.split query)).
  apply SpellingMore2.notes_length.
Qed.

Module IntentMore.
Import JSONIntentLoader IntentSpec MaxFacts ScoreFacts MatchFacts ResponseFacts.

Lemma contains_empty s : PyStr.contains "" s = true.
Proof. destruct s; reflexivity. Qed.

(** Against the empty query every pattern scores at least 0.8. *)
Lemma blank_pattern_score p :
  (8 # 10 <= IntentSpec.pattern_score "" p)%Q.
Proof.
unfold IntentSpec.pattern_score.
destruct (String.eqb "" (PyStr.lower p)); [lra |].
rewrite contains_empty, orb_true_r. lra.
Qed.

Lemma blank_intent_score i :
  patterns i <> [] -> (8 # 10 <= _calculate_match_score "" i)%Q.
Proof.
intros H. unfold _calculate_match_score.
destruct (score_patterns_is_max "" (patterns i) 0%Q) as (_ & Hall & _);
  [lra |].
destruct (patterns i) as [| p ps]; [contradiction |].
inversion Hall as [| ? ? Hp _]; subst.
pose proof (blank_pattern_score p). lra.
Qed.

Lemma generate_suggestions_length tag :
  List.length (_generate_suggestions tag) = 3.
Proof.
unfold _generate_suggestions, suggestions_map. cbn [get].
repeat match goal with
       | |- context [String.eqb tag ?k] => destruct (String.eqb tag k)
       end; reflexivity.
Qed.
End IntentMore.

Import JSONIntentLoader IntentSpec.

(** X4.  Whatever the threshold, an intent returned by
    [find_matching_intent] belongs to the table and its score is at least
    the threshold, positive and at most 1; nothing is returned exactly
    when no intent has a positive score that reaches the threshold, so an
    intent of score 0 is never returned and a threshold above 1 matches
    nothing. *)
Theorem matcher_respects_any_threshold :
  forall (intents : intents_table) (query : string) (threshold : Q),
    let q := PyStr.strip (PyStr.lower query) in
    let found := find_matching_intent intents query threshold in
    (forall c i s,
        found = (Some i, Some c, s) ->
        In (c, i) (flatten intents) /\
        s = _calculate_match_score q i /\
        (threshold <= s)%Q /\ (0 < s <= 1)%Q) /\
    (found = (None, None, 0%Q) <->
     forall c i, In (c, i) (flatten intents) ->
                 ~ (0 < _calculate_match_score q i
                    /\ threshold <= _calculate_match_score q i)%Q) /\
    ((1 < threshold)%Q -> found = (None, None, 0%Q)).
Proof.
intros intents query threshold q found.
pose proof (MatchFacts.find_matching_intent_first_best intents query threshold)
  as Hfb.
fold q in Hfb. fold found in Hfb.
assert (Hsome : forall c i s,
           found = (Some i, Some c, s) ->
           In (c, i) (flatten intents) /\
           s = _calculate_match_score q i /\
           (threshold <= s)%Q /\ (0 < s <= 1)%Q).
{ intros c i s E.
  destruct Hfb as [Hnone | l1 c0 i0 l2 Hflat Hpos Hthr Hl1 Hl2];
    [discriminate |].
  injection E as -> -> <-. simpl in *.
  pose proof (ScoreFacts.score_bounds q i) as B.
  repeat split; try assumption; try lra.
  rewrite Hflat. apply in_or_app. right. left. reflexivity. }
assert (Hnone_iff :
          found = (None, None, 0%Q) <->
          forall c i, In (c, i) (flatten intents) ->
                      ~ (0 < _calculate_match_score q i
                         /\ threshold <= _calculate_match_score q i)%Q).
{ split.
  - intros E.
    destruct Hfb as [Hnone | l1 c0 i0 l2 Hflat Hpos Hthr Hl1 Hl2];
      [| discriminate].
    rewrite Forall_forall in Hnone. intros c i Hin. exact (Hnone (c, i) Hin).
  - intros Hall.
    destruct Hfb as [Hnone | l1 c0 i0 l2 Hflat Hpos Hthr Hl1 Hl2];
      [reflexivity |].
    exfalso. apply (Hall c0 i0).
    + rewrite Hflat. apply in_or_app. right. left. reflexivity.
    + simpl in *. split; assumption. }
split; [exact Hsome |]. split; [exact Hnone_iff |].
intros Hthr. apply Hnone_iff. intros c i _ [_ H].
pose proof (ScoreFacts.score_bounds q i). lra.
Qed.

(** X5.  An empty or blank query is contained in every pattern: as soon
    as some intent has a pattern, [get_response] reports a match with
    confidence at least 0.8. *)
Theorem blank_query_is_matched :
  forall (random_choice : list string -> string) (intents : intents_table)
         (query : string),
    PyStr.strip (PyStr.lower query) = "" ->
    (exists c i, In (c, i) (flatten intents) /\ patterns i <> []) ->
    matched (get_response random_choice intents query) = true /\
    (8 # 10 <= confidence (get_response random_choice intents query))%Q.
Proof.
intros random_choice intents query Hq (c & i & Hin & Hp).
pose proof (IntentMore.blank_intent_score i Hp) as Hi.
pose proof (MatchFacts.find_matching_intent_first_best
              intents query default_threshold) as Hfb.
rewrite Hq in Hfb.
remember (find_matching_intent intents query default_threshold) as b eqn:Eb.
symmetry in Eb.
destruct Hfb as [Hnone | l1 c0 i0 l2 Hflat Hpos Hthr Hl1 Hl2].
- exfalso. rewrite Forall_forall in Hnone. apply (Hnone (c, i) Hin).
  unfold default_threshold. simpl. split; lra.
- simpl in *. unfold default_threshold in Hthr.
  rewrite (ResponseFacts.get_response_some _ _ _ _ _ _ Eb Hthr). simpl.
  split; [reflexivity |].
  rewrite Hflat in Hin. rewrite Forall_forall in Hl1, Hl2.
  apply in_app_or in Hin. destruct Hin as [Hin | [Hin | Hin]].
  + specialize (Hl1 _ Hin). simpl in Hl1. lra.
  + injection Hin as -> ->. exact Hi.
  + specialize (Hl2 _ Hin). simpl in Hl2. lra.
Qed.

Lemma blank_query_is_matched_witness :
  PyStr.strip (PyStr.lower "   ") = "" /\
  matched (get_response (fun _ => "")
             [("help", [ {| tag := "greet"; patterns := ["good day"];
                            responses := [] |} ])] "   ") = true.
Proof.
split; [reflexivity |].
apply (blank_query_is_matched (fun _ => "")
         [("help", [ {| tag := "greet"; patterns := ["good day"];
                        responses := [] |} ])] "   ").
- reflexivity.
- exists "help", {| tag := "greet"; patterns := ["good day"];
                   responses := [] |}.
  split; [left; reflexivity | discriminate].
Defined.

(** X7.  [get_response] never answers without suggestions: three for a
    matched intent, the four fallback ones otherwise. *)
Theorem response_always_suggests :
  forall (random_choice : list string -> string) (intents : intents_table)
         (query : string),
    let r := get_response random_choice intents query in
    List.length (suggestions r) = if matched r then 3 else 4.
Proof.
intros random_choice intents query r. subst r. unfold get_response.
destruct (find_matching_intent intents query default_threshold)
  as [[[i |] c] s]; [| reflexivity].
destruct (PyNum.ge s (6 # 10)); [| reflexivity].
simpl. apply IntentMore.generate_suggestions_length.
Qed.

Module PySetFacts.

Lemma mem_In x l : PyStr.mem x l = true <-> In x l.
Proof.
unfold PyStr.mem. rewrite existsb_exists. split.
- intros (y & Hy & E). apply String.eqb_eq in E. subst y. exact Hy.
- intros H. exists x. split; [exact H | apply String.eqb_refl].
Qed.

Lemma of_list_In x l : In x (PySet.of_list l) <-> In x l.
Proof.
induction l as [| y l IH]; simpl; [reflexivity |].
destruct (PyStr.mem y l) eqn:M.
- rewrite IH. split; [intros H; right; exact H |].
  intros [<- | H]; [apply mem_In, M | exact H].
- simpl. rewrite IH. reflexivity.
Qed.

Lemma of_list_NoDup l : NoDup (PySet.of_list l).
Proof.
induction l as [| y l IH]; simpl; [constructor |].
destruct (PyStr.mem y l) eqn:M; [exact IH |].
constructor; [| exact IH].
rewrite of_list_In. intros H. apply mem_In in H. congruence.
Qed.

Lemma inter_In x a b : In x (PySet.inter a b) <-> In x a /\ In x b.
Proof.
unfold PySet.inter. rewrite filter_In, mem_In. reflexivity.
Qed.

Lemma inter_NoDup a b : NoDup a -> NoDup (PySet.inter a b).
Proof. apply NoDup_filter. Qed.

(** A filter that keeps the length keeps every element. *)
Lemma filter_full {A} (f : A -> bool) l :
  List.length (filter f l) = List.length l -> forall x, In x l -> f x = true.
Proof.
induction l as [| y l IH]; simpl; [intros _ x [] |].
pose proof (filter_length_le f l) as L.
destruct (f y) eqn:F; simpl; intros H x [<- | Hx].
- exact F.
- apply IH; [lia | exact Hx].
- lia.
- lia.
Qed.
End PySetFacts.

Module OverlapFacts.
Import JSONIntentLoader.

Lemma ratio_below_one (c m : nat) :
  c < m ->
  (inject_Z (Z.of_nat c) / inject_Z (Z.of_nat m) * (6 # 10) < 6 # 10)%Q.
Proof.
intros H.
assert (Hm : (0 < inject_Z (Z.of_nat m))%Q).
{ change 0%Q with (inject_Z 0). rewrite <- Zlt_Qlt. lia. }
assert (Hr : (inject_Z (Z.of_nat c) / inject_Z (Z.of_nat m) < 1)%Q).
{ assert (H1 : (inject_Z (Z.of_nat c) < inject_Z (Z.of_nat m))%Q)
    by (rewrite <- Zlt_Qlt; lia).
  apply Qlt_shift_div_r; [exact Hm | lra]. }
revert Hr. generalize (inject_Z (Z.of_nat c) / inject_Z (Z.of_nat m))%Q.
intros r Hr. lra.
Qed.
End OverlapFacts.

(** X6.  A pattern that neither contains the query nor is contained in
    it reaches the acceptance score only when the query and the pattern
    have the same set of words; its score is then exactly 0.6. *)
Theorem overlap_accepts_only_the_same_words :
  forall query pattern_lower : string,
    PyStr.contains pattern_lower query || PyStr.contains query pattern_lower
    = false ->
    (6 # 10 <= JSONIntentLoader.pattern_score query pattern_lower)%Q ->
    (forall w, In w (PyStr.split query) <-> In w (PyStr.split pattern_lower))
    /\ (JSONIntentLoader.pattern_score query pattern_lower == 6 # 10)%Q.
Proof.
intros query pattern_lower Hc Hs.
unfold JSONIntentLoader.pattern_score in Hs |- *. rewrite Hc in Hs |- *.
set (qw := PySet.of_list (PyStr.split query)) in *.
set (pw := PySet.of_list (PyStr.split pattern_lower)) in *.
pose proof (ScoreFacts.inter_size qw pw) as Lq. unfold PySet.size in *.
destruct (PySet.inter qw pw) as [| x common] eqn:E.
{ exfalso. clear - Hs. apply Qle_bool_iff in Hs. discriminate. }
rewrite <- E in *. unfold PyNum.len in *.
set (c := List.length (PySet.inter qw pw)) in *.
set (m := Nat.max (List.length qw) (List.length pw)) in *.
assert (Hc0 : 0 < c) by (unfold c; rewrite E; simpl; lia).
assert (Hcm : m <= c).
{ destruct (Nat.lt_ge_cases c m) as [H | H]; [| exact H]. exfalso.
  pose proof (OverlapFacts.ratio_below_one c m H) as R.
  clear - Hs R. revert Hs R.
  generalize (inject_Z (Z.of_nat c) / inject_Z (Z.of_nat m))%Q.
  intros r Hs R. lra. }
assert (Hq : List.length (PySet.inter qw pw) = List.length qw)
  by (fold c; unfold m in Hcm; lia).
assert (Hp : List.length pw <= List.length (PySet.inter qw pw))
  by (fold c; unfold m in Hcm; lia).
assert (Qsub : forall w, In w qw -> In w pw).
{ intros w Hw. apply PySetFacts.mem_In.
  apply (PySetFacts.filter_full (fun x => PyStr.mem x pw) qw Hq w Hw). }
assert (Psub : forall w, In w pw -> In w qw).
{ intros w Hw.
  assert (I : incl pw (PySet.inter qw pw)).
  { apply NoDup_length_incl.
    - apply PySetFacts.inter_NoDup, PySetFacts.of_list_NoDup.
    - exact Hp.
    - intros y Hy. apply PySetFacts.inter_In in Hy. apply Hy. }
  apply (PySetFacts.inter_In w qw pw), I, Hw. }
split.
- intros w.
  rewrite <- (PySetFacts.of_list_In w (PyStr.split query)).
  rewrite <- (PySetFacts.of_list_In w (PyStr.split pattern_lower)).
  split; [apply Qsub | apply Psub].
- destruct (ScoreFacts.ratio_bounds c m) as [_ R1]; [lia | exact Hc0 |].
  clear - Hs R1. revert Hs R1.
  generalize (inject_Z (Z.of_nat c) / inject_Z (Z.of_nat m))%Q.
  intros r Hs R1. lra.
Qed.

Lemma overlap_accepts_only_the_same_words_witness :
  (PyStr.contains "water pump" "pump water"
   || PyStr.contains "pump water" "water pump" = false) /\
  (forall w, In w (PyStr.split "pump water")
             <-> In w (PyStr.split "water pump")).
Proof.
assert (H1 : PyStr.contains "water pump" "pump water"
             || PyStr.contains "pump water" "water pump" = false)
  by (vm_compute; reflexivity).
assert (H2 : (6 # 10 <= JSONIntentLoader.pattern_score "pump water"
                                                       "water pump")%Q)
  by (vm_compute; discriminate).
split; [exact H1 |].
exact (proj1 (overlap_accepts_only_the_same_words
                "pump water" "water pump" H1 H2)).
Defined.

From Stdlib Require Import Sorted.

Module ResolverMore.
Import IrrigationGuide.

Lemma all_types_complete rt : In rt all_types.
Proof. destruct rt; simpl; tauto. Qed.

Lemma first_in_table_some hit t name :
  first_in_table hit t = Some name ->
  has_key name t = true /\ exists data, In (name, data) t /\ hit name data = true.
Proof.
induction t as [| [n d] t IH]; simpl; [discriminate |].
destruct (hit n d) eqn:H.
- intros [= ->]. rewrite String.eqb_refl. split; [reflexivity |].
  exists d. split; [left; reflexivity | exact H].
- intros E. destruct (IH E) as (K & data & Hin & Hh).
  rewrite K, orb_true_r. split; [reflexivity |].
  exists data. split; [right; exact Hin | exact Hh].
Qed.

Lemma first_in_table_none hit t :
  first_in_table hit t = None ->
  forall name data, In (name, data) t -> hit name data = false.
Proof.
induction t as [| [n d] t IH]; simpl; [intros _ ? ? [] |].
destruct (hit n d) eqn:H; [discriminate |].
intros E name data [Heq | Hin]; [inversion Heq; subst; exact H | apply IH; assumption].
Qed.

Lemma first_in_types_some resources hit types name rt :
  first_in_types resources hit types = Some (name, rt) ->
  has_key name (resources rt) = true /\
  exists data, In (name, data) (resources rt) /\ hit name data = true.
Proof.
induction types as [| ty types IH]; simpl; [discriminate |].
destruct (first_in_table hit (resources ty)) as [n |] eqn:E.
- intros E'. inversion E'; subst. apply (first_in_table_some hit _ _ E).
- exact IH.
Qed.

Lemma first_in_types_none resources hit types :
  first_in_types resources hit types = None ->
  forall rt name data,
    In rt types -> In (name, data) (resources rt) -> hit name data = false.
Proof.
induction types as [| ty types IH]; simpl; [intros _ ? ? ? [] |].
destruct (first_in_table hit (resources ty)) as [n |] eqn:E; [discriminate |].
intros N rt name data [<- | Hrt] Hin.
- apply (first_in_table_none hit _ E name data Hin).
- apply (IH N rt name data Hrt Hin).
Qed.

Lemma first_known_some resources matches m rt :
  first_known resources matches = Some (m, rt) ->
  has_key m (resources rt) = true.
Proof.
induction matches as [| x matches IH]; cbn [first_known]; [discriminate |].
destruct (find (fun rt => has_key x (resources rt)) all_types) as [ty |] eqn:F.
- intros E'. inversion E'; subst. apply find_some in F. apply F.
- exact IH.
Qed.
End ResolverMore.

Import IrrigationGuide.

(** X8.  Whatever the close-match function returns, a resource resolved by
    [find_best_match] is a key of the table of the type returned with
    it. *)
Theorem resolved_resource_exists :
  forall (get_close_matches : string -> list string -> nat -> Q -> list string)
         (resources : ResourceType -> table) (query name : string)
         (rt : ResourceType),
    find_best_match get_close_matches resources query = Some (name, rt) ->
    has_key name (resources rt) = true.
Proof.
intros get_close_matches resources query name rt. unfold find_best_match.
destruct (first_in_types resources (exact_hit _) all_types)
  as [[n1 t1] |] eqn:E1.
- intros E'. inversion E'; subst.
  apply (ResolverMore.first_in_types_some _ _ _ _ _ E1).
- destruct (first_in_types resources (partial_hit _) all_types)
    as [[n2 t2] |] eqn:E2.
  + intros E'. inversion E'; subst.
    apply (ResolverMore.first_in_types_some _ _ _ _ _ E2).
  + apply ResolverMore.first_known_some.
Qed.

Lemma resolved_resource_exists_witness :
  find_best_match (fun _ _ _ _ => []) knowledge_base "Dashboard"
  = Some ("dashboard", ROUTE) /\
  has_key "dashboard" (knowledge_base ROUTE) = true.
Proof.
assert (H : find_best_match (fun _ _ _ _ => []) knowledge_base "Dashboard"
            = Some ("dashboard", ROUTE)) by (vm_compute; reflexivity).
split; [exact H |].
exact (resolved_resource_exists (fun _ _ _ _ => []) knowledge_base
         "Dashboard" "dashboard" ROUTE H).
Defined.

(** X9.  A query equal, case apart, to the name of a resource is always
    resolved, in the first pass: to a resource whose name or one of whose
    keywords equals the query (not necessarily the resource of that
    name). *)
Theorem name_query_is_resolved :
  forall (get_close_matches : string -> list string -> nat -> Q -> list string)
         (resources : ResourceType -> table) (query name : string)
         (data : resource) (rt : ResourceType),
    In (name, data) (resources rt) ->
    PyStr.lower name = PyStr.strip (PyStr.lower query) ->
    exists name' rt' data',
      find_best_match get_close_matches resources query = Some (name', rt') /\
      In (name', data') (resources rt') /\
      (exact_name (PyStr.strip (PyStr.lower query)) name'
       || exact_keyword (PyStr.strip (PyStr.lower query)) data') = true.
Proof.
intros get_close_matches resources query name data rt Hin Hname.
unfold find_best_match.
destruct (first_in_types resources (exact_hit _) all_types)
  as [[n1 t1] |] eqn:E1.
- destruct (ResolverMore.first_in_types_some _ _ _ _ _ E1)
    as (_ & d1 & Hd1 & Hh).
  exists n1, t1, d1. split; [reflexivity |]. split; [exact Hd1 |].
  rewrite ResolverFacts.exact_hit_pass1 in Hh. exact Hh.
- exfalso.
  pose proof (ResolverMore.first_in_types_none _ _ _ E1 rt name data
                (ResolverMore.all_types_complete rt) Hin) as N.
  unfold exact_hit, exact_name in N. rewrite <- Hname, String.eqb_refl in N.
  discriminate.
Qed.

Lemma name_query_is_resolved_witness :
  In ("status",
      command "Check current system status, sensor readings, and active operations"
        ["status"; "check"; "system status"; "current state"; "what's running"]
        "fa-info-circle"
        ["Check system status"; "What is currently running?";
         "Show current operations"; "Display sensor readings"]
        None None
        "View the Dashboard for an overview or go to Control Panel â†’ Status for detailed information")
     (knowledge_base COMMAND) /\
  exists name' rt' data',
    find_best_match (fun _ _ _ _ => []) knowledge_base " Status "
    = Some (name', rt') /\
    In (name', data') (knowledge_base rt') /\
    (exact_name (PyStr.strip (PyStr.lower " Status ")) name'
     || exact_keyword (PyStr.strip (PyStr.lower " Status ")) data') = true.
Proof.
assert (H : In ("status",
      command "Check current system status, sensor readings, and active operations"
        ["status"; "check"; "system status"; "current state"; "what's running"]
        "fa-info-circle"
        ["Check system status"; "What is currently running?";
         "Show current operations"; "Display sensor readings"]
        None None
        "View the Dashboard for an overview or go to Control Panel â†’ Status for detailed information")
     (knowledge_base COMMAND)).
{ simpl. do 7 right. left. reflexivity. }
split; [exact H |].
exact (name_query_is_resolved (fun _ _ _ _ => []) knowledge_base " Status "
         "status" _ COMMAND H eq_refl).
Defined.

Module RankerFacts.
Import IrrigationGuide.

Lemma diversify_stops limit l :
  (limit <= 0)%Z -> diversify limit l [] [] = [].
Proof.
intros H. destruct l as [| s l]; simpl; [reflexivity |].
destruct (limit <=? 0)%Z eqn:E; [reflexivity |].
apply Z.leb_gt in E. lia.
Qed.

Lemma candidates_of_table query_words rt t :
  Forall (fun s => s_type s = value rt /\ has_key (s_name s) t = true)
         (candidates query_words rt t).
Proof.
induction t as [| [name data] t IH]; simpl; [constructor |].
assert (IH' : Forall (fun s => s_type s = value rt /\
                               (String.eqb (s_name s) name
                                || has_key (s_name s) t) = true)
                     (candidates query_words rt t)).
{ eapply Forall_impl; [| exact IH]. simpl. intros s [A B].
  split; [exact A |]. rewrite B. apply orb_true_r. }
destruct (PyNum.gt (relevance query_words name data) 0); [| exact IH'].
constructor; [| exact IH']. simpl. rewrite String.eqb_refl. split; reflexivity.
Qed.

(** The order of the sorted list: no later score is greater. *)
Local Abbreviation ge_score :=
  (fun a b : suggestion => (s_score b <= s_score a)%Q).

Lemma insert_by_score_sorted x l :
  StronglySorted ge_score l -> StronglySorted ge_score (insert_by_score x l).
Proof.
intros H. induction H as [| y l Hl IH Hy]; simpl.
- constructor; constructor.
- destruct (PyNum.gt (s_score y) (s_score x)) eqn:G.
  + apply PyNumFacts.gt_iff in G. constructor; [exact IH |].
    apply SuggestionFacts.insert_by_score_Forall; [simpl; lra | exact Hy].
  + apply PyNumFacts.gt_false_iff in G.
    constructor; [constructor; assumption |].
    constructor; [exact G |].
    eapply Forall_impl; [| exact Hy]. simpl. intros; lra.
Qed.

Lemma sort_by_score_sorted l : StronglySorted ge_score (sort_by_score l).
Proof.
induction l as [| x l IH]; simpl; [constructor |].
apply insert_by_score_sorted, IH.
Qed.

Lemma sorted_app_l {A} (R : A -> A -> Prop) l1 l2 :
  StronglySorted R (l1 ++ l2) -> StronglySorted R l1.
Proof.
induction l1 as [| x l1 IH]; simpl; [constructor |].
intros H. inversion H as [| ? ? Hs Hx]; subst.
constructor; [apply IH, Hs |].
apply Forall_app in Hx. apply Hx.
Qed.

Lemma sorted_drop_middle {A} (R : A -> A -> Prop) l1 x l2 :
  StronglySorted R (l1 ++ x :: l2) -> StronglySorted R (l1 ++ l2).
Proof.
induction l1 as [| y l1 IH]; simpl; intros H.
- inversion H; assumption.
- inversion H as [| ? ? Hs Hy]; subst.
  constructor; [apply IH, Hs |].
  apply Forall_app in Hy. destruct Hy as [H1 H2].
  apply Forall_app. split; [exact H1 |]. inversion H2; assumption.
Qed.

Lemma diversify_sorted limit l :
  forall final used,
    StronglySorted ge_score (final ++ l) ->
    StronglySorted ge_score (diversify limit l final used).
Proof.
induction l as [| s l IH]; intros final used H; simpl.
- rewrite app_nil_r in H. exact H.
- destruct (limit <=? Z.of_nat (List.length final))%Z;
    [apply (sorted_app_l _ _ _ H) |].
  destruct (negb (PyStr.mem (s_category s) used) || _).
  + apply IH. rewrite <- app_assoc. exact H.
  + apply IH. apply (sorted_drop_middle _ _ _ _ H).
Qed.

Lemma firstn_sorted {A} (R : A -> A -> Prop) n l :
  StronglySorted R l -> StronglySorted R (firstn n l).
Proof.
intros H. rewrite <- (firstn_skipn n l) in H. apply (sorted_app_l _ _ _ H).
Qed.

Lemma firstn_NoDup {A} n (l : list A) : NoDup l -> NoDup (firstn n l).
Proof.
intros H. rewrite <- (firstn_skipn n l) in H.
apply NoDup_app_remove_r in H. exact H.
Qed.

(** The selection loop keeps the categories of its first three picks
    distinct. *)
Lemma diversify_distinct limit l :
  forall final used,
    NoDup (firstn 3 (map s_category final)) ->
    (List.length used < 3 -> map s_category final = used) ->
    (3 <= List.length used -> 3 <= List.length final) ->
    NoDup (firstn 3 (map s_category (diversify limit l final used))).
Proof.
induction l as [| s l IH]; intros final used Hnd Hlt Hge; cbn [diversify];
  [exact Hnd |].
destruct (limit <=? Z.of_nat (List.length final))%Z; [exact Hnd |].
unfold PySet.size.
assert (Hfull : 3 <= List.length final ->
                firstn 3 (map s_category (final ++ [s]))
                = firstn 3 (map s_category final)).
{ intros H. rewrite map_app, firstn_app.
  replace (3 - List.length (map s_category final)) with 0
    by (rewrite length_map; lia).
  cbn [firstn]. apply app_nil_r. }
destruct (PyStr.mem (s_category s) used) eqn:M; cbn [negb orb].
- destruct (3 <=? List.length used) eqn:L; [| apply IH; assumption].
  apply Nat.leb_le in L. specialize (Hge L).
  apply IH.
  + rewrite (Hfull Hge). exact Hnd.
  + intros; lia.
  + intros _. rewrite length_app. lia.
- assert (Hnot : ~ In (s_category s) used).
  { intros H. apply PySetFacts.mem_In in H. congruence. }
  destruct (Nat.lt_ge_cases (List.length used) 3) as [L | L].
  + specialize (Hlt L).
    assert (Hall : firstn 3 (map s_category final) = used).
    { rewrite Hlt. apply firstn_all2. lia. }
    assert (Hcat : map s_category (final ++ [s])
                   = (used ++ [s_category s])%list).
    { rewrite map_app, Hlt. reflexivity. }
    apply IH.
    * rewrite Hcat.
      rewrite firstn_all2 by (rewrite length_app; cbn [List.length]; lia).
      apply NoDup_app; [rewrite <- Hall; exact Hnd | | ].
      -- constructor; [intros [] | constructor].
      -- intros x Hx [<- | []]. exact (Hnot Hx).
    * intros _. exact Hcat.
    * intros H. rewrite <- (length_map s_category (final ++ [s])), Hcat.
      exact H.
  + specialize (Hge L). apply IH.
    * rewrite (Hfull Hge). exact Hnd.
    * intros H. rewrite length_app in H. cbn [List.length] in H. lia.
    * intros _. rewrite length_app. lia.
Qed.
End RankerFacts.

(** X10.  [get_suggestions] returns at most [limit] entries, and none for
    a limit that is zero or negative. *)
Theorem suggestions_within_limit :
  forall (resources : ResourceType -> table) (query : string) (limit : Z),
    List.length (get_suggestions resources query limit) <= Z.to_nat limit.
Proof.
intros resources query limit. unfold get_suggestions, slice_list.
destruct (0 <=? limit)%Z eqn:E.
- rewrite length_firstn. lia.
- apply Z.leb_gt in E. rewrite RankerFacts.diversify_stops by lia.
  rewrite firstn_nil. simpl. lia.
Qed.

(** X11.  Every suggestion names a resource of the knowledge base, with
    the type of the table that holds it, and never a chat response. *)
Theorem suggestions_are_resources_not_chat :
  forall (resources : ResourceType -> table) (query : string) (limit : Z),
    Forall (fun s => exists rt,
                rt <> CHAT /\ s_type s = value rt /\
                has_key (s_name s) (resources rt) = true)
           (get_suggestions resources query limit).
Proof.
intros resources query limit. unfold get_suggestions.
apply SuggestionFacts.slice_list_Forall, SuggestionFacts.diversify_Forall;
  [| constructor].
apply SuggestionFacts.sort_by_score_Forall, Forall_flat_map, Forall_forall.
intros rt _. destruct (ResourceType_eqb rt CHAT) eqn:E; [constructor |].
eapply Forall_impl; [| apply RankerFacts.candidates_of_table].
simpl. intros s [A B]. exists rt. split; [| split; assumption].
intros ->. discriminate.
Qed.

(** X12.  The suggestions come in order of score, the greatest first. *)
Theorem suggestions_are_ranked :
  forall (resources : ResourceType -> table) (query : string) (limit : Z),
    StronglySorted (fun a b => (s_score b <= s_score a)%Q)
                   (get_suggestions resources query limit).
Proof.
intros resources query limit. unfold get_suggestions, slice_list.
destruct (0 <=? limit)%Z; apply RankerFacts.firstn_sorted;
  apply RankerFacts.diversify_sorted; apply RankerFacts.sort_by_score_sorted.
Qed.

(** X13.  The first three suggestions have three different categories (the
    first two, when there are only two). *)
Theorem first_suggestions_differ_in_category :
  forall (resources : ResourceType -> table) (query : string) (limit : Z),
    NoDup (firstn 3 (map s_category (get_suggestions resources query limit))).
Proof.
intros resources query limit. unfold get_suggestions, slice_list.
set (picked := diversify limit _ [] []).
assert (H : NoDup (firstn 3 (map s_category picked))).
{ apply RankerFacts.diversify_distinct.
  - constructor.
  - reflexivity.
  - simpl. lia. }
assert (G : forall n, NoDup (firstn 3 (map s_category (firstn n picked)))).
{ intros n. rewrite <- firstn_map, firstn_firstn.
  rewrite <- (Nat.min_id 3) at 1. rewrite <- Nat.min_assoc.
  rewrite <- firstn_firstn. apply RankerFacts.firstn_NoDup.
  rewrite Nat.min_comm, <- firstn_firstn.
  apply RankerFacts.firstn_NoDup, H. }
destruct (0 <=? limit)%Z; apply G.
Qed.

Module AnswerFacts.
Import IrrigationGuide.

Lemma bind_inr {A B} (m : M A) (k : A -> M B) self r s' :
  bind m k self = (inr r, s') ->
  exists a s1, m self = (inr a, s1) /\ k a s1 = (inr r, s').
Proof.
unfold bind. destruct (m self) as [[e | a] s1]; [discriminate |].
intros H. exists a, s1. split; [reflexivity | exact H].
Qed.

Lemma ret_inr {A} (a r : A) self s' :
  ret a self = (inr r, s') -> r = a /\ s' = self.
Proof. unfold ret. intros H. inversion H. split; reflexivity. Qed.

Lemma lift_inr {A} (x : result A) (r : A) self s' :
  lift x self = (inr r, s') -> x = inr r /\ s' = self.
Proof. unfold lift. intros H. inversion H. split; reflexivity. Qed.

Lemma enhance_keeps resources query r r' :
  _enhance_with_contact_intelligence resources query r = inr r' ->
  rr_suggestions r' = rr_suggestions r /\ rr_name r' = rr_name r /\
  rr_type r' = rr_type r.
Proof.
unfold _enhance_with_contact_intelligence.
destruct (mentions _ (PyStr.lower query)).
- destruct (rr_contact_info r) as [c |]; cbn [rbind].
  + intros H. inversion H. repeat split.
  + destruct (get_contact_response resources); cbn [rbind]; [discriminate |].
    intros H. inversion H. repeat split.
- intros H. inversion H. repeat split.
Qed.

Lemma assemble_fields self query corrected corrections has name rt r :
  assemble self query corrected corrections has name rt = inr r ->
  rr_suggestions r = get_suggestions (resources self) corrected 5 /\
  rr_name r = name /\ rr_type r = rt.
Proof.
unfold assemble.
destruct (item name (resources self rt)); cbn [rbind]; [discriminate |].
destruct (required (description r0)); cbn [rbind]; [discriminate |].
intros H. inversion H. repeat split.
Qed.

Section Answers.
Variable random_choice : list string -> string.
Variable now : string.
Variable get_close_matches : string -> list string -> nat -> Q -> list string.

Lemma record_inr user_id query response self a self' :
  record_if_user now user_id query response self = (inr a, self') ->
  resources self' = resources self /\ json_loader self' = json_loader self.
Proof.
unfold record_if_user.
destruct user_id as [u |];
  [destruct (truthy u) |];
  try (intros H; apply ret_inr in H; destruct H as [_ ->];
       split; reflexivity).
unfold add_to_conversation_history.
destruct (add_interaction now u query response (conversation_history self));
  [discriminate |].
intros H. inversion H. split; reflexivity.
Qed.

(** What the body of [get_help_response] returns, stage by stage. *)
Lemma body_answer self query user_id r s' :
  help_body random_choice now get_close_matches query user_id self
  = (inr r, s') ->
  let res := resources self in
  let corrected := fst (SpellingCorrector.correct_spelling query) in
  let sc :=
    spelling_if
      (negb (String.eqb (PyStr.lower corrected) (PyStr.lower query)))
      query corrected (snd (SpellingCorrector.correct_spelling query)) in
  (exists j, r = JsonIntent j) \/
  (exists c, r = Chat c) \/
  (_check_special_commands res query = None /\
   ((PyStr.contains "emergency" (PyStr.lower corrected) = true /\
     r = EmergencyContact get_emergency_contact_info sc) \/
    (exists c, r = Contact c sc) \/
    r = NotFound not_found_message (get_suggestions res corrected 5) sc \/
    (exists rr,
        r = Resource rr /\
        rr_suggestions rr = get_suggestions res corrected 5 /\
        find_best_match get_close_matches res corrected
        = Some (rr_name rr, rr_type rr)))).
Proof.
intros H res corrected sc. unfold help_body in H.
apply bind_inr in H. destruct H as (u0 & s1 & Hrec & H).
apply record_inr in Hrec. destruct Hrec as [Hres Hjson].
apply bind_inr in H. destruct H as (self1 & s2 & Hget & H).
unfold get_self in Hget. inversion Hget; subst self1 s2. clear Hget.
cbv zeta in H. rewrite Hres in H. fold res in H.
destruct (JSONIntentLoader.matched _ && _).
{ apply bind_inr in H. destruct H as (? & ? & _ & H).
  apply ret_inr in H. destruct H as [-> _]. left. eexists. reflexivity. }
destruct (_check_special_commands res query) as [special |] eqn:Esp.
{ apply bind_inr in H. destruct H as (? & ? & _ & H).
  apply ret_inr in H. destruct H as [-> _]. right. left. eexists.
  reflexivity. }
subst corrected sc.
destruct (SpellingCorrector.correct_spelling query) as [cq cs].
cbn [fst snd].
destruct (_check_conversational_phrases res cq) as [conv |].
{ apply bind_inr in H. destruct H as (? & ? & _ & H).
  apply ret_inr in H. destruct H as [-> _]. right. left. eexists.
  reflexivity. }
right. right. split; [reflexivity |].
destruct (mentions _ (PyStr.lower cq)).
- apply bind_inr in H. destruct H as (resp & s3 & Hresp & H).
  apply bind_inr in H. destruct H as (? & ? & _ & H).
  apply ret_inr in H. destruct H as [-> _].
  destruct (PyStr.contains "emergency" (PyStr.lower cq)) eqn:Em.
  + apply ret_inr in Hresp. destruct Hresp as [-> _].
    left. split; reflexivity.
  + apply bind_inr in Hresp. destruct Hresp as (c & ? & _ & Hresp).
    apply ret_inr in Hresp. destruct Hresp as [-> _].
    right. left. exists c. reflexivity.
- destruct (find_best_match get_close_matches res cq) as [[name rt] |] eqn:F.
  + destruct (String.eqb name "").
    * apply ret_inr in H. destruct H as [-> _]. right. right. left.
      reflexivity.
    * apply bind_inr in H. destruct H as (r1 & s3 & Has & H).
      apply lift_inr in Has. destruct Has as [Has ->].
      apply bind_inr in H. destruct H as (r2 & s4 & Hen & H).
      apply lift_inr in Hen. destruct Hen as [Hen ->].
      apply bind_inr in H. destruct H as (? & ? & _ & H).
      apply ret_inr in H. destruct H as [-> _].
      apply assemble_fields in Has. destruct Has as (A1 & A2 & A3).
      rewrite Hres in A1. fold res in A1.
      apply enhance_keeps in Hen. destruct Hen as (B1 & B2 & B3).
      right. right. right. exists r2. split; [reflexivity |].
      split; [congruence |]. rewrite B2, B3, A2, A3. reflexivity.
  + apply ret_inr in H. destruct H as [-> _]. right. right. left.
    reflexivity.
Qed.

(** What [get_help_response] returns is what its body returns, or the
    generic error. *)
Lemma ask_answer self query user_id :
  let r := fst (get_help_response random_choice now get_close_matches
                  self query user_id) in
  r = generic_error \/
  exists s', help_body random_choice now get_close_matches query user_id self
             = (inr r, s').
Proof.
unfold get_help_response.
destruct (help_body random_choice now get_close_matches query user_id self)
  as [[e | r] s']; simpl.
- left. reflexivity.
- right. exists s'. reflexivity.
Qed.
End Answers.
End AnswerFacts.

Module DispatchMore.
Import IrrigationGuide.

Lemma special_none_no_emergency resources query :
  _check_special_commands resources query = None ->
  PyStr.contains "emergency" (PyStr.lower query) = false.
Proof.
unfold _check_special_commands.
destruct (mentions ["clear chat"; _; _] (PyStr.lower query)); [discriminate |].
destruct (mentions ["settings"; _; _] (PyStr.lower query)); [discriminate |].
destruct (mentions ["emergency"; _; _] (PyStr.lower query)) eqn:E;
  [discriminate |].
intros _. unfold mentions, PyStr.any in E. cbn [existsb] in E.
apply orb_false_iff in E. apply E.
Qed.

Lemma get_suggestions_length resources query limit :
  List.length (get_suggestions resources query limit) <= Z.to_nat limit.
Proof.
unfold get_suggestions, slice_list.
destruct (0 <=? limit)%Z eqn:E.
- rewrite length_firstn. lia.
- apply Z.leb_gt in E. rewrite RankerFacts.diversify_stops by lia.
  rewrite firstn_nil. simpl. lia.
Qed.

Section Frame.
Variable random_choice : list string -> string.
Variable now : string.
Variable get_close_matches : string -> list string -> nat -> Q -> list string.

Ltac settle E :=
  repeat first
    [ apply HistoryFacts.stable_ret
    | apply HistoryFacts.stable_lift
    | rewrite E
    | apply HistoryFacts.stable_bind; [| intros ?]
    | match goal with
      | |- context [if ?b then _ else _] => destruct b
      | |- context [match ?x with _ => _ end] => destruct x
      end ].

(** A call that records nothing leaves the object as it was. *)
Lemma silent_body_stable self query user_id :
  (forall q r, record_if_user now user_id q r = ret tt) ->
  snd (help_body random_choice now get_close_matches query user_id self)
  = self.
Proof.
intros E. unfold help_body. rewrite E.
apply HistoryFacts.stable_bind; [apply HistoryFacts.stable_ret | intros _].
unfold bind at 1, get_self. cbv beta iota.
settle E.
Qed.

Lemma silent_ask_stable self query user_id :
  (forall q r, record_if_user now user_id q r = ret tt) ->
  snd (get_help_response random_choice now get_close_matches
         self query user_id) = self.
Proof.
intros E. unfold get_help_response.
pose proof (silent_body_stable self query user_id E) as S.
destruct (help_body random_choice now get_close_matches query user_id self)
  as [[e | r] s']; exact S.
Qed.
End Frame.
End DispatchMore.

Import IrrigationGuide DispatchSpec.

(** X14.  A call of [get_help_response] without a user identifier, or with
    one that the test [if user_id:] rejects (the empty string, zero),
    leaves the object unchanged, whatever its conversation history
    holds. *)
Theorem help_without_user_changes_nothing :
  forall (random_choice : list string -> string) (now : string)
         (get_close_matches : string -> list string -> nat -> Q -> list string)
         (self : guide_state) (query : string),
    snd (get_help_response random_choice now get_close_matches
           self query None) = self /\
    forall u, truthy u = false ->
              snd (get_help_response random_choice now get_close_matches
                     self query (Some u)) = self.
Proof.
intros random_choice now get_close_matches self query. split.
- apply DispatchMore.silent_ask_stable. reflexivity.
- intros u Hu. apply DispatchMore.silent_ask_stable.
  intros q r. unfold record_if_user. rewrite Hu. reflexivity.
Qed.

(** X16.  The emergency contact payload is returned only through a
    spelling correction: the query as typed does not contain
    ["emergency"] (such a query is answered by the special command), the
    corrected query does, and the payload carries the correction. *)
Theorem emergency_contact_comes_from_a_correction :
  forall (random_choice : list string -> string) (now : string)
         (get_close_matches : string -> list string -> nat -> Q -> list string)
         (self : guide_state) (query : string) (user_id : option user_key)
         (e : emergency_contact) (sc : option spelling_note),
    fst (get_help_response random_choice now get_close_matches
           self query user_id) = EmergencyContact e sc ->
    PyStr.contains "emergency" (PyStr.lower query) = false /\
    PyStr.contains "emergency"
      (PyStr.lower (fst (SpellingCorrector.correct_spelling query))) = true /\
    sc = Some {| original_query := query;
                 corrected_query :=
                   fst (SpellingCorrector.correct_spelling query);
                 corrections :=
                   snd (SpellingCorrector.correct_spelling query) |}.
Proof.
intros random_choice now get_close_matches self query user_id e sc H.
destruct (AnswerFacts.ask_answer random_choice now get_close_matches
            self query user_id) as [A | (s' & A)];
  rewrite H in A; [discriminate |].
apply AnswerFacts.body_answer in A. cbv zeta in A.
destruct A as [(j & A) | [(c & A) | (Esp & A)]]; try discriminate.
apply DispatchMore.special_none_no_emergency in Esp.
destruct A as [(Em & A) | [(c & A) | [A | (rr & A & _)]]]; try discriminate.
split; [exact Esp |]. split; [exact Em |].
inversion A as [[He Hsc]]. unfold spelling_if.
destruct (String.eqb _ (PyStr.lower query)) eqn:E; [| reflexivity].
apply String.eqb_eq in E. rewrite E in Em. congruence.
Qed.

Lemma emergency_contact_comes_from_a_correction_witness :
  fst (get_help_response (fun _ => "") "2026-01-01T00:00:00"
         (fun _ _ _ _ => []) (__init__ []) "emergancy" None)
  = EmergencyContact get_emergency_contact_info
      (Some {| original_query := "emergancy";
               corrected_query := "emergency";
               corrections := ["'emergancy' â†’ 'emergency'"] |}) /\
  PyStr.contains "emergency" (PyStr.lower "emergancy") = false.
Proof.
assert (H : fst (get_help_response (fun _ => "") "2026-01-01T00:00:00"
                   (fun _ _ _ _ => []) (__init__ []) "emergancy" None)
            = EmergencyContact get_emergency_contact_info
                (Some {| original_query := "emergancy";
                         corrected_query := "emergency";
                         corrections := ["'emergancy' â†’ 'emergency'"] |}))
  by (vm_compute; reflexivity).
split; [exact H |].
exact (proj1 (emergency_contact_comes_from_a_correction _ _ _ _ _ _ _ _ H)).
Defined.

(** X17.  Whatever the query, the user and the state, the answer of
    [get_help_response] carries at most five ranked suggestions, each with
    a positive score. *)
Theorem answers_carry_at_most_five_suggestions :
  forall (random_choice : list string -> string) (now : string)
         (get_close_matches : string -> list string -> nat -> Q -> list string)
         (self : guide_state) (query : string) (user_id : option user_key),
    let l := ranked_suggestions
               (fst (get_help_response random_choice now get_close_matches
                       self query user_id)) in
    List.length l <= 5 /\ Forall (fun s => (0 < s_score s)%Q) l.
Proof.
intros random_choice now get_close_matches self query user_id l. subst l.
assert (G : forall q,
           List.length (get_suggestions (resources self) q 5) <= 5 /\
           Forall (fun s => (0 < s_score s)%Q)
                  (get_suggestions (resources self) q 5)).
{ intros q. split.
  - apply (DispatchMore.get_suggestions_length (resources self) q 5).
  - apply SuggestionFacts.get_suggestions_positive. }
destruct (AnswerFacts.ask_answer random_choice now get_close_matches
            self query user_id) as [A | (s' & A)].
- rewrite A. simpl. split; [lia | constructor].
- apply AnswerFacts.body_answer in A. cbv zeta in A.
  destruct A as [(j & ->) | [(c & ->) | (_ & A)]];
    try (simpl; split; [lia | constructor]).
  destruct A as [(_ & ->) | [(c & ->) | [-> | (rr & -> & E & _)]]];
    try (simpl; split; [lia | constructor]).
  + simpl. apply G.
  + simpl. rewrite E. apply G.
Qed.

(** X15.  A query equal, case and surrounding blanks apart, to a pattern
    of a loaded intent is answered by the intent stage with confidence 1,
    before the special commands, the spelling corrector and the resolver
    see it. *)
Theorem exact_intent_pattern_answers_first :
  forall (random_choice : list string -> string) (now : string)
         (get_close_matches : string -> list string -> nat -> Q -> list string)
         (self : guide_state) (query : string)
         (c : string) (i : JSONIntentLoader.intent) (p : string),
    In (c, i) (IntentSpec.flatten (json_loader self)) ->
    In p (JSONIntentLoader.patterns i) ->
    PyStr.lower p = PyStr.strip (PyStr.lower query) ->
    exists j,
      get_help_response random_choice now get_close_matches self query None
      = (JsonIntent j, self) /\
      j_query j = query /\ (j_confidence j == 1)%Q.
Proof.
intros random_choice now get_close_matches self query c i p Hin Hp Heq.
set (q := PyStr.strip (PyStr.lower query)) in *.
pose proof (ScoreFacts.exact_scores_one q i p Hp Heq) as Hone.
pose proof (MatchFacts.find_matching_intent_first_best
              (json_loader self) query JSONIntentLoader.default_threshold)
  as Hfb.
fold q in Hfb.
remember (JSONIntentLoader.find_matching_intent (json_loader self) query
            JSONIntentLoader.default_threshold) as b eqn:Eb.
symmetry in Eb.
destruct Hfb as [Hnone | l1 c0 i0 l2 Hflat Hpos Hthr Hl1 Hl2].
{ exfalso. rewrite Forall_forall in Hnone. apply (Hnone (c, i) Hin).
  unfold JSONIntentLoader.default_threshold. simpl. split; lra. }
simpl in Hpos, Hthr, Hl1, Hl2.
unfold JSONIntentLoader.default_threshold in Hthr.
pose proof (ScoreFacts.score_bounds q i0) as Hb.
assert (Hs : (JSONIntentLoader._calculate_match_score q i0 == 1)%Q).
{ assert (Hle : (JSONIntentLoader._calculate_match_score q i
                 <= JSONIntentLoader._calculate_match_score q i0)%Q).
  { rewrite Hflat in Hin. rewrite Forall_forall in Hl1, Hl2.
    apply in_app_or in Hin. destruct Hin as [Hin | [Hin | Hin]].
    - specialize (Hl1 _ Hin). simpl in Hl1. lra.
    - inversion Hin. lra.
    - exact (Hl2 _ Hin). }
  lra. }
pose proof (ResponseFacts.get_response_some random_choice _ _ _ _ _ Eb Hthr)
  as Hr.
unfold get_help_response, help_body. cbn [record_if_user].
unfold bind at 1, ret at 1. unfold bind at 1, get_self.
cbv beta iota zeta. rewrite Hr.
cbn [JSONIntentLoader.matched JSONIntentLoader.confidence andb snd].
apply PyNumFacts.ge_iff in Hthr. rewrite Hthr.
unfold bind, ret. eexists. split; [reflexivity |].
split; [reflexivity | exact Hs].
Qed.

Lemma exact_intent_pattern_answers_first_witness :
  exists j,
    get_help_response (fun _ => "") "2026-01-01T00:00:00" (fun _ _ _ _ => [])
      (__init__ [("system",
                  [ {| JSONIntentLoader.tag := "emergency_procedure";
                       JSONIntentLoader.patterns := ["Emergency"];
                       JSONIntentLoader.responses := [] |} ])])
      " EMERGENCY " None
    = (JsonIntent j,
       __init__ [("system",
                  [ {| JSONIntentLoader.tag := "emergency_procedure";
                       JSONIntentLoader.patterns := ["Emergency"];
                       JSONIntentLoader.responses := [] |} ])]) /\
    j_query j = " EMERGENCY " /\ (j_confidence j == 1)%Q.
Proof.
apply (exact_intent_pattern_answers_first
         (fun _ => "") "2026-01-01T00:00:00" (fun _ _ _ _ => [])
         (__init__ [("system",
                     [ {| JSONIntentLoader.tag := "emergency_procedure";
                          JSONIntentLoader.patterns := ["Emergency"];
                          JSONIntentLoader.responses := [] |} ])])
         " EMERGENCY " "system"
         {| JSONIntentLoader.tag := "emergency_procedure";
            JSONIntentLoader.patterns := ["Emergency"];
            JSONIntentLoader.responses := [] |} "Emergency").
- left. reflexivity.
- left. reflexivity.
- reflexivity.
Defined.

Module DictFacts.
Import IrrigationGuide.

Lemma user_key_eqb_eq a b : user_key_eqb a b = true <-> a = b.
Proof.
destruct a as [s | n], b as [t | m]; simpl; split; intros H;
  try discriminate.
- apply String.eqb_eq in H. subst. reflexivity.
- injection H as ->. apply String.eqb_refl.
- apply Z.eqb_eq in H. subst. reflexivity.
- injection H as ->. apply Z.eqb_refl.
Qed.

Lemma user_key_eqb_neq a b : user_key_eqb a b = false <-> a <> b.
Proof.
split.
- intros H E. apply user_key_eqb_eq in E. congruence.
- intros H. destruct (user_key_eqb a b) eqn:E; [| reflexivity].
  apply user_key_eqb_eq in E. contradiction.
Qed.

Lemma dict_get_set_other v k x d :
  v <> k -> dict_get v (dict_set k x d) = dict_get v d.
Proof.
intros H. apply user_key_eqb_neq in H.
induction d as [| [k' x'] d IH]; simpl.
- rewrite H. reflexivity.
- destruct (user_key_eqb k k') eqn:E; simpl.
  + apply user_key_eqb_eq in E. subst k'. rewrite H. reflexivity.
  + destruct (user_key_eqb v k'); [reflexivity | exact IH].
Qed.

Lemma last20_app_last (h : history) (i : interaction) :
  exists h0, last20 (h ++ [i])%list = (h0 ++ [i])%list.
Proof.
unfold last20. rewrite length_app. simpl List.length.
rewrite skipn_app.
replace (List.length h + 1 - 20 - List.length h) with 0 by lia.
simpl skipn. eexists. reflexivity.
Qed.

Lemma last20_last20_app (a b : history) :
  last20 (last20 a ++ b)%list = last20 (a ++ b)%list.
Proof.
unfold last20.
set (a1 := firstn (List.length a - 20) a).
set (a2 := skipn (List.length a - 20) a).
assert (Ea : a = (a1 ++ a2)%list).
{ symmetry. apply firstn_skipn. }
assert (L1 : List.length a1 = List.length a - 20).
{ unfold a1. rewrite length_firstn. lia. }
assert (L2 : List.length a2 = List.length a - (List.length a - 20)).
{ unfold a2. apply length_skipn. }
clearbody a1 a2. rewrite Ea. rewrite <- app_assoc. rewrite !length_app.
rewrite (skipn_app _ a1 (a2 ++ b)%list).
replace (skipn (List.length a1 + (List.length a2 + List.length b) - 20) a1)
  with (@nil interaction).
2:{ symmetry. apply skipn_all2. lia. }
simpl app. f_equal. lia.
Qed.

(** One call on a dictionary: it returns, the history of the user is the
    last twenty of the old one followed by the new interaction, and no
    other key is touched. *)
Lemma add_interaction_frame timestamp k query response d :
  let h := match dict_get k d with Some h => h | None => [] end in
  let i := {| i_timestamp := timestamp; i_query := query;
              i_response := PyStr.slice_to 500 response |} in
  exists d',
    add_interaction timestamp k query response (PyDict d) = inr (PyDict d') /\
    dict_get k d' = Some (last20 (h ++ [i])%list) /\
    forall v, v <> k -> dict_get v d' = dict_get v d.
Proof.
intros h i. unfold add_interaction. fold i.
rewrite HistoryFacts.contains_dict_get.
assert (G : forall d0, dict_get k d0 = Some h ->
            exists d',
              rbind (getitem k (PyDict d0)) (fun h0 =>
              rbind (setitem k (h0 ++ [i])%list (PyDict d0)) (fun st =>
              rbind (getitem k st) (fun h1 =>
              if 20 <? List.length h1 then
                rbind (getitem k st) (fun h2 => setitem k (last20 h2) st)
              else inr st))) = inr (PyDict d') /\
              dict_get k d' = Some (last20 (h ++ [i])%list) /\
              forall v, v <> k -> dict_get v d' = dict_get v d0).
{ intros d0 E. cbn [getitem]. rewrite E. cbn [rbind setitem getitem].
  rewrite (HistoryFacts.dict_get_set k (h ++ [i])%list d0). cbn [rbind].
  destruct (20 <? List.length (h ++ [i])%list) eqn:L.
  - cbn [rbind]. eexists. split; [reflexivity |].
    split; [apply HistoryFacts.dict_get_set |].
    intros v Hv. rewrite !dict_get_set_other by exact Hv. reflexivity.
  - apply Nat.ltb_ge in L. eexists. split; [reflexivity |].
    split.
    + rewrite (HistoryFacts.dict_get_set k (h ++ [i])%list d0),
        HistoryFacts.last20_short; [reflexivity | exact L].
    + intros v Hv. apply dict_get_set_other. exact Hv. }
destruct (dict_get k d) as [h0 |] eqn:E; simpl negb; cbv iota.
- exact (G d E).
- cbn [setitem]. unfold rbind at 1.
  destruct (G (dict_set k [] d) (HistoryFacts.dict_get_set k [] d))
    as (d' & E1 & E2 & E3).
  exists d'. split; [exact E1 |]. split; [exact E2 |].
  intros v Hv. rewrite (E3 v Hv). apply dict_get_set_other. exact Hv.
Qed.
End DictFacts.

Import IrrigationGuide Conversation.

(** X18.  On an object whose conversation history is a dictionary,
    [add_to_conversation_history] returns; afterwards the history of the
    user is the last twenty entries of the old one followed by the new
    interaction, so it ends with that interaction and holds at most
    twenty; the history of every other user is as before. *)
Theorem history_append_on_a_dictionary :
  forall (now : string) (self : guide_state) (u : user_key)
         (query response : string) (d : list (user_key * history)),
    conversation_history self = PyDict d ->
    let i := {| i_timestamp := now; i_query := query;
                i_response := PyStr.slice_to 500 response |} in
    let old := match dict_get u d with Some h => h | None => [] end in
    exists d' h0,
      add_to_conversation_history now u query response self
      = (inr tt, set_history self (PyDict d')) /\
      dict_get u d' = Some (last20 (old ++ [i])%list) /\
      last20 (old ++ [i])%list = (h0 ++ [i])%list /\
      List.length (last20 (old ++ [i])%list) <= 20 /\
      forall v, v <> u -> dict_get v d' = dict_get v d.
Proof.
intros now self u query response d H i old.
destruct (DictFacts.add_interaction_frame now u query response d)
  as (d' & E1 & E2 & E3).
destruct (DictFacts.last20_app_last old i) as (h0 & E4).
exists d', h0. unfold add_to_conversation_history. rewrite H, E1.
split; [reflexivity |]. split; [exact E2 |]. split; [exact E4 |].
split; [apply HistoryFacts.last20_length | exact E3].
Qed.

Lemma history_append_on_a_dictionary_witness :
  exists d' h0,
    add_to_conversation_history "2026-01-01T00:00:00" (UStr "ann")
      "pump" "Pump control"
      {| json_loader := []; resources := knowledge_base;
         conversation_history := PyDict [(UInt 7, [])] |}
    = (inr tt,
       set_history
         {| json_loader := []; resources := knowledge_base;
            conversation_history := PyDict [(UInt 7, [])] |}
         (PyDict d')) /\
    dict_get (UStr "ann") d'
    = Some (last20 ([] ++ [ {| i_timestamp := "2026-01-01T00:00:00";
                               i_query := "pump";
                               i_response :=
                                 PyStr.slice_to 500 "Pump control" |} ])%list)
    /\
    last20 ([] ++ [ {| i_timestamp := "2026-01-01T00:00:00";
                       i_query := "pump";
                       i_response :=
                         PyStr.slice_to 500 "Pump control" |} ])%list
    = (h0 ++ [ {| i_timestamp := "2026-01-01T00:00:00";
                  i_query := "pump";
                  i_response := PyStr.slice_to 500 "Pump control" |} ])%list
    /\
    List.length
      (last20 ([] ++ [ {| i_timestamp := "2026-01-01T00:00:00";
                          i_query := "pump";
                          i_response :=
                            PyStr.slice_to 500 "Pump control" |} ])%list)
    <= 20 /\
    forall v, v <> UStr "ann" ->
              dict_get v d' = dict_get v [(UInt 7, [])].
Proof.
exact (history_append_on_a_dictionary "2026-01-01T00:00:00"
         {| json_loader := []; resources := knowledge_base;
            conversation_history := PyDict [(UInt 7, [])] |}
         (UStr "ann") "pump" "Pump control" [(UInt 7, [])] eq_refl).
Defined.

(** X19.  Over any series of calls of [add_to_conversation_history] on a
    dictionary, for whatever users, no call raises, and the history of
    each user is in the end the last twenty of what it held before
    followed by the interactions recorded for that user, in the order of
    the calls; a user for whom nothing was recorded keeps what they
    had. *)
Theorem history_is_the_last_twenty_recorded :
  forall (calls : list (string * user_key * string * string))
         (d : list (user_key * history)) (u : user_key),
    exists d',
      record_all calls (PyDict d) = inr (PyDict d') /\
      dict_get u d'
      = match interactions_of u calls with
        | [] => dict_get u d
        | l => Some (last20
                       (match dict_get u d with Some h => h | None => [] end
                        ++ l)%list)
        end.
Proof.
intros calls. induction calls as [| [[[t k] q] r] calls IH]; intros d u.
- exists d. split; reflexivity.
- destruct (DictFacts.add_interaction_frame t k q r d) as (d1 & E1 & E2 & E3).
  destruct (IH d1 u) as (d' & R & G). exists d'.
  cbn [record_all]. rewrite E1. cbn [rbind]. split; [exact R |].
  rewrite G. unfold interactions_of. cbn [flat_map].
  fold (interactions_of u calls).
  destruct (user_key_eqb u k) eqn:K.
  + apply DictFacts.user_key_eqb_eq in K. subst k. rewrite E2.
    cbn [app].
    destruct (interactions_of u calls) as [| x l]; [reflexivity |].
    rewrite DictFacts.last20_last20_app, <- app_assoc. reflexivity.
  + apply DictFacts.user_key_eqb_neq in K. rewrite (E3 u K).
    reflexivity.
Qed.

(** X20.  [execute_special_command] never raises, whatever the store
    holds.  It answers [None] exactly for a command other than the two it
    knows.  On a list it changes nothing.  On a dictionary the command
    ["confirm_clear_chat"] with a user identifier that [if user_id]
    accepts empties the history of that user if there is one, and makes
    none if there is not; every other history, and every history under
    any other command or with a rejected identifier, is as before. *)
Theorem special_command_clears_one_history :
  forall (self : guide_state) (command : string) (user_id : option user_key),
    exists r self',
      execute_special_command self command user_id = (inr r, self') /\
      json_loader self' = json_loader self /\
      resources self' = resources self /\
      (r = None <->
       command <> "confirm_clear_chat" /\ command <> "save_settings") /\
      match conversation_history self with
      | PyList l => conversation_history self' = PyList l
      | PyDict d =>
          exists d',
            conversation_history self' = PyDict d' /\
            forall v,
              dict_get v d'
              = if String.eqb command "confirm_clear_chat"
                   && match user_id with
                      | Some u => truthy u && user_key_eqb v u
                      | None => false
                      end
                then option_map (fun _ => []) (dict_get v d)
                else dict_get v d
      end.
Proof.
intros self command user_id. unfold execute_special_command.
assert (Same : match conversation_history self with
               | PyList l => conversation_history self = PyList l
               | PyDict d =>
                   exists d',
                     conversation_history self = PyDict d' /\
                     forall v, dict_get v d' = dict_get v d
               end).
{ destruct (conversation_history self) as [l | d]; [reflexivity |].
  exists d. split; reflexivity. }
destruct (String.eqb command "confirm_clear_chat") eqn:C.
- apply String.eqb_eq in C. subst command.
  assert (R : Some "Chat history has been cleared successfully." = None <->
              "confirm_clear_chat" <> "confirm_clear_chat" /\
              "confirm_clear_chat" <> "save_settings").
  { split; [discriminate | intros [H _]; contradiction]. }
  cbn [andb].
  destruct user_id as [u |].
  2:{ eexists _, self. split; [reflexivity |]. split; [reflexivity |].
      split; [reflexivity |]. split; [exact R | exact Same]. }
  destruct (truthy u) eqn:T; cbn [andb].
  2:{ eexists _, self. split; [reflexivity |]. split; [reflexivity |].
      split; [reflexivity |]. split; [exact R | exact Same]. }
  destruct (conversation_history self) as [l | d] eqn:S.
  + cbn [contains]. eexists _, self. split; [reflexivity |].
    split; [reflexivity |]. split; [reflexivity |].
    split; [exact R | exact S].
  + rewrite HistoryFacts.contains_dict_get.
    destruct (dict_get u d) as [h |] eqn:G.
    * cbn [setitem]. eexists _, _.
      split; [reflexivity |]. split; [reflexivity |].
      split; [reflexivity |]. split; [exact R |].
      exists (dict_set u [] d). split; [reflexivity |].
      intros v. destruct (user_key_eqb v u) eqn:V.
      -- apply DictFacts.user_key_eqb_eq in V. subst v.
         rewrite HistoryFacts.dict_get_set, G. reflexivity.
      -- apply DictFacts.user_key_eqb_neq in V.
         apply DictFacts.dict_get_set_other. exact V.
    * eexists _, self. split; [reflexivity |]. split; [reflexivity |].
      split; [reflexivity |]. split; [exact R |].
      exists d. split; [exact S |].
      intros v. destruct (user_key_eqb v u) eqn:V; [| reflexivity].
      apply DictFacts.user_key_eqb_eq in V. subst v. rewrite G.
      reflexivity.
- cbn [andb]. apply String.eqb_neq in C.
  destruct (String.eqb command "save_settings") eqn:V.
  + apply String.eqb_eq in V. eexists _, self.
    split; [reflexivity |]. split; [reflexivity |].
    split; [reflexivity |]. split; [| exact Same].
    split; [discriminate | intros [_ H]; contradiction].
  + apply String.eqb_neq in V. eexists _, self.
    split; [reflexivity |]. split; [reflexivity |].
    split; [reflexivity |]. split; [| exact Same].
    split; [intros _; split; assumption | reflexivity].
Qed.

Module CounterFacts.
Import IrrigationGuide Conversation.

Definition keys (c : list (string * nat)) : list string := map fst c.

Fixpoint cnt (s : string) (c : list (string * nat)) : nat :=
  match c with
  | [] => 0
  | (k, n) :: c' => if String.eqb s k then n else cnt s c'
  end.

Lemma keys_count_one t c :
  keys (count_one t c)
  = if existsb (String.eqb t) (keys c) then keys c else (keys c ++ [t])%list.
Proof.
induction c as [| [k n] c IH]; simpl; [reflexivity |].
destruct (String.eqb t k) eqn:E; simpl; [reflexivity |].
fold (keys (count_one t c)). fold (keys c). rewrite IH.
destruct (existsb (String.eqb t) (keys c)); reflexivity.
Qed.

Lemma cnt_count_one s t c :
  cnt s (count_one t c) = if String.eqb s t then S (cnt s c) else cnt s c.
Proof.
induction c as [| [k n] c IH]; simpl.
- destruct (String.eqb s t); reflexivity.
- destruct (String.eqb t k) eqn:E; simpl.
  + apply String.eqb_eq in E. subst k.
    destruct (String.eqb s t); reflexivity.
  + destruct (String.eqb s k) eqn:F; [| exact IH].
    apply String.eqb_eq in F. subst k.
    rewrite String.eqb_sym in E. rewrite E. reflexivity.
Qed.

Lemma cnt_In y c : NoDup (keys c) -> In y c -> cnt (fst y) c = snd y.
Proof.
induction c as [| [k n] c IH]; simpl; [contradiction |].
intros N [<- | H]; simpl.
- rewrite String.eqb_refl. reflexivity.
- inversion N as [| ? ? Hk N']; subst.
  destruct (String.eqb (fst y) k) eqn:E.
  + apply String.eqb_eq in E. subst k. exfalso. apply Hk.
    apply in_map. exact H.
  + apply IH; assumption.
Qed.

Lemma existsb_eqb t l : existsb (String.eqb t) l = true <-> In t l.
Proof.
rewrite existsb_exists. split.
- intros (x & H & E). apply String.eqb_eq in E. subst. exact H.
- intros H. exists t. split; [exact H | apply String.eqb_refl].
Qed.

(** The keys of a counter stand in the order of their first
    occurrence. *)
Definition ordered (p K : list string) : Prop :=
  forall k1 a k2,
    K = (k1 ++ a :: k2)%list ->
    exists p1 p2, p = (p1 ++ a :: p2)%list /\ incl p1 k1.

Lemma Counter_snoc p t : Counter (p ++ [t]) = count_one t (Counter p).
Proof. unfold Counter. rewrite fold_left_app. reflexivity. Qed.

Lemma Counter_spec p :
  NoDup (keys (Counter p)) /\
  (forall s, cnt s (Counter p) = count_occ string_dec p s) /\
  (forall s, In s (keys (Counter p)) <-> In s p) /\
  ordered p (keys (Counter p)).
Proof.
induction p as [| t p (N & C & K & O)] using rev_ind.
- split; [constructor |]. split; [reflexivity |].
  split; [reflexivity |].
  intros k1 a k2 H. destruct k1; discriminate.
- rewrite Counter_snoc, keys_count_one.
  assert (C' : forall s, cnt s (count_one t (Counter p))
                         = count_occ string_dec (p ++ [t]) s).
  { intros s. rewrite cnt_count_one, count_occ_app, C. simpl.
    destruct (string_dec t s) as [-> | D].
    - rewrite String.eqb_refl. lia.
    - destruct (String.eqb s t) eqn:E; [| lia].
      apply String.eqb_eq in E. congruence. }
  destruct (existsb (String.eqb t) (keys (Counter p))) eqn:M.
  + apply existsb_eqb in M. split; [exact N |]. split; [exact C' |].
    split.
    * intros s. rewrite K, in_app_iff. simpl. split; [tauto |].
      intros [H | [<- | []]]; [exact H | apply K; exact M].
    * intros k1 a k2 H. destruct (O k1 a k2 H) as (p1 & p2 & -> & I).
      exists p1, (p2 ++ [t])%list. split; [| exact I].
      rewrite <- app_assoc. reflexivity.
  + assert (Ht : ~ In t (keys (Counter p))).
    { intros H. apply existsb_eqb in H. congruence. }
    split.
    { apply NoDup_app; [exact N | repeat constructor; intros [] |].
      intros x Hx [<- | []]. exact (Ht Hx). }
    split; [exact C' |]. split.
    * intros s. rewrite !in_app_iff, K. reflexivity.
    * intros k1 a k2 H.
      destruct (exists_last (l := a :: k2)) as (k2' & x & E);
        [discriminate |].
      rewrite E, app_assoc in H. apply app_inj_tail in H.
      destruct H as [H <-].
      destruct k2 as [| b k2].
      -- destruct k2' as [| ? [| ? ?]]; try discriminate.
         injection E as ->. simpl in H. rewrite app_nil_r in H.
         exists p, []. split; [reflexivity |].
         intros s Hs. rewrite <- H. apply K. exact Hs.
      -- destruct k2' as [| a' k2']; [destruct k2; discriminate |].
         injection E as <- E.
         destruct (O k1 a k2' H) as (p1 & p2 & -> & I).
         exists p1, (p2 ++ [t])%list. split; [| exact I].
         rewrite <- app_assoc. reflexivity.
Qed.

(** [first_max]: the first of the items of greatest count. *)
Lemma first_max_spec items :
  forall pre best mid,
    (forall y, In y pre -> snd y < snd best) ->
    (forall y, In y mid -> snd y <= snd best) ->
    exists k1 k2,
      (pre ++ best :: mid ++ items)%list
      = (k1 ++ first_max best items :: k2)%list /\
      (forall y, In y k1 -> snd y < snd (first_max best items)) /\
      (forall y, In y k2 -> snd y <= snd (first_max best items)).
Proof.
induction items as [| x items IH]; intros pre best mid Hpre Hmid.
- exists pre, mid. rewrite app_nil_r. simpl. auto.
- simpl first_max. destruct (snd best <? snd x) eqn:L.
  + apply Nat.ltb_lt in L.
    destruct (IH (pre ++ best :: mid)%list x []) as (k1 & k2 & E & H1 & H2).
    * intros y Hy. apply in_app_or in Hy. destruct Hy as [Hy | [<- | Hy]].
      -- specialize (Hpre y Hy). lia.
      -- exact L.
      -- specialize (Hmid y Hy). lia.
    * intros y [].
    * exists k1, k2. split; [| split; assumption].
      rewrite <- E. rewrite <- !app_assoc. simpl. reflexivity.
  + apply Nat.ltb_ge in L.
    destruct (IH pre best (mid ++ [x])%list) as (k1 & k2 & E & H1 & H2).
    * exact Hpre.
    * intros y Hy. apply in_app_or in Hy. destruct Hy as [Hy | [<- | []]].
      -- exact (Hmid y Hy).
      -- exact L.
    * exists k1, k2. split; [| split; assumption].
      rewrite <- E. rewrite <- !app_assoc. simpl. reflexivity.
Qed.

Lemma topic_of_known q t :
  topic_of q = Some t ->
  In t ["control"; "scheduling"; "troubleshooting"; "conservation";
        "monitoring"].
Proof.
unfold topic_of.
repeat match goal with
       | |- context [if ?b then _ else _] => destruct b
       end; intros H; try discriminate; injection H as <-; simpl; tauto.
Qed.

Lemma topics_of_known h t :
  In t (topics_of h) ->
  In t ["control"; "scheduling"; "troubleshooting"; "conservation";
        "monitoring"].
Proof.
unfold topics_of. rewrite in_flat_map. intros (conv & _ & H).
destruct (topic_of (PyStr.lower (i_query conv))) as [t' |] eqn:E;
  [| contradiction].
destruct H as [<- | []]. exact (topic_of_known _ _ E).
Qed.

(** What [most_common(1)] picks from the counter of a list. *)
Lemma most_common_spec (l : list string) :
  l <> [] ->
  exists a n l1 l2,
    most_common_1 (Counter l) = [(a, n)] /\
    l = (l1 ++ a :: l2)%list /\
    (forall t, In t l1 ->
               count_occ string_dec l t < count_occ string_dec l a) /\
    (forall t, count_occ string_dec l t <= count_occ string_dec l a).
Proof.
intros Hl. destruct (Counter_spec l) as (N & C & K & O).
destruct (Counter l) as [| x c] eqn:E.
{ exfalso. destruct l as [| t l]; [congruence |].
  destruct (proj2 (K t) (or_introl eq_refl)). }
destruct (first_max_spec c [] x []) as (k1 & k2 & S & H1 & H2);
  try (intros y []).
simpl in S. set (e := first_max x c) in *.
assert (V : forall y, In y (x :: c) ->
                      snd y = count_occ string_dec l (fst y)).
{ intros y Hy. rewrite <- C. symmetry. apply cnt_In; assumption. }
assert (Ie : In e (x :: c)).
{ rewrite S. apply in_or_app. right. left. reflexivity. }
destruct (O (keys k1) (fst e) (keys k2)) as (l1 & l2 & El & I).
{ rewrite S. unfold keys. rewrite map_app. reflexivity. }
exists (fst e), (snd e), l1, l2.
split; [rewrite <- surjective_pairing; reflexivity |].
split; [exact El |]. split.
- intros t Ht. apply I in Ht. unfold keys in Ht. apply in_map_iff in Ht.
  destruct Ht as (y & <- & Hy).
  assert (Iy : In y (x :: c)).
  { rewrite S. apply in_or_app. left. exact Hy. }
  rewrite <- (V y Iy), <- (V e Ie). exact (H1 y Hy).
- intros t. destruct (in_dec string_dec t l) as [Ht | Ht].
  + apply K in Ht. unfold keys in Ht. apply in_map_iff in Ht.
    destruct Ht as (y & <- & Hy).
    rewrite <- (V y Hy), <- (V e Ie).
    rewrite S in Hy. apply in_app_or in Hy.
    destruct Hy as [Hy | [<- | Hy]].
    * specialize (H1 y Hy). lia.
    * lia.
    * exact (H2 y Hy).
  + apply (count_occ_not_In string_dec) in Ht. rewrite Ht. lia.
Qed.
End CounterFacts.

Module ContextFacts.
Import IrrigationGuide Conversation.

Lemma slice_last_spec {A} (m : Z) (h : list A) :
  slice_last m h
  = skipn (List.length h
           - (if (m =? 0)%Z then List.length h
              else if (0 <? m)%Z then Nat.min (Z.to_nat m) (List.length h)
                   else List.length h - Z.to_nat (- m)))
          h.
Proof.
unfold slice_last.
destruct (Z.eqb_spec m 0) as [-> | Hm].
- simpl. rewrite Nat.sub_diag. reflexivity.
- destruct (Z.ltb_spec (- m) 0) as [L | L];
    destruct (Z.ltb_spec 0 m) as [P | P]; try lia.
  + f_equal. lia.
  + destruct (Nat.le_gt_cases (Z.to_nat (- m)) (List.length h)) as [Q | Q].
    * f_equal. lia.
    * rewrite !skipn_all2 by lia. reflexivity.
Qed.
End ContextFacts.

(** X21.  [get_conversation_context] never raises.  It answers the
    empty string when the store is a list, whatever the list holds, and
    when the user has no history in a dictionary.  For a user with a
    history it lists its last [max_interactions] entries, all of them
    when there are fewer; with [max_interactions = 0] the slice [[-0:]]
    is the whole history, so everything is listed, not nothing; a
    negative [max_interactions] drops that many entries from the
    front. *)
Theorem conversation_context_lists_the_last_interactions :
  forall (self : guide_state) (u : user_key) (m : Z),
    exists s,
      get_conversation_context self u m = inr s /\
      (forall l, conversation_history self = PyList l -> s = "") /\
      (forall d, conversation_history self = PyDict d ->
                 dict_get u d = None -> s = "") /\
      (forall d h,
          conversation_history self = PyDict d ->
          dict_get u d = Some h ->
          let n := if (m =? 0)%Z then List.length h
                   else if (0 <? m)%Z
                        then Nat.min (Z.to_nat m) (List.length h)
                        else List.length h - Z.to_nat (- m) in
          s = "Recent conversation history:" ++ nl
              ++ context_lines 0 (skipn (List.length h - n) h)).
Proof.
intros self u m. unfold get_conversation_context.
destruct (conversation_history self) as [l | d].
- exists "". cbn [contains negb]. split; [reflexivity |].
  split; [reflexivity |]. split; intros; discriminate.
- rewrite HistoryFacts.contains_dict_get. cbn [getitem].
  destruct (dict_get u d) as [h |] eqn:G; cbn [negb rbind].
  + eexists. split; [reflexivity |]. split; [intros; discriminate |].
    split.
    * intros d0 E0 G0. injection E0 as <-. congruence.
    * intros d0 h0 E0 G0. injection E0 as <-.
      rewrite G in G0. injection G0 as <-.
      rewrite ContextFacts.slice_last_spec. reflexivity.
  + exists "". split; [reflexivity |]. split; [reflexivity |].
    split; [reflexivity |].
    intros d0 h0 E0 G0. injection E0 as <-. congruence.
Qed.

(** X22.  On an object made by [__init__], whatever calls of
    [get_help_response], [execute_special_command] and
    [add_to_conversation_history] were made on it, the two readers of the
    history find nothing: [get_conversation_context] answers the empty
    string and [analyze_conversation_patterns] answers [None], for every
    user. *)
Theorem readers_find_no_history :
  forall (random_choice : list string -> string) (now : string)
         (get_close_matches : string -> list string -> nat -> Q -> list string)
         (loaded : JSONIntentLoader.intents_table) (calls : list call)
         (u : user_key) (m : Z),
    let self := snd (run random_choice now get_close_matches
                         (__init__ loaded) calls) in
    get_conversation_context self u m = inr "" /\
    analyze_conversation_patterns self u = inr None.
Proof.
intros random_choice now get_close_matches loaded calls u m self.
assert (E : self = __init__ loaded).
{ apply (HistoryFacts.run_stable random_choice now get_close_matches).
  reflexivity. }
rewrite E. split; reflexivity.
Qed.

(** X23.  [analyze_conversation_patterns] never raises.  When it answers
    with an analysis, the user has at least three interactions in a
    dictionary, the interest area is a topic of one of the last five
    queries and no topic occurs more often among them; of the topics that
    occur as often it is the one met first; and the recommendations are
    the two written for that area.  It answers [None] for a user with
    three interactions or more only if none of the last five queries
    names a topic. *)
Theorem interest_area_is_the_most_frequent_topic :
  forall (self : guide_state) (u : user_key),
    exists r,
      analyze_conversation_patterns self u = inr r /\
      match r with
      | Some a =>
          exists d h l1 l2,
            conversation_history self = PyDict d /\
            dict_get u d = Some h /\ 3 <= List.length h /\
            topics_of h = (l1 ++ interest_area a :: l2)%list /\
            (forall t, In t l1 ->
                       count_occ string_dec (topics_of h) t
                       < count_occ string_dec (topics_of h)
                                   (interest_area a)) /\
            (forall t, count_occ string_dec (topics_of h) t
                       <= count_occ string_dec (topics_of h)
                                    (interest_area a)) /\
            In (interest_area a, pa_recommendations a) recommendations /\
            List.length (pa_recommendations a) = 2
      | None =>
          forall d h,
            conversation_history self = PyDict d ->
            dict_get u d = Some h -> 3 <= List.length h ->
            topics_of h = []
      end.
Proof.
intros self u. unfold analyze_conversation_patterns.
destruct (conversation_history self) as [l | d].
{ exists None. split; [reflexivity | intros; discriminate]. }
rewrite HistoryFacts.contains_dict_get. cbn [getitem].
destruct (dict_get u d) as [h |] eqn:G; cbn [negb rbind].
2:{ exists None. split; [reflexivity |].
    intros d0 h0 E0 G0. injection E0 as <-. congruence. }
destruct (List.length h <? 3) eqn:L.
{ exists None. split; [reflexivity |].
  intros d0 h0 E0 G0 L0. injection E0 as <-.
  rewrite G in G0. injection G0 as <-.
  apply Nat.ltb_lt in L. lia. }
apply Nat.ltb_ge in L.
destruct (topics_of h) as [| t0 ts] eqn:T.
{ exists None. split; [reflexivity |].
  intros d0 h0 E0 G0 _. injection E0 as <-.
  rewrite G in G0. injection G0 as <-. exact T. }
destruct (CounterFacts.most_common_spec (t0 :: ts))
  as (a & n & l1 & l2 & M & El & H1 & H2); [discriminate |].
rewrite M. eexists. split; [reflexivity |].
exists d, h, l1, l2. cbn [interest_area pa_recommendations].
split; [reflexivity |]. split; [exact G |]. split; [exact L |].
rewrite T. split; [exact El |]. split; [exact H1 |]. split; [exact H2 |].
assert (Ka : In a (topics_of h)).
{ rewrite T. rewrite El. apply in_or_app. right. left. reflexivity. }
apply CounterFacts.topics_of_known in Ka.
simpl in Ka.
destruct Ka as [<- | [<- | [<- | [<- | [<- | []]]]]];
  (split; [vm_compute; tauto | reflexivity]).
Qed.

From Stdlib Require Import Sorted Permutation.

Module StringOrder.

Lemma ascii_compare_lt_trans a b c :
  Ascii.compare a b = Lt -> Ascii.compare b c = Lt -> Ascii.compare a c = Lt.
Proof.
unfold Ascii.compare. rewrite !N.compare_lt_iff. apply N.lt_trans.
Qed.

Lemma compare_lt_trans s1 :
  forall s2 s3,
    String.compare s1 s2 = Lt -> String.compare s2 s3 = Lt ->
    String.compare s1 s3 = Lt.
Proof.
induction s1 as [| a s1 IH]; intros [| b s2] [| c s3]; simpl;
  try discriminate; try reflexivity.
destruct (Ascii.compare a b) eqn:E1; try discriminate;
  destruct (Ascii.compare b c) eqn:E2; try discriminate; intros H1 H2.
- apply Ascii.compare_eq_iff in E1, E2. subst.
  replace (Ascii.compare c c) with Eq.
  + exact (IH _ _ H1 H2).
  + symmetry. unfold Ascii.compare. apply N.compare_refl.
- apply Ascii.compare_eq_iff in E1. subst. rewrite E2. reflexivity.
- apply Ascii.compare_eq_iff in E2. subst. rewrite E1. reflexivity.
- rewrite (ascii_compare_lt_trans a b c E1 E2). reflexivity.
Qed.

Lemma compare_refl s : String.compare s s = Eq.
Proof.
induction s as [| a s IH]; simpl; [reflexivity |].
replace (Ascii.compare a a) with Eq; [exact IH |].
symmetry. unfold Ascii.compare. apply N.compare_refl.
Qed.

Lemma leb_trans s1 s2 s3 :
  String.leb s1 s2 = true -> String.leb s2 s3 = true ->
  String.leb s1 s3 = true.
Proof.
unfold String.leb.
destruct (String.compare s1 s2) eqn:E1; try discriminate;
  destruct (String.compare s2 s3) eqn:E2; try discriminate; intros _ _.
- apply String.compare_eq_iff in E1, E2. subst.
  rewrite compare_refl. reflexivity.
- apply String.compare_eq_iff in E1. subst. rewrite E2. reflexivity.
- apply String.compare_eq_iff in E2. subst. rewrite E1. reflexivity.
- rewrite (compare_lt_trans _ _ _ E1 E2). reflexivity.
Qed.

Lemma ltb_leb s1 s2 : String.ltb s1 s2 = true -> String.leb s1 s2 = true.
Proof.
unfold String.ltb, String.leb. destruct (String.compare s1 s2);
  congruence.
Qed.

Lemma ltb_false_leb s1 s2 :
  String.ltb s1 s2 = false -> String.leb s2 s1 = true.
Proof.
unfold String.ltb, String.leb. rewrite (String.compare_antisym s2 s1).
destruct (String.compare s1 s2); simpl; congruence.
Qed.
End StringOrder.

Module ListingFacts.
Import IrrigationGuide Listing ListingSpec.

Lemma key_le_trans x y z : key_le x y -> key_le y z -> key_le x z.
Proof.
unfold key_le. intros [H1 | [E1 L1]] [H2 | [E2 L2]].
- left. lia.
- left. lia.
- left. lia.
- right. split; [lia |]. exact (StringOrder.leb_trans _ _ _ L1 L2).
Qed.

Lemma key_lt_le x y : key_lt x y = true -> key_le x y.
Proof.
unfold key_lt, key_le.
destruct (Z.eqb_spec (- l_importance x) (- l_importance y)) as [E | E].
- intros H. right. split; [lia | apply StringOrder.ltb_leb; exact H].
- intros H. apply Z.ltb_lt in H. left. lia.
Qed.

Lemma key_lt_false x y : key_lt y x = false -> key_le x y.
Proof.
unfold key_lt, key_le.
destruct (Z.eqb_spec (- l_importance y) (- l_importance x)) as [E | E].
- intros H. right. split; [lia | apply StringOrder.ltb_false_leb; exact H].
- intros H. apply Z.ltb_ge in H. left. lia.
Qed.

Lemma insert_by_key_perm x l : Permutation (x :: l) (insert_by_key x l).
Proof.
induction l as [| y l IH]; simpl; [reflexivity |].
destruct (key_lt y x); [| reflexivity].
rewrite perm_swap. apply perm_skip. exact IH.
Qed.

Lemma sort_by_key_perm l : Permutation l (sort_by_key l).
Proof.
induction l as [| x l IH]; simpl; [reflexivity |].
rewrite <- insert_by_key_perm. apply perm_skip. exact IH.
Qed.

Lemma insert_by_key_sorted x l :
  StronglySorted key_le l -> StronglySorted key_le (insert_by_key x l).
Proof.
induction l as [| y l IH]; simpl; intros S.
- repeat constructor.
- inversion S as [| ? ? S' F]; subst.
  destruct (key_lt y x) eqn:E.
  + constructor; [apply IH; exact S' |].
    rewrite <- (insert_by_key_perm x l). constructor; [| exact F].
    apply key_lt_le. exact E.
  + apply key_lt_false in E. constructor; [exact S |].
    constructor; [exact E |].
    revert F. apply Forall_impl. intros z Hz.
    exact (key_le_trans _ _ _ E Hz).
Qed.

Lemma sort_by_key_sorted l : StronglySorted key_le (sort_by_key l).
Proof.
induction l as [| x l IH]; simpl; [constructor |].
apply insert_by_key_sorted. exact IH.
Qed.

(** What the loops gather, when no description is missing. *)
Definition rows (category_filter : option string) (rt : ResourceType)
           (t : table) : list listed :=
  flat_map (fun e =>
              if filtered_out category_filter (snd e) then []
              else match description (snd e) with
                   | Some d => [row rt (fst e) (snd e) d]
                   | None => []
                   end)
           t.

Definition complete (category_filter : option string) (t : table) : Prop :=
  forall name data,
    In (name, data) t -> filtered_out category_filter data = false ->
    description data <> None.

Lemma list_table_cases f rt t :
  forall acc,
    (complete f t /\ list_table f rt t acc = inr (acc ++ rows f rt t)%list) \/
    (list_table f rt t acc = inl KeyError /\
     exists name data,
       In (name, data) t /\ filtered_out f data = false /\
       description data = None).
Proof.
induction t as [| [name data] t IH]; intros acc.
- left. split; [intros ? ? [] | simpl; rewrite app_nil_r; reflexivity].
- cbn [list_table rows flat_map fst snd].
  destruct (filtered_out f data) eqn:F.
  + destruct (IH acc) as [[C E] | [E (n & d & I & F' & D)]].
    * left. split; [| exact E].
      intros n d [H | H] F'; [| exact (C n d H F')].
      injection H as <- <-. congruence.
    * right. split; [exact E |]. exists n, d. simpl. auto.
  + destruct (description data) as [d |] eqn:D; cbn [required rbind].
    * fold (row rt name data d).
      destruct (IH (acc ++ [row rt name data d])%list)
        as [[C E] | [E (n & d' & I & F' & D')]].
      -- left. split.
         ++ intros n d' [H | H] F'; [| exact (C n d' H F')].
            injection H as <- <-. congruence.
         ++ rewrite E, <- app_assoc. reflexivity.
      -- right. split; [exact E |]. exists n, d'. simpl. auto.
    * right. split; [reflexivity |]. exists name, data. simpl. auto.
Qed.

Definition rows_of (rs : ResourceType -> table)
           (category_filter : option string) (types : list ResourceType)
  : list listed :=
  flat_map (fun rt => if ResourceType_eqb rt CHAT then []
                      else rows category_filter rt (rs rt))
           types.

Lemma ResourceType_eqb_eq a b : ResourceType_eqb a b = true <-> a = b.
Proof. destruct a, b; simpl; split; congruence. Qed.

Lemma list_types_cases rs f types :
  forall acc,
    ((forall rt, In rt types -> rt <> CHAT -> complete f (rs rt)) /\
     list_types rs f types acc = inr (acc ++ rows_of rs f types)%list) \/
    (list_types rs f types acc = inl KeyError /\
     exists rt name data,
       In rt types /\ rt <> CHAT /\ In (name, data) (rs rt) /\
       filtered_out f data = false /\ description data = None).
Proof.
induction types as [| rt types IH]; intros acc.
- left. split; [intros ? [] | simpl; rewrite app_nil_r; reflexivity].
- cbn [list_types rows_of flat_map].
  destruct (ResourceType_eqb rt CHAT) eqn:C.
  + apply ResourceType_eqb_eq in C. subst rt.
    destruct (IH acc) as [[A E] | [E (r & n & d & I & N & R)]].
    * left. split; [| exact E].
      intros r [<- | H] N; [congruence | exact (A r H N)].
    * right. split; [exact E |]. exists r, n, d. simpl. auto.
  + assert (N : rt <> CHAT).
    { intros ->. simpl in C. discriminate. }
    destruct (list_table_cases f rt (rs rt) acc)
      as [[A E] | [E (n & d & R)]].
    * rewrite E. cbn [rbind].
      destruct (IH (acc ++ rows f rt (rs rt))%list)
        as [[A' E'] | [E' (r & n & d & I & N' & R)]].
      -- left. split.
         ++ intros r [<- | H] N'; [exact A | exact (A' r H N')].
         ++ rewrite E', <- app_assoc. reflexivity.
      -- right. split; [exact E' |]. exists r, n, d. simpl. auto.
    * right. rewrite E. split; [reflexivity |].
      exists rt, n, d. simpl. auto.
Qed.

Lemma all_types_all rt : In rt all_types.
Proof. destruct rt; simpl; tauto. Qed.

Lemma In_rows f rt t x :
  In x (rows f rt t) <->
  exists name data d,
    In (name, data) t /\ filtered_out f data = false /\
    description data = Some d /\ x = row rt name data d.
Proof.
unfold rows. rewrite in_flat_map. split.
- intros ([name data] & I & H). cbn [fst snd] in H.
  destruct (filtered_out f data) eqn:F; [contradiction |].
  destruct (description data) as [d |] eqn:D; [| contradiction].
  destruct H as [<- | []]. exists name, data, d. auto.
- intros (name & data & d & I & F & D & ->). exists (name, data).
  split; [exact I |]. cbn [fst snd]. rewrite F, D. left. reflexivity.
Qed.

Lemma In_rows_of rs f x :
  In x (rows_of rs f all_types) <->
  exists rt name data d,
    selected rs f rt name data /\ description data = Some d /\
    x = row rt name data d.
Proof.
unfold rows_of, selected. rewrite in_flat_map. split.
- intros (rt & _ & H).
  destruct (ResourceType_eqb rt CHAT) eqn:C; [contradiction |].
  apply In_rows in H. destruct H as (name & data & d & I & F & D & ->).
  exists rt, name, data, d. repeat split; try assumption.
  intros ->. simpl in C. discriminate.
- intros (rt & name & data & d & (N & I & F) & D & ->).
  exists rt. split; [apply all_types_all |].
  destruct (ResourceType_eqb rt CHAT) eqn:C.
  + apply ResourceType_eqb_eq in C. contradiction.
  + apply In_rows. exists name, data, d. auto.
Qed.

(** The two outcomes of [get_all_resources]. *)
Lemma get_all_resources_cases rs f :
  ((forall rt name data,
       selected rs f rt name data -> description data <> None) /\
   get_all_resources rs f = inr (sort_by_key (rows_of rs f all_types))) \/
  (get_all_resources rs f = inl KeyError /\
   exists rt name data,
     selected rs f rt name data /\ description data = None).
Proof.
unfold get_all_resources, selected.
destruct (list_types_cases rs f all_types [])
  as [[A E] | [E (rt & n & d & I & N & R & F & D)]].
- left. rewrite E. split; [| reflexivity].
  intros rt name data (N & I & F).
  exact (A rt (all_types_all rt) N name data I F).
- right. rewrite E. split; [reflexivity |]. exists rt, n, d. auto.
Qed.

Lemma get_all_resources_inr rs f l :
  get_all_resources rs f = inr l ->
  l = sort_by_key (rows_of rs f all_types).
Proof.
intros H. destruct (get_all_resources_cases rs f) as [[_ E] | [E _]];
  congruence.
Qed.
End ListingFacts.

Import IrrigationGuide Listing ListingSpec.

(** X24.  When [get_all_resources] returns, the listing holds exactly
    the resources selected: an entry for every resource of a type other
    than the chat responses that the category filter lets through, made
    of its name, description, icon, type, category and importance with
    the defaults of the code, and no other entry; each of these resources
    has a description. *)
Theorem listing_holds_the_selected_resources :
  forall (rs : ResourceType -> table) (category_filter : option string)
         (l : list listed),
    get_all_resources rs category_filter = inr l ->
    (forall rt name data,
        selected rs category_filter rt name data ->
        exists d, description data = Some d /\ In (row rt name data d) l) /\
    (forall x,
        In x l ->
        exists rt name data d,
          selected rs category_filter rt name data /\
          description data = Some d /\ x = row rt name data d).
Proof.
intros rs f l H.
destruct (ListingFacts.get_all_resources_cases rs f) as [[A E] | [E _]];
  [| congruence].
rewrite E in H. injection H as <-. split.
- intros rt name data S.
  destruct (description data) as [d |] eqn:D.
  + exists d. split; [reflexivity |].
    apply (Permutation_in _ (ListingFacts.sort_by_key_perm _)).
    apply ListingFacts.In_rows_of. exists rt, name, data, d. auto.
  + exfalso. exact (A rt name data S D).
- intros x Hx. apply ListingFacts.In_rows_of.
  apply (Permutation_in _ (Permutation_sym (ListingFacts.sort_by_key_perm _))).
  exact Hx.
Qed.

Lemma listing_holds_the_selected_resources_witness :
  get_all_resources knowledge_base (Some "Legal") = inr legal_pages /\
  (forall rt name data,
      selected knowledge_base (Some "Legal") rt name data ->
      exists d, description data = Some d /\
                In (row rt name data d) legal_pages) /\
  (forall x,
      In x legal_pages ->
      exists rt name data d,
        selected knowledge_base (Some "Legal") rt name data /\
        description data = Some d /\ x = row rt name data d).
Proof.
assert (H : get_all_resources knowledge_base (Some "Legal")
            = inr legal_pages).
{ vm_compute. reflexivity. }
split; [exact H |].
exact (listing_holds_the_selected_resources knowledge_base (Some "Legal")
         legal_pages H).
Defined.

(** X25.  The listing that [get_all_resources] returns is sorted: the
    greater importance first and, among entries of equal importance, the
    names in the order of their characters. *)
Theorem listing_is_sorted :
  forall (rs : ResourceType -> table) (category_filter : option string)
         (l : list listed),
    get_all_resources rs category_filter = inr l ->
    StronglySorted key_le l.
Proof.
intros rs f l H. apply ListingFacts.get_all_resources_inr in H. subst l.
apply ListingFacts.sort_by_key_sorted.
Qed.

Lemma listing_is_sorted_witness :
  get_all_resources knowledge_base (Some "Legal") = inr legal_pages /\
  StronglySorted key_le legal_pages.
Proof.
assert (H : get_all_resources knowledge_base (Some "Legal")
            = inr legal_pages).
{ vm_compute. reflexivity. }
split; [exact H |].
exact (listing_is_sorted knowledge_base (Some "Legal") legal_pages H).
Defined.

(** X26.  The listing never shows a chat response, and with a category
    filter that is not empty every entry is of that category. *)
Theorem listing_has_no_chat_and_respects_the_filter :
  forall (rs : ResourceType -> table) (category_filter : option string)
         (l : list listed),
    get_all_resources rs category_filter = inr l ->
    Forall (fun x =>
              l_type x <> value CHAT /\
              forall f, category_filter = Some f -> f <> "" ->
                        l_category x = f)
           l.
Proof.
intros rs cf l H. apply ListingFacts.get_all_resources_inr in H. subst l.
apply Forall_forall. intros x Hx.
apply (Permutation_in _ (Permutation_sym (ListingFacts.sort_by_key_perm _)))
  in Hx.
apply ListingFacts.In_rows_of in Hx.
destruct Hx as (rt & name & data & d & (N & _ & F) & _ & ->). split.
- destruct rt; simpl; congruence.
- intros f -> Hf. unfold filtered_out in F. cbn [row l_category].
  apply String.eqb_neq in Hf. rewrite Hf in F. cbn [negb andb] in F.
  destruct (category data) as [c |]; [| discriminate].
  apply negb_false_iff, String.eqb_eq in F. exact F.
Qed.

Lemma listing_has_no_chat_and_respects_the_filter_witness :
  get_all_resources knowledge_base (Some "Legal") = inr legal_pages /\
  Forall (fun x =>
            l_type x <> value CHAT /\
            forall f, Some "Legal" = Some f -> f <> "" -> l_category x = f)
         legal_pages.
Proof.
assert (H : get_all_resources knowledge_base (Some "Legal")
            = inr legal_pages).
{ vm_compute. reflexivity. }
split; [exact H |].
exact (listing_has_no_chat_and_respects_the_filter knowledge_base
         (Some "Legal") legal_pages H).
Defined.

(** X27.  [get_all_resources] raises exactly when a resource that it
    selects has no description, and then it raises [KeyError]: no other
    key is read without a default. *)
Theorem listing_fails_only_on_a_missing_description :
  forall (rs : ResourceType -> table) (category_filter : option string),
    ((exists e, get_all_resources rs category_filter = inl e) <->
     (exists rt name data,
         selected rs category_filter rt name data /\
         description data = None)) /\
    (forall e, get_all_resources rs category_filter = inl e ->
               e = KeyError).
Proof.
intros rs f.
destruct (ListingFacts.get_all_resources_cases rs f)
  as [[A E] | [E (rt & n & d & S & D)]].
- split.
  + split.
    * intros (e & H). congruence.
    * intros (rt & n & d & S & D). exfalso. exact (A rt n d S D).
  + intros e H. congruence.
- split.
  + split.
    * intros _. exists rt, n, d. auto.
    * intros _. exists KeyError. exact E.
  + intros e H. congruence.
Qed.

Module KnowledgeBaseListing.

Definition described (t : table) : bool :=
  forallb (fun e => match description (snd e) with
                    | Some _ => true
                    | None => false
                    end) t.

Lemma described_In t name data :
  described t = true -> In (name, data) t -> description data <> None.
Proof.
unfold described. rewrite forallb_forall. intros H I.
specialize (H _ I). cbn [snd] in H.
destruct (description data); [discriminate | discriminate].
Qed.

Lemma knowledge_base_described rt :
  rt <> CHAT -> described (knowledge_base rt) = true.
Proof.
intros N. destruct rt; try contradiction; vm_compute; reflexivity.
Qed.

Lemma rows_length f rt t :
  List.length (ListingFacts.rows f rt t)
  <= List.length (ListingFacts.rows None rt t).
Proof.
induction t as [| [name data] t IH]; simpl; [lia |].
rewrite !length_app.
destruct (filtered_out f data); simpl; [lia |].
destruct (description data); simpl; lia.
Qed.

Lemma rows_of_length f types :
  List.length (ListingFacts.rows_of knowledge_base f types)
  <= List.length (ListingFacts.rows_of knowledge_base None types).
Proof.
induction types as [| rt types IH]; simpl; [lia |].
rewrite !length_app.
destruct (ResourceType_eqb rt CHAT); simpl; [lia |].
pose proof (rows_length f rt (knowledge_base rt)). lia.
Qed.
End KnowledgeBaseListing.

(** X28.  On the resources that [__init__] loads, [get_all_resources]
    never raises, whatever the filter: every resource other than a chat
    response has a description.  Without a filter the listing has 44
    entries, with one it has at most as many. *)
Theorem listing_of_the_knowledge_base :
  forall category_filter : option string,
    exists l,
      get_all_resources knowledge_base category_filter = inr l /\
      List.length l <= 44 /\
      (category_filter = None \/ category_filter = Some "" ->
       List.length l = 44).
Proof.
intros f.
destruct (ListingFacts.get_all_resources_cases knowledge_base f)
  as [[A E] | [E (rt & n & d & (N & I & F) & D)]].
- eexists. split; [exact E |].
  rewrite <- (Permutation_length (ListingFacts.sort_by_key_perm _)).
  assert (L : List.length (ListingFacts.rows_of knowledge_base None all_types)
              = 44).
  { vm_compute. reflexivity. }
  split.
  + rewrite <- L. apply KnowledgeBaseListing.rows_of_length.
  + intros [-> | ->]; [exact L |]. vm_compute. reflexivity.
- exfalso.
  exact (KnowledgeBaseListing.described_In _ n d
           (KnowledgeBaseListing.knowledge_base_described rt N) I D).
Qed.

Module UserDataFacts.
Import IrrigationGuide UserData.

Section Values.
Context {V : Type}.
Implicit Types (d : user_dict V) (s : settings V).

Lemma lookup_assign u s d : lookup u (assign u s d) = Some s.
Proof.
induction d as [| [k s'] d IH]; simpl.
- rewrite HistoryFacts.user_key_eqb_refl. reflexivity.
- destruct (user_key_eqb u k) eqn:E; simpl; rewrite E;
    [reflexivity | exact IH].
Qed.

Lemma lookup_assign_other u' u s d :
  u' <> u -> lookup u' (assign u s d) = lookup u' d.
Proof.
intros H. apply DictFacts.user_key_eqb_neq in H.
induction d as [| [k s'] d IH]; simpl.
- rewrite H. reflexivity.
- destruct (user_key_eqb u k) eqn:E; simpl.
  + apply DictFacts.user_key_eqb_eq in E. subst k. rewrite H. reflexivity.
  + destruct (user_key_eqb u' k); [reflexivity | exact IH].
Qed.

Lemma member_lookup u d :
  member u d = match lookup u d with Some _ => true | None => false end.
Proof.
induction d as [| [k s'] d IH]; simpl; [reflexivity |].
destruct (user_key_eqb u k); simpl; [reflexivity | exact IH].
Qed.

Lemma get_set_key k v s : JSONIntentLoader.get k (set_key k v s) = Some v.
Proof.
induction s as [| [k' v'] s IH]; simpl.
- rewrite String.eqb_refl. reflexivity.
- destruct (String.eqb k k') eqn:E; simpl; rewrite E;
    [reflexivity | exact IH].
Qed.

Lemma get_set_key_other k' k v s :
  k' <> k ->
  JSONIntentLoader.get k' (set_key k v s) = JSONIntentLoader.get k' s.
Proof.
intros H. apply String.eqb_neq in H.
induction s as [| [k0 v0] s IH]; simpl.
- rewrite H. reflexivity.
- destruct (String.eqb k k0) eqn:E; simpl.
  + apply String.eqb_eq in E. subst k0. rewrite H. reflexivity.
  + destruct (String.eqb k' k0); [reflexivity | exact IH].
Qed.

(** After [s.update(other)] a key holds what its last pair in [other]
    gives it, and what it held in [s] when [other] has none. *)
Lemma get_update k other :
  forall s,
    JSONIntentLoader.get k (update s other)
    = match JSONIntentLoader.get k (rev other) with
      | Some v => Some v
      | None => JSONIntentLoader.get k s
      end.
Proof.
induction other as [| [k0 v0] other IH] using rev_ind; intros s.
- reflexivity.
- unfold update. rewrite fold_left_app, rev_app_distr. cbn.
  fold (update s other).
  destruct (String.eqb k k0) eqn:E.
  + apply String.eqb_eq in E. subst k0. apply get_set_key.
  + apply String.eqb_neq in E. rewrite (get_set_key_other k k0 v0 _ E).
    apply IH.
Qed.

(** The entry of the user once the first statement has run. *)
Lemma entry_made u d :
  at_user u (if negb (member u d) then assign u [] d else d)
  = inr (match lookup u d with Some s => s | None => [] end) /\
  forall u', u' <> u ->
    lookup u' (if negb (member u d) then assign u [] d else d)
    = lookup u' d.
Proof.
rewrite member_lookup. unfold at_user.
destruct (lookup u d) as [s |] eqn:E; cbn [negb].
- rewrite E. split; reflexivity.
- rewrite lookup_assign. split; [reflexivity |].
  intros u' H. apply lookup_assign_other. exact H.
Qed.

End Values.
End UserDataFacts.

Import IrrigationGuide UserData.

(** X29.  [update_user_context] never raises, and [get_user_context]
    reads back what it wrote: afterwards the key holds the value for that
    user, every other key of the user holds what it held, and the context
    of every other user is as before. *)
Theorem user_context_round_trip :
  forall (V : Type) (user_context : user_dict V) (u : user_key)
         (key : string) (value : V),
    exists user_context',
      update_user_context user_context u key value = inr user_context' /\
      JSONIntentLoader.get key (get_user_context user_context' u)
      = Some value /\
      (forall k, k <> key ->
                 JSONIntentLoader.get k (get_user_context user_context' u)
                 = JSONIntentLoader.get k (get_user_context user_context u)) /\
      (forall u', u' <> u ->
                  get_user_context user_context' u'
                  = get_user_context user_context u').
Proof.
intros V d u key value. unfold update_user_context.
destruct (UserDataFacts.entry_made u d) as [E F].
rewrite E. cbn [rbind]. eexists. split; [reflexivity |].
unfold get_user_context.
split; [| split].
- rewrite UserDataFacts.lookup_assign. apply UserDataFacts.get_set_key.
- intros k H. rewrite UserDataFacts.lookup_assign.
  apply UserDataFacts.get_set_key_other. exact H.
- intros u' H. rewrite (UserDataFacts.lookup_assign_other u' u _ _ H).
  rewrite (F u' H). reflexivity.
Qed.

(** X30.  [update_user_preferences] never raises and merges: afterwards
    a key of the user holds what the last pair for it in [preferences]
    gives, and what it held before when [preferences] has none; the
    preferences of every other user are as before. *)
Theorem user_preferences_are_merged :
  forall (V : Type) (user_preferences : user_dict V) (u : user_key)
         (preferences : list (string * V)),
    exists user_preferences',
      update_user_preferences user_preferences u preferences
      = inr user_preferences' /\
      (forall k,
          JSONIntentLoader.get k (get_user_preferences user_preferences' u)
          = match JSONIntentLoader.get k (rev preferences) with
            | Some v => Some v
            | None =>
                JSONIntentLoader.get k
                  (get_user_preferences user_preferences u)
            end) /\
      (forall u', u' <> u ->
                  get_user_preferences user_preferences' u'
                  = get_user_preferences user_preferences u').
Proof.
intros V d u preferences. unfold update_user_preferences.
destruct (UserDataFacts.entry_made u d) as [E F].
rewrite E. cbn [rbind]. eexists. split; [reflexivity |].
unfold get_user_preferences. split.
- intros k. rewrite UserDataFacts.lookup_assign.
  apply UserDataFacts.get_update.
- intros u' H. rewrite (UserDataFacts.lookup_assign_other u' u _ _ H).
  rewrite (F u' H). reflexivity.
Qed.
